(** * NLB controller: naming, subnet resolution, load-balancer and
    target-group convergence

    A shallow embedding of the reconciliation core of the NLB service
    controller: [generator.NameLB] (internal/nlb/generator), the
    load-balancer controller (package [lb]), the target-group controller
    (package [tg]) and the listener actions (package [ls]).

    Go strings are byte strings ([string] of 8-bit [ascii]); pointers are
    [option]s, and dereferencing [nil] is a [Panic]; errors are their
    messages.  The cloud API, the store and the other controllers are
    interfaces: records of methods that take the state of the world and
    return the new state with their answer.  Every call on them is logged
    with its arguments, so that a statement can speak of the calls a
    controller places and of their order.  Log lines and Kubernetes events
    are not part of the model.

    Around that core: the controller configuration (package [config]:
    [Validate], [BindEnv]), the reading of annotations (packages [parser]
    and [loadbalancer]), the event handlers (package [handlers]) and the
    instance IDs of the store (package [store]). *)

From Stdlib Require Import ZArith String Ascii List Lia Bool DecimalString.
From Stdlib Require Import Sorting.Sorted Sorting.Permutation.
From stdpp Require Import gmap strings list.
Import ListNotations.

Local Open Scope string_scope.
Local Open Scope Z_scope.

(** ** Go strings *)

Module GoString.

(** [len(s)], [s[:n]] and [s1 + s2] on byte strings. *)
Definition len (s : string) : nat := String.length s.

Definition slice_to (n : nat) (s : string) : string := substring 0 n s.

Definition byte_of (c : ascii) : Z := Z.of_N (N_of_ascii c).

Definition bytes (s : string) : list Z := map byte_of (list_ascii_of_string s).

(** The ASCII class [[:alnum:]] of Go's regexp syntax: [0-9A-Za-z]. *)
Definition is_alnum (c : ascii) : bool :=
  let n := byte_of c in
  ((48 <=? n) && (n <=? 57)) || ((65 <=? n) && (n <=? 90))
  || ((97 <=? n) && (n <=? 122)).

Definition in_range (lo hi : Z) (c : ascii) : bool :=
  (lo <=? byte_of c) && (byte_of c <=? hi).

(** Width in bytes of the rune that [utf8.DecodeRuneInString] decodes at the
    head of [c :: rest] when [c] is not ASCII: the lead byte selects the
    sequence length and the accepted range of the second byte; an invalid
    or truncated sequence decodes as [RuneError] of width 1. *)
Definition rune_width (c : ascii) (rest : string) : nat :=
  let s0 := byte_of c in
  let '(sz, lo, hi) :=
    if (0xC2 <=? s0) && (s0 <=? 0xDF) then (2%nat, 0x80, 0xBF)
    else if s0 =? 0xE0 then (3%nat, 0xA0, 0xBF)
    else if (0xE1 <=? s0) && (s0 <=? 0xEC) then (3%nat, 0x80, 0xBF)
    else if s0 =? 0xED then (3%nat, 0x80, 0x9F)
    else if (0xEE <=? s0) && (s0 <=? 0xEF) then (3%nat, 0x80, 0xBF)
    else if s0 =? 0xF0 then (4%nat, 0x90, 0xBF)
    else if (0xF1 <=? s0) && (s0 <=? 0xF3) then (4%nat, 0x80, 0xBF)
    else if s0 =? 0xF4 then (4%nat, 0x80, 0x8F)
    else (1%nat, 0, 0) in
  match sz, rest with
  | 2%nat, String s1 _ => if in_range lo hi s1 then 2%nat else 1%nat
  | 3%nat, String s1 (String s2 _) =>
      if in_range lo hi s1 && in_range 0x80 0xBF s2 then 3%nat else 1%nat
  | 4%nat, String s1 (String s2 (String s3 _)) =>
      if in_range lo hi s1 && in_range 0x80 0xBF s2 && in_range 0x80 0xBF s3
      then 4%nat else 1%nat
  | _, _ => 1%nat
  end.

(** [regexp.MustCompile("[[:^alnum:]]").ReplaceAllString(s, repl)].  The
    pattern matches exactly one rune that is not an ASCII letter or digit;
    every match is replaced by [repl] and the other bytes are copied.
    [skip] counts the continuation bytes of a multi-byte rune that has
    already been replaced. *)
Fixpoint replace_from (repl : string) (skip : nat) (s : string) : string :=
  match s with
  | EmptyString => EmptyString
  | String c rest =>
      match skip with
      | S k => replace_from repl k rest
      | O =>
          if byte_of c <? 0x80 then
            if is_alnum c then String c (replace_from repl 0 rest)
            else repl ++ replace_from repl 0 rest
          else repl ++ replace_from repl (rune_width c rest - 1) rest
      end
  end.

Definition ReplaceAllNonAlnum (s repl : string) : string :=
  replace_from repl 0 s.

(** [strings.HasPrefix]. *)
Definition HasPrefix (s p : string) : bool := String.prefix p s.

(** [strings.Join]. *)
Definition Join (l : list string) (sep : string) : string :=
  String.concat sep l.

End GoString.

(** ** crypto/md5 and encoding/hex

    [NameLB] hashes with Go's [crypto/md5]; the digest is computed here as
    RFC 1321 defines it, on 32-bit words held in [Z] with the wrap-around
    written out. *)

Module MD5.

Definition w32 (x : Z) : Z := x mod 2 ^ 32.

Definition rotl32 (x c : Z) : Z :=
  Z.lor (w32 (Z.shiftl x c)) (Z.shiftr x (32 - c)).

Definition not32 (x : Z) : Z := Z.lxor x 0xffffffff.

Definition K : list Z :=
  [0xd76aa478; 0xe8c7b756; 0x242070db; 0xc1bdceee; 0xf57c0faf; 0x4787c62a; 0xa8304613; 0xfd469501;
   0x698098d8; 0x8b44f7af; 0xffff5bb1; 0x895cd7be; 0x6b901122; 0xfd987193; 0xa679438e; 0x49b40821;
   0xf61e2562; 0xc040b340; 0x265e5a51; 0xe9b6c7aa; 0xd62f105d; 0x02441453; 0xd8a1e681; 0xe7d3fbc8;
   0x21e1cde6; 0xc33707d6; 0xf4d50d87; 0x455a14ed; 0xa9e3e905; 0xfcefa3f8; 0x676f02d9; 0x8d2a4c8a;
   0xfffa3942; 0x8771f681; 0x6d9d6122; 0xfde5380c; 0xa4beea44; 0x4bdecfa9; 0xf6bb4b60; 0xbebfbc70;
   0x289b7ec6; 0xeaa127fa; 0xd4ef3085; 0x04881d05; 0xd9d4d039; 0xe6db99e5; 0x1fa27cf8; 0xc4ac5665;
   0xf4292244; 0x432aff97; 0xab9423a7; 0xfc93a039; 0x655b59c3; 0x8f0ccc92; 0xffeff47d; 0x85845dd1;
   0x6fa87e4f; 0xfe2ce6e0; 0xa3014314; 0x4e0811a1; 0xf7537e82; 0xbd3af235; 0x2ad7d2bb; 0xeb86d391].

Definition shifts : list Z :=
  [7; 12; 17; 22; 7; 12; 17; 22; 7; 12; 17; 22; 7; 12; 17; 22;
   5; 9; 14; 20; 5; 9; 14; 20; 5; 9; 14; 20; 5; 9; 14; 20;
   4; 11; 16; 23; 4; 11; 16; 23; 4; 11; 16; 23; 4; 11; 16; 23;
   6; 10; 15; 21; 6; 10; 15; 21; 6; 10; 15; 21; 6; 10; 15; 21].

Record state := State { sa : Z; sb : Z; sc : Z; sd : Z }.

Definition init : state :=
  State 0x67452301 0xefcdab89 0x98badcfe 0x10325476.

(** Little-endian 32-bit word of four bytes, and back. *)
Definition word_le (bs : list Z) : Z :=
  nth 0 bs 0 + 2 ^ 8 * nth 1 bs 0 + 2 ^ 16 * nth 2 bs 0 + 2 ^ 24 * nth 3 bs 0.

Definition bytes_le (x : Z) : list Z :=
  [x mod 256; (x / 2 ^ 8) mod 256; (x / 2 ^ 16) mod 256; (x / 2 ^ 24) mod 256].

Fixpoint words (n : nat) (bs : list Z) : list Z :=
  match n with
  | O => []
  | S n' => word_le (firstn 4 bs) :: words n' (skipn 4 bs)
  end.

Definition step (M : list Z) (st : state) (i : nat) : state :=
  let '(State a b c d) := st in
  let zi := Z.of_nat i in
  let '(f, g) :=
    if zi <? 16 then (Z.lor (Z.land b c) (Z.land (not32 b) d), zi)
    else if zi <? 32 then
      (Z.lor (Z.land d b) (Z.land (not32 d) c), (5 * zi + 1) mod 16)
    else if zi <? 48 then (Z.lxor (Z.lxor b c) d, (3 * zi + 5) mod 16)
    else (Z.lxor c (Z.lor b (not32 d)), (7 * zi) mod 16) in
  let f' := w32 (f + a + nth i K 0 + nth (Z.to_nat g) M 0) in
  State d (w32 (b + rotl32 f' (nth i shifts 0))) b c.

Definition block (bs : list Z) (st : state) : state :=
  let '(State a b c d) := fold_left (step (words 16 bs)) (seq 0 64) st in
  State (w32 (sa st + a)) (w32 (sb st + b)) (w32 (sc st + c)) (w32 (sd st + d)).

Fixpoint blocks (n : nat) (bs : list Z) (st : state) : state :=
  match n with
  | O => st
  | S n' => blocks n' (skipn 64 bs) (block (firstn 64 bs) st)
  end.

(** Padding: a 1 bit, zeros up to 56 mod 64, then the bit length as a
    64-bit little-endian integer. *)
Definition pad (bs : list Z) : list Z :=
  let n := Z.of_nat (length bs) in
  let zeros := Z.to_nat ((55 - n) mod 64) in
  let bits := (8 * n) mod 2 ^ 64 in
  bs ++ [0x80] ++ repeat 0 zeros
     ++ bytes_le (bits mod 2 ^ 32) ++ bytes_le (bits / 2 ^ 32).

(** [md5.Sum]: the 16 digest bytes. *)
Definition sum (msg : list Z) : list Z :=
  let p := pad msg in
  let '(State a b c d) := blocks (length p / 64) p init in
  bytes_le a ++ bytes_le b ++ bytes_le c ++ bytes_le d.

End MD5.

Module Hex.

Definition digit (n : Z) : ascii :=
  if n <? 10 then ascii_of_N (Z.to_N (48 + n))
  else ascii_of_N (Z.to_N (87 + n)).

(** [hex.EncodeToString]: two lower-case digits per byte. *)
Fixpoint EncodeToString (bs : list Z) : string :=
  match bs with
  | [] => EmptyString
  | b :: bs' =>
      String (digit (b / 16 mod 16)) (String (digit (b mod 16))
        (EncodeToString bs'))
  end.

End Hex.

Definition md5_hex (s : string) : string :=
  Hex.EncodeToString (MD5.sum (GoString.bytes s)).

(** ** Package generator: deterministic names and ownership tags *)

Module generator.

Definition TagKeyNamespace := "kubernetes.io/namespace".
Definition TagKeyServiceName := "kubernetes.io/service-name".
Definition TagKeyServicePort := "kubernetes.io/service-port".
Definition TagKeyLBCServiceResource := "service.k8s.aws/resource".
Definition TagKeyLBCCluster := "elbv2.k8s.aws/cluster".
Definition TagKeyLBCStack := "service.k8s.aws/stack".

(** [NameGenerator] and [TagGenerator], embedded in [NameTagGenerator]. *)
Record NameTagGenerator := {
  NLBNamePrefix : string;
  ClusterName : string;
  DefaultTags : gmap string string
}.

(** [NameLB] (main.go): the first four hex digits of the MD5 of
    [namespace + serviceName], appended to the sanitised
    [prefix-namespace-serviceName] cut to 26 bytes. *)
Definition NameLB (gen : NameTagGenerator) (namespace serviceName : string)
  : string :=
  let hash := GoString.slice_to 4 (md5_hex (namespace ++ serviceName)) in
  let name :=
    GoString.ReplaceAllNonAlnum (NLBNamePrefix gen) "-" ++ "-"
    ++ GoString.ReplaceAllNonAlnum namespace "" ++ "-"
    ++ GoString.ReplaceAllNonAlnum serviceName "" in
  let name :=
    if (26 <? GoString.len name)%nat then GoString.slice_to 26 name
    else name in
  name ++ "-" ++ hash.

(** The verb [%.Ns] of [fmt.Sprintf]: the first [n] runes of [s]. *)
Fixpoint truncate_runes (n skip : nat) (s : string) : string :=
  match s with
  | EmptyString => EmptyString
  | String c rest =>
      match skip with
      | S k => String c (truncate_runes n k rest)
      | O =>
          match n with
          | O => EmptyString
          | S n' =>
              String c (truncate_runes n'
                (if GoString.byte_of c <? 0x80 then 0
                 else GoString.rune_width c rest - 1) rest)
          end
      end
  end.

Definition NameTG (gen : NameTagGenerator)
  (namespace serviceName servicePort targetType protocol : string) : string :=
  let LBName := NameLB gen namespace serviceName in
  truncate_runes 12 0 (NLBNamePrefix gen) ++ "-"
  ++ truncate_runes 19 0
       (md5_hex (LBName ++ serviceName ++ servicePort ++ protocol
                 ++ targetType)).

(** [tagServiceResources] (tag.go): the default tags, then the ownership
    marker, the namespace, the service name, the cluster and the stack. *)
Definition tagServiceResources (gen : NameTagGenerator)
  (namespace serviceName : string) : gmap string string :=
  <[TagKeyLBCStack := namespace ++ "/" ++ serviceName]>
    (<[TagKeyLBCCluster := ClusterName gen]>
      (<[TagKeyServiceName := serviceName]>
        (<[TagKeyNamespace := namespace]>
          (<["kubernetes.io/cluster/" ++ ClusterName gen := "owned"]>
            (DefaultTags gen))))).

Definition TagLB (gen : NameTagGenerator) (namespace serviceName : string)
  : gmap string string :=
  <[TagKeyLBCServiceResource := "LoadBalancer"]>
    (tagServiceResources gen namespace serviceName).

Definition TagTGGroup := tagServiceResources.

(** [TagTG] as the target-group controller calls it, with the service name
    and the service port (the generator at the end of part_002; the
    [TagTG] of tag.go takes the namespace as well and adds a resource
    tag). *)
Definition TagTG (serviceName servicePort : string) : gmap string string :=
  <[TagKeyServicePort := servicePort]>
    (<[TagKeyServiceName := serviceName]> ∅).

End generator.

(** The reading of the naming rule given in the design notes: the
    sanitised namespace and service name are concatenated with nothing
    between them.  Kept for comparison with [generator.NameLB]. *)
Definition NameLB_unseparated (prefix namespace serviceName : string)
  : string :=
  GoString.slice_to 26
    (GoString.ReplaceAllNonAlnum prefix "-" ++ "-"
     ++ GoString.ReplaceAllNonAlnum namespace ""
     ++ GoString.ReplaceAllNonAlnum serviceName "")
  ++ "-" ++ GoString.slice_to 4 (md5_hex (namespace ++ serviceName)).

(** Sanitising by dropping: the bytes of [s] that are ASCII letters or
    digits, in order. *)
Fixpoint keep_alnum (s : string) : string :=
  match s with
  | EmptyString => EmptyString
  | String c rest =>
      if GoString.is_alnum c then String c (keep_alnum rest)
      else keep_alnum rest
  end.

(** Every byte of [s] satisfies [p]. *)
Fixpoint all_bytes (p : ascii -> bool) (s : string) : bool :=
  match s with
  | EmptyString => true
  | String c rest => p c && all_bytes p rest
  end.

Definition alnum_or_hyphen (c : ascii) : bool :=
  GoString.is_alnum c || Ascii.eqb c "-"%char.

Definition hex_digit (c : ascii) : bool :=
  GoString.in_range 48 57 c || GoString.in_range 97 102 c.

Definition nlb_gen : generator.NameTagGenerator :=
  {| generator.NLBNamePrefix := "nlb";
     generator.ClusterName := "test-cluster";
     generator.DefaultTags := ∅ |}.

(** ** Values shared with the Go libraries *)

(** A Go [error]: its message.  A function returning [error] returns
    [option error] ([None] is [nil]); one returning [(T, error)] with a
    zero [T] on failure returns [result T]. *)
Definition error := string.

Inductive result (A : Type) : Type :=
| Ok (a : A)
| Err (e : error).
Arguments Ok {A} a.
Arguments Err {A} e.

Module aws.

(** [aws.StringValue]: the pointed-to string, the empty string for [nil]. *)
Definition StringValue (p : option string) : string :=
  match p with Some s => s | None => "" end.

(** Modelled from the spec: the tag names of package aws are not among
    the sources.  They are the "cluster-ownership tag" and the
    "scheme-specific marker key (internal vs internet-facing)"; the values
    are the ones the Kubernetes cloud provider documents, and no statement
    below depends on them. *)
Definition TagNameCluster := "kubernetes.io/cluster".
Definition TagNameSubnetInternalELB := "kubernetes.io/role/internal-elb".
Definition TagNameSubnetPublicELB := "kubernetes.io/role/elb".

End aws.

Module strconv.

(** [strconv.Itoa]. *)
Definition Itoa (n : Z) : string :=
  DecimalString.NilZero.string_of_int (Z.to_int n).

(** [strconv.Atoi]: an optional sign and at least one decimal digit, within
    the range of a 64-bit [int]. *)
Definition Atoi (s : string) : option Z :=
  let '(neg, digits) :=
    match s with
    | String "-"%char r => (true, r)
    | String "+"%char r => (false, r)
    | _ => (false, s)
    end in
  match DecimalString.NilZero.uint_of_string digits with
  | Some u =>
      let v := Z.of_uint u in
      let n := if neg then - v else v in
      if (- 2 ^ 63 <=? n) && (n <? 2 ^ 63) then Some n else None
  | None => None
  end.

End strconv.

Module intstr.

(** [intstr.IntOrString]: the [Type] tag with [IntVal] (an [int32]) or
    [StrVal]. *)
Inductive IntOrString :=
| Int (IntVal : Z)
| String (StrVal : string).

Definition int32 (n : Z) : Z := (n + 2 ^ 31) mod 2 ^ 32 - 2 ^ 31.

Definition Parse (val : string) : IntOrString :=
  match strconv.Atoi val with
  | Some i => Int (int32 i)
  | None => String val
  end.

Definition to_string (v : IntOrString) : string :=
  match v with
  | Int i => strconv.Itoa i
  | String s => s
  end.

End intstr.

Module corev1.

Record ServicePort := {
  Name : string;
  Port : Z;
  NodePort : Z;
  TargetPort : intstr.IntOrString
}.

Record Service := {
  Namespace : string;
  ServiceName : string;
  Ports : list ServicePort
}.

End corev1.

Module extensions.

Record IngressBackend := {
  ServiceName : string;
  ServicePort : intstr.IntOrString
}.

End extensions.

Module types.

Record NamespacedName := { Namespace : string; Name : string }.

End types.

Module ec2.

Record Tag := { Key : option string; Value : option string }.

Record Subnet := {
  SubnetId : option string;
  AvailabilityZone : option string
}.

End ec2.

Module elbv2.

Definition LoadBalancerSchemeEnumInternal := "internal".
Definition LoadBalancerSchemeEnumInternetFacing := "internet-facing".
Definition LoadBalancerTypeEnumNetwork := "network".
Definition TargetTypeEnumInstance := "instance".
Definition TargetTypeEnumIp := "ip".

Record AvailabilityZone := {
  SubnetId : option string;
  ZoneName : option string
}.

Record LoadBalancer := {
  LoadBalancerArn : option string;
  LoadBalancerName : option string;
  DNSName : option string;
  Scheme : option string;
  IpAddressType : option string;
  AvailabilityZones : list AvailabilityZone
}.

Record CreateLoadBalancerInput := {
  cl_Name : option string;
  cl_Type : option string;
  cl_Scheme : option string;
  cl_IpAddressType : option string;
  cl_Subnets : list string;
  cl_Tags : gmap string string
}.

Record SetIpAddressTypeInput := {
  si_LoadBalancerArn : option string;
  si_IpAddressType : option string
}.

Record SetSubnetsInput := {
  ss_LoadBalancerArn : option string;
  ss_Subnets : list string
}.

Record Matcher := { HttpCode : option string }.

Record TargetGroup := {
  TargetGroupArn : option string;
  TargetGroupName : option string;
  HealthCheckPath : option string;
  HealthCheckPort : option string;
  HealthCheckProtocol : option string;
  HealthCheckIntervalSeconds : option Z;
  TGMatcher : option Matcher;
  HealthyThresholdCount : option Z;
  UnhealthyThresholdCount : option Z
}.

Record CreateTargetGroupInput := {
  ct_Name : option string;
  ct_HealthCheckIntervalSeconds : option Z;
  ct_HealthCheckPort : option string;
  ct_HealthCheckProtocol : option string;
  ct_TargetType : option string;
  ct_Protocol : option string;
  ct_HealthyThresholdCount : option Z;
  ct_UnhealthyThresholdCount : option Z;
  ct_Port : option Z;
  ct_HealthCheckPath : option string;
  ct_Matcher : option Matcher
}.

Record ModifyTargetGroupInput := {
  mt_TargetGroupArn : option string;
  mt_HealthCheckIntervalSeconds : option Z;
  mt_HealthCheckPort : option string;
  mt_HealthCheckProtocol : option string;
  mt_HealthyThresholdCount : option Z;
  mt_UnhealthyThresholdCount : option Z;
  mt_HealthCheckPath : option string;
  mt_Matcher : option Matcher
}.

End elbv2.

(** The parsed annotations of one Service ([annotations.Service]); the
    load-balancer part is [loadbalancer.Config]. *)
Module annotations.

Definition Attributes := list (string * string).

Record LoadBalancerConfig := {
  Scheme : option string;
  IPAddressType : option string;
  Subnets : list string;
  LBAttributes : Attributes
}.

Record TargetGroupConfig := {
  BackendProtocol : option string;
  TargetType : option string;
  HealthyThresholdCount : option Z;
  UnhealthyThresholdCount : option Z;
  SuccessCodes : option string;
  TGAttributes : Attributes
}.

Record HealthCheckConfig := {
  Port : option string;
  Protocol : option string;
  Path : option string;
  IntervalSeconds : option Z
}.

Record TagsConfig := { TagsLoadBalancer : gmap string string }.

Record Service := {
  LoadBalancer : LoadBalancerConfig;
  TargetGroup : TargetGroupConfig;
  HealthCheck : HealthCheckConfig;
  Tags : TagsConfig
}.

End annotations.

Module healthcheck.

(** Modelled from the spec: package healthcheck is not among the sources;
    [DefaultPort] is the sentinel "use traffic port" value, "traffic-port". *)
Definition DefaultPort := "traffic-port".

End healthcheck.

(** The controller configuration read from the store ([config.Configuration],
    the fields the load-balancer controller reads). *)
Module config.

Record Configuration := {
  RestrictScheme : bool;
  InternetFacingServices : gmap string (list string)
}.

End config.

Module util.

(** Modelled from the spec: [util.DeepEqual] (pkg/util/types) is not among
    the sources.  The controllers use it to decide whether a live field
    "differs" from the desired one; on the pointers to strings and integers
    compared here that is equality of the pointed-to values, two [nil]s
    being equal and [nil] differing from every value. *)
Definition DeepEqual {A : Type} `{EqDecision A} (x y : option A) : bool :=
  bool_decide (x = y).

(** Modelled from the spec: [util.AvailabilityZones.AsSubnets] is not among
    the sources; it lists the subnet of each availability zone of the live
    load balancer, whose set is compared with the desired subnet set. *)
Definition AsSubnets (azs : list elbv2.AvailabilityZone)
  : list (option string) :=
  map elbv2.SubnetId azs.

(** Modelled from the spec: [k8s.MetaNamespaceKey] is not among the
    sources; the service key is the namespace and the name. *)
Definition MetaNamespaceKey (service : corev1.Service) : string :=
  corev1.Namespace service ++ "/" ++ corev1.ServiceName service.

End util.

(** [sort.Strings]: increasing byte-wise order, by insertion. *)
Fixpoint insert_sorted (x : string) (l : list string) : list string :=
  match l with
  | [] => [x]
  | y :: l' => if String.leb x y then x :: l else y :: insert_sorted x l'
  end.

Fixpoint sort_strings (l : list string) : list string :=
  match l with
  | [] => []
  | x :: l' => insert_sorted x (sort_strings l')
  end.

#[global] Instance IntOrString_eq_dec : EqDecision intstr.IntOrString.
Proof. solve_decision. Defined.

#[global] Instance IntOrString_countable : Countable intstr.IntOrString.
Proof.
  refine (inj_countable'
    (fun v => match v with intstr.Int i => inl i | intstr.String s => inr s end)
    (fun x => match x with inl i => intstr.Int i | inr s => intstr.String s end)
    _).
  by intros [].
Defined.

#[global] Instance IngressBackend_eq_dec : EqDecision extensions.IngressBackend.
Proof. solve_decision. Defined.

#[global] Instance IngressBackend_countable :
  Countable extensions.IngressBackend.
Proof.
  refine (inj_countable'
    (fun b => (extensions.ServiceName b, extensions.ServicePort b))
    (fun p => extensions.Build_IngressBackend p.1 p.2) _).
  by intros [].
Defined.

#[global] Instance Matcher_eq_dec : EqDecision elbv2.Matcher.
Proof. solve_decision. Defined.

(** ** Package tg: the values the controllers exchange

    Modelled from the spec: the declarations of [tg.Targets],
    [tg.TargetGroup], [tg.TargetGroupGroup] and [tg.NewTargets] are not
    among the sources.  The fields are the ones the controllers read and
    write: a target group is "ARN, TargetType, ... ordered Targets", a
    group is the "mapping: backend (service name + port) -> TargetGroup". *)

Module tg.

Record Target := { Id : string; TargetPortNumber : Z }.

(** [tg.Targets]: what [NewTargets] builds and the targets controller
    fills in. *)
Record Targets := {
  TgArn : string;
  TargetsOf : list Target;
  TargetsTargetType : string;
  TargetsService : corev1.Service;
  TargetsBackend : extensions.IngressBackend
}.

(** [tg.TargetGroup]; [Members] is its field [Targets]. *)
Record TargetGroup := {
  Arn : string;
  TargetType : string;
  Members : list Target
}.

(** The target groups of one Service, by backend. *)
Record TargetGroupGroup := {
  TGByBackend : gmap extensions.IngressBackend TargetGroup
}.

Definition NewTargets (targetType : string) (service : corev1.Service)
  (backend : extensions.IngressBackend) : Targets :=
  {| TgArn := ""; TargetsOf := []; TargetsTargetType := targetType;
     TargetsService := service; TargetsBackend := backend |}.

(** The target-group ARNs a group holds. *)
Definition arns (g : TargetGroupGroup) : list string :=
  map (fun kv => Arn kv.2) (map_to_list (TGByBackend g)).

End tg.

(** [lb.LoadBalancer]: what the load-balancer [Reconcile] returns. *)
Module lb.

Record LoadBalancer := { Arn : string; DNSName : string }.

Record loadBalancerConfig := {
  Name : string;
  Tags : gmap string string;
  Type_ : option string;
  Scheme : option string;
  IpAddressType : option string;
  Subnets : list string
}.

End lb.

(** ** Calls on the collaborators

    Every call a controller places on the cloud API, the store or another
    controller is recorded, in order, with its arguments. *)
Inductive Call :=
| GetServiceAnnotations (key : string)
| GetConfig
| GetService (key : string)
| GetLoadBalancerByName (name : string)
| CreateLoadBalancer (input : elbv2.CreateLoadBalancerInput)
| DeleteLoadBalancerByArn (arn : string)
| SetIpAddressType (input : elbv2.SetIpAddressTypeInput)
| SetSubnets (input : elbv2.SetSubnetsInput)
| GetClusterSubnets
| GetSubnetsByNameOrID (names : list string)
| GetTargetGroupByName (name : string)
| CreateTargetGroup (input : elbv2.CreateTargetGroupInput)
| ModifyTargetGroup (input : elbv2.ModifyTargetGroupInput)
| TagsReconcileELB (arn : string) (tags : gmap string string)
| LBAttributesReconcile (arn : string) (attrs : annotations.Attributes)
| TGAttributesReconcile (arn : string) (attrs : annotations.Attributes)
| TargetsReconcile (targets : tg.Targets)
| TGGroupReconcile (service : corev1.Service)
| TGGroupGC (group : tg.TargetGroupGroup)
| TGGroupDelete (key : types.NamespacedName)
| LSGroupReconcile (lbArn : string) (service : corev1.Service)
    (group : tg.TargetGroupGroup)
| LSGroupDelete (lbArn : string).

(** The calls with which these controllers themselves change a cloud
    resource. *)
Definition mutating (c : Call) : bool :=
  match c with
  | CreateLoadBalancer _ | DeleteLoadBalancerByArn _ | SetIpAddressType _
  | SetSubnets _ | CreateTargetGroup _ | ModifyTargetGroup _ => true
  | _ => false
  end.

Definition is_delete_lb (c : Call) : bool :=
  match c with DeleteLoadBalancerByArn _ => true | _ => false end.

Definition is_create_lb (c : Call) : bool :=
  match c with CreateLoadBalancer _ => true | _ => false end.

Definition is_modify_lb (c : Call) : bool :=
  match c with SetIpAddressType _ | SetSubnets _ => true | _ => false end.

(** ** Effects: world state, call log and panics *)

(** How a computation ends: with a value, or with a Go run-time panic (a
    nil dereference, an index out of range). *)
Inductive Outcome (A : Type) : Type :=
| Done (a : A)
| Panic.
Arguments Done {A} a.
Arguments Panic {A}.

Record Run (W A : Type) : Type := mkRun {
  trace : list Call;
  world : W;
  outcome : Outcome A
}.
Arguments mkRun {W A} trace world outcome.
Arguments trace {W A} r.
Arguments world {W A} r.
Arguments outcome {W A} r.

Definition M (W A : Type) : Type := W -> Run W A.

Definition ret {W A} (a : A) : M W A := fun w => mkRun [] w (Done a).

Definition panic {W A} : M W A := fun w => mkRun [] w Panic.

Definition bind {W A B} (m : M W A) (k : A -> M W B) : M W B :=
  fun w =>
    let r := m w in
    match outcome r with
    | Done a =>
        let r' := k a (world r) in
        mkRun (trace r ++ trace r') (world r') (outcome r')
    | Panic => mkRun (trace r) (world r) Panic
    end.

(** One call on a collaborator: logged, then answered by the collaborator,
    which may change the world. *)
Definition call {W R} (c : Call) (f : W -> W * R) : M W R :=
  fun w => let '(w', r) := f w in mkRun [c] w' (Done r).

(** A pure helper that may panic. *)
Definition lift {W A} (o : Outcome A) : M W A := fun w => mkRun [] w o.

Notation "'let*' x ':=' m 'in' k" := (bind m (fun x => k))
  (at level 10, x pattern, m at level 100, k at level 200).

(** [if err := m; err != nil { return wrap(err) }; k]. *)
Definition check_err {W A} (m : M W (option error)) (wrap : error -> A)
  (k : M W A) : M W A :=
  let* e := m in
  match e with
  | Some err => ret (wrap err)
  | None => k
  end.

(** [x, err := m; if err != nil { return wrap(err) }; k x]. *)
Definition attempt {W A B} (m : M W (result A)) (wrap : error -> B)
  (k : A -> M W B) : M W B :=
  let* r := m in
  match r with
  | Err err => ret (wrap err)
  | Ok a => k a
  end.

(** [*p]: dereferencing [nil] panics. *)
Definition deref {A} (p : option A) : Outcome A :=
  match p with Some a => Done a | None => Panic end.

(** ** The collaborators' interfaces

    Each method takes the world and returns the world after the call and
    its answer.  [aws.CloudAPI] answers with the decoded response; a
    response whose list of resources the controllers index at 0 is given as
    that list. *)
Record CloudAPI (W : Type) := {
  cloud_GetLoadBalancerByName :
    string -> W -> W * result (option elbv2.LoadBalancer);
  cloud_CreateLoadBalancerWithContext :
    elbv2.CreateLoadBalancerInput -> W -> W * result (list elbv2.LoadBalancer);
  cloud_DeleteLoadBalancerByArn : string -> W -> W * option error;
  cloud_SetIpAddressTypeWithContext :
    elbv2.SetIpAddressTypeInput -> W -> W * option error;
  cloud_SetSubnetsWithContext :
    elbv2.SetSubnetsInput -> W -> W * option error;
  (** The map from subnet ARN to tags, in the order the [range] loop of
      [clusterSubnets] visits it. *)
  cloud_GetClusterSubnets : W -> W * result (list (string * list ec2.Tag));
  cloud_GetSubnetsByNameOrID :
    list string -> W -> W * result (list ec2.Subnet);
  cloud_GetTargetGroupByName :
    string -> W -> W * result (option elbv2.TargetGroup);
  cloud_CreateTargetGroupWithContext :
    elbv2.CreateTargetGroupInput -> W -> W * result (list elbv2.TargetGroup);
  cloud_ModifyTargetGroupWithContext :
    elbv2.ModifyTargetGroupInput -> W -> W * result (list elbv2.TargetGroup)
}.

Record Storer (W : Type) := {
  store_GetServiceAnnotations : string -> W -> W * result annotations.Service;
  store_GetConfig : W -> W * config.Configuration;
  store_GetService : string -> W -> W * result corev1.Service
}.

(** [tg.GroupController], [ls.GroupController], the tags controller and
    the attribute and targets controllers. *)
Record TGGroupController (W : Type) := {
  tgg_Reconcile : corev1.Service -> W -> W * result tg.TargetGroupGroup;
  tgg_GC : tg.TargetGroupGroup -> W -> W * option error;
  tgg_Delete : types.NamespacedName -> W -> W * option error
}.

Record LSGroupController (W : Type) := {
  lsg_Reconcile :
    string -> corev1.Service -> tg.TargetGroupGroup -> W -> W * option error;
  lsg_Delete : string -> W -> W * option error
}.

Record TagsController (W : Type) := {
  tags_ReconcileELB : string -> gmap string string -> W -> W * option error
}.

Record AttributesController (W : Type) := {
  attrs_Reconcile : string -> annotations.Attributes -> W -> W * option error
}.

(** The targets controller fills in the targets of the [tg.Targets] it is
    handed; the filled-in value is returned with the error. *)
Record TargetsController (W : Type) := {
  targets_Reconcile : tg.Targets -> W -> W * (tg.Targets * option error)
}.

Arguments cloud_GetLoadBalancerByName {W} _ _ _.
Arguments cloud_CreateLoadBalancerWithContext {W} _ _ _.
Arguments cloud_DeleteLoadBalancerByArn {W} _ _ _.
Arguments cloud_SetIpAddressTypeWithContext {W} _ _ _.
Arguments cloud_SetSubnetsWithContext {W} _ _ _.
Arguments cloud_GetClusterSubnets {W} _ _.
Arguments cloud_GetSubnetsByNameOrID {W} _ _ _.
Arguments cloud_GetTargetGroupByName {W} _ _ _.
Arguments cloud_CreateTargetGroupWithContext {W} _ _ _.
Arguments cloud_ModifyTargetGroupWithContext {W} _ _ _.
Arguments store_GetServiceAnnotations {W} _ _ _.
Arguments store_GetConfig {W} _ _.
Arguments store_GetService {W} _ _ _.
Arguments tgg_Reconcile {W} _ _ _.
Arguments tgg_GC {W} _ _ _.
Arguments tgg_Delete {W} _ _ _.
Arguments lsg_Reconcile {W} _ _ _ _ _.
Arguments lsg_Delete {W} _ _ _.
Arguments tags_ReconcileELB {W} _ _ _ _.
Arguments attrs_Reconcile {W} _ _ _ _.
Arguments targets_Reconcile {W} _ _ _.

(** ** Package lb: the load-balancer controller (part_002) *)

Module lbctl.

Record defaultController (W : Type) := {
  cloud : CloudAPI W;
  store : Storer W;
  nameTagGen : generator.NameTagGenerator;
  tgGroupController : TGGroupController W;
  lsGroupController : LSGroupController W;
  tagsController : TagsController W;
  attrsController : AttributesController W
}.
Arguments cloud {W} _.
Arguments store {W} _.
Arguments nameTagGen {W} _.
Arguments tgGroupController {W} _.
Arguments lsGroupController {W} _.
Arguments tagsController {W} _.
Arguments attrsController {W} _.

(** [subnetIsUsable]: false when [new] shares its availability zone with a
    subnet of [existing]; both zones are dereferenced. *)
Fixpoint subnetIsUsable (new : ec2.Subnet) (existing : list ec2.Subnet)
  : Outcome bool :=
  match existing with
  | [] => Done true
  | subnet :: rest =>
      match ec2.AvailabilityZone new, ec2.AvailabilityZone subnet with
      | Some a, Some b =>
          if String.eqb a b then Done false else subnetIsUsable new rest
      | _, _ => Panic
      end
  end.

(** The last segment of [strings.Split(arn, "/")]. *)
Fixpoint last_segment (acc s : string) : string :=
  match s with
  | EmptyString => acc
  | String c rest =>
      if Ascii.eqb c "/"%char then last_segment EmptyString rest
      else last_segment (acc ++ String c EmptyString) rest
  end.

(** The two loops over the cluster subnets: one subnet ID per tag whose key
    is [key]. *)
Definition tagged_subnet_ids (key : string)
  (clusterSubnets : list (string * list ec2.Tag)) : list string :=
  fold_left
    (fun subnetIds '(arn, subnetTags) =>
       fold_left
         (fun subnetIds tag =>
            if String.eqb (aws.StringValue (ec2.Key tag)) key
            then (subnetIds ++ [last_segment EmptyString arn])%list
            else subnetIds)
         subnetTags subnetIds)
    clusterSubnets [].

(** The loop keeping one subnet per availability zone: the state is
    [(useableSubnets, out)]. *)
Fixpoint keep_usable (o : list ec2.Subnet)
  (useableSubnets : list ec2.Subnet) (out : list string)
  : Outcome (list ec2.Subnet * list string) :=
  match o with
  | [] => Done (useableSubnets, out)
  | subnet :: rest =>
      match subnetIsUsable subnet useableSubnets with
      | Panic => Panic
      | Done true =>
          keep_usable rest (useableSubnets ++ [subnet])%list
            (out ++ [aws.StringValue (ec2.SubnetId subnet)])%list
      | Done false => keep_usable rest useableSubnets out
      end
  end.

(** The error of [clusterSubnets] when fewer than two subnets are kept;
    [log.Prettify(out)] is rendered as the joined list. *)
Definition too_few_subnets (key : string) (out : list string) : error :=
  "retrieval of subnets failed to resolve 2 qualified subnets. Subnets must "
  ++ "contain the " ++ aws.TagNameCluster
  ++ "/<cluster name> tag with a value of shared or owned and the " ++ key
  ++ " tag signifying it should be used for ALBs "
  ++ "Additionally, there must be at least 2 subnets with unique availability zones as required by "
  ++ "ALBs. Either tag subnets to meet this requirement or use the subnets annotation on the "
  ++ "service resource to explicitly call out what subnets to use for ALB creation. The subnets "
  ++ "that did resolve were " ++ GoString.Join out ",".

Section Controller.
Context {W : Type} (controller : defaultController W).

Definition clusterSubnets (scheme : string) : M W (result (list string)) :=
  let decided (key : string) :=
    attempt (call GetClusterSubnets
               (cloud_GetClusterSubnets (cloud controller)))
      (fun err => Err ("failed to get AWS tags. Error: " ++ err))
      (fun clusterSubnets =>
    let subnetIds := tagged_subnet_ids key clusterSubnets in
    attempt (call (GetSubnetsByNameOrID subnetIds)
               (cloud_GetSubnetsByNameOrID (cloud controller) subnetIds))
      (fun err => Err ("unable to fetch subnets due to " ++ err))
      (fun o =>
    let* kept := lift (keep_usable o [] []) in
    let out := kept.2 in
    if (length out <? 2)%nat then ret (Err (too_few_subnets key out))
    else ret (Ok (sort_strings out)))) in
  if String.eqb scheme elbv2.LoadBalancerSchemeEnumInternal
  then decided aws.TagNameSubnetInternalELB
  else if String.eqb scheme elbv2.LoadBalancerSchemeEnumInternetFacing
  then decided aws.TagNameSubnetPublicELB
  else ret (Err ("invalid scheme [" ++ scheme ++ "]")).

(** The first loop of [resolveSubnets]: entries shaped as an ID go to
    [subnets], the others to [names]. *)
Definition split_entries (in_ : list string) : list string * list string :=
  fold_left
    (fun '(names, subnets) subnet =>
       if GoString.HasPrefix subnet "subnet-" then (names, (subnets ++ [subnet])%list)
       else ((names ++ [subnet])%list, subnets))
    in_ ([], []).

Definition not_all_resolvable (in_ subnets : list string) : error :=
  "not all subnets were resolvable, (" ++ GoString.Join in_ ","
  ++ " != " ++ GoString.Join subnets "," ++ ")".

(** [resolveSubnets] returns the subnets it has together with the error. *)
Definition resolveSubnets (scheme : string) (in_ : list string)
  : M W (list string * option error) :=
  match in_ with
  | [] =>
      let* r := clusterSubnets scheme in
      match r with
      | Ok subnets => ret (subnets, None)
      | Err err => ret ([], Some err)
      end
  | _ =>
      let '(names, subnets) := split_entries in_ in
      let finish (subnets : list string) :=
        let subnets := sort_strings subnets in
        if negb (length subnets =? length in_)%nat
        then ret (subnets, Some (not_all_resolvable in_ subnets))
        else ret (subnets, None) in
      if (0 <? length names)%nat then
        attempt (call (GetSubnetsByNameOrID names)
                   (cloud_GetSubnetsByNameOrID (cloud controller) names))
          (fun err => (subnets, Some err))
          (fun o =>
             finish (subnets
                     ++ map (fun subnet => aws.StringValue (ec2.SubnetId subnet))
                          o)%list)
      else finish subnets
  end.

Definition buildLBConfig (service : corev1.Service)
  (serviceAnnos : annotations.Service) : M W (result lb.loadBalancerConfig) :=
  let lbTags :=
    annotations.TagsLoadBalancer (annotations.Tags serviceAnnos)
    ∪ generator.TagLB (nameTagGen controller)
        (corev1.Namespace service) (corev1.ServiceName service) in
  let* r :=
    resolveSubnets
      (aws.StringValue
         (annotations.Scheme (annotations.LoadBalancer serviceAnnos)))
      (annotations.Subnets (annotations.LoadBalancer serviceAnnos)) in
  match r with
  | (_, Some err) => ret (Err err)
  | (subnets, None) =>
      ret (Ok {|
        lb.Name :=
          generator.NameLB (nameTagGen controller)
            (corev1.Namespace service) (corev1.ServiceName service);
        lb.Tags := lbTags;
        lb.Type_ := Some elbv2.LoadBalancerTypeEnumNetwork;
        lb.Scheme := annotations.Scheme (annotations.LoadBalancer serviceAnnos);
        lb.IpAddressType :=
          annotations.IPAddressType (annotations.LoadBalancer serviceAnnos);
        lb.Subnets := subnets |})
  end.

Definition validateLBConfig (service : corev1.Service)
  (lbConfig : lb.loadBalancerConfig) : M W (option error) :=
  let* controllerCfg := call GetConfig (store_GetConfig (store controller)) in
  if config.RestrictScheme controllerCfg
     && String.eqb (aws.StringValue (lb.Scheme lbConfig))
          elbv2.LoadBalancerSchemeEnumInternetFacing
  then
    let whitelisted :=
      existsb (fun name => String.eqb name (corev1.ServiceName service))
        (default []
           (config.InternetFacingServices controllerCfg
              !! corev1.Namespace service)) in
    if negb whitelisted then
      ret (Some ("service " ++ corev1.Namespace service ++ "/"
                 ++ corev1.ServiceName service
                 ++ " is not in internetFacing whitelist"))
    else ret None
  else ret None.

Definition create_input (lbConfig : lb.loadBalancerConfig)
  : elbv2.CreateLoadBalancerInput :=
  {| elbv2.cl_Name := Some (lb.Name lbConfig);
     elbv2.cl_Type := lb.Type_ lbConfig;
     elbv2.cl_Scheme := lb.Scheme lbConfig;
     elbv2.cl_IpAddressType := lb.IpAddressType lbConfig;
     elbv2.cl_Subnets := lb.Subnets lbConfig;
     elbv2.cl_Tags := lb.Tags lbConfig |}.

Definition newLBInstance (lbConfig : lb.loadBalancerConfig)
  : M W (result elbv2.LoadBalancer) :=
  attempt (call (CreateLoadBalancer (create_input lbConfig))
             (cloud_CreateLoadBalancerWithContext (cloud controller)
                (create_input lbConfig)))
    Err
    (fun LoadBalancers =>
       match LoadBalancers with
       | instance :: _ => ret (Ok instance)
       | [] => panic
       end).

Definition recreateLBInstance (existingInstance : elbv2.LoadBalancer)
  (lbConfig : lb.loadBalancerConfig) : M W (result elbv2.LoadBalancer) :=
  let existingLBArn :=
    aws.StringValue (elbv2.LoadBalancerArn existingInstance) in
  check_err (call (DeleteLoadBalancerByArn existingLBArn)
           (cloud_DeleteLoadBalancerByArn (cloud controller) existingLBArn))
    Err
    (newLBInstance lbConfig).

Definition reconcileLBInstance (instance : elbv2.LoadBalancer)
  (lbConfig : lb.loadBalancerConfig) : M W (option error) :=
  let lbArn := aws.StringValue (elbv2.LoadBalancerArn instance) in
  let ipInput :=
    {| elbv2.si_LoadBalancerArn := elbv2.LoadBalancerArn instance;
       elbv2.si_IpAddressType := lb.IpAddressType lbConfig |} in
  check_err
    (if negb (util.DeepEqual (elbv2.IpAddressType instance)
                (lb.IpAddressType lbConfig))
     then call (SetIpAddressType ipInput)
            (cloud_SetIpAddressTypeWithContext (cloud controller) ipInput)
     else ret None)
    (fun err =>
       Some ("failed to modify IpAddressType of " ++ lbArn ++ " due to " ++ err))
    (let desiredSubnets : gset string := list_to_set (lb.Subnets lbConfig) in
     let currentSubnets : gset string :=
       list_to_set
         (map aws.StringValue
            (util.AsSubnets (elbv2.AvailabilityZones instance))) in
     let subnetsInput :=
       {| elbv2.ss_LoadBalancerArn := elbv2.LoadBalancerArn instance;
          elbv2.ss_Subnets := lb.Subnets lbConfig |} in
     check_err
       (if negb (bool_decide (currentSubnets = desiredSubnets))
        then call (SetSubnets subnetsInput)
               (cloud_SetSubnetsWithContext (cloud controller) subnetsInput)
        else ret None)
       (fun err =>
          Some ("failed to modify Subnets of " ++ lbArn ++ " due to " ++ err))
       (check_err
          (call (TagsReconcileELB lbArn (lb.Tags lbConfig))
             (tags_ReconcileELB (tagsController controller) lbArn
                (lb.Tags lbConfig)))
          (fun err =>
             Some ("failed to reconcile tags of " ++ lbArn ++ " due to " ++ err))
          (ret None))).

Definition isLBInstanceNeedRecreation (instance : elbv2.LoadBalancer)
  (lbConfig : lb.loadBalancerConfig) : bool :=
  if negb (util.DeepEqual (elbv2.Scheme instance) (lb.Scheme lbConfig))
  then true
  else false.

Definition ensureLBInstance (lbConfig : lb.loadBalancerConfig)
  : M W (result elbv2.LoadBalancer) :=
  attempt (call (GetLoadBalancerByName (lb.Name lbConfig))
             (cloud_GetLoadBalancerByName (cloud controller)
                (lb.Name lbConfig)))
    (fun err => Err ("failed to find existing LoadBalancer due to " ++ err))
    (fun found =>
       match found with
       | None =>
           attempt (newLBInstance lbConfig)
             (fun err => Err ("failed to create LoadBalancer due to " ++ err))
             (fun instance => ret (Ok instance))
       | Some instance =>
           if isLBInstanceNeedRecreation instance lbConfig then
             attempt (recreateLBInstance instance lbConfig)
               (fun err =>
                  Err ("failed to recreate LoadBalancer due to " ++ err))
               (fun instance => ret (Ok instance))
           else
             check_err (reconcileLBInstance instance lbConfig) Err
               (ret (Ok instance))
       end).

Definition Reconcile (service : corev1.Service) : M W (result lb.LoadBalancer) :=
  attempt (call (GetServiceAnnotations (util.MetaNamespaceKey service))
             (store_GetServiceAnnotations (store controller)
                (util.MetaNamespaceKey service)))
    Err
    (fun serviceAnnos =>
  attempt (buildLBConfig service serviceAnnos)
    (fun err =>
       Err ("failed to build LoadBalancer configuration due to " ++ err))
    (fun lbConfig =>
  check_err (validateLBConfig service lbConfig) Err
  (attempt (ensureLBInstance lbConfig) Err
    (fun instance =>
  let lbArn := aws.StringValue (elbv2.LoadBalancerArn instance) in
  let attrs :=
    annotations.LBAttributes (annotations.LoadBalancer serviceAnnos) in
  check_err (call (LBAttributesReconcile lbArn attrs)
           (attrs_Reconcile (attrsController controller) lbArn attrs))
    (fun err =>
       Err ("failed to reconcile attributes of " ++ lbArn ++ " due to " ++ err))
  (attempt (call (TGGroupReconcile service)
              (tgg_Reconcile (tgGroupController controller) service))
    (fun err => Err ("failed to reconcile targetGroups due to " ++ err))
    (fun tgGroup =>
  check_err (call (LSGroupReconcile lbArn service tgGroup)
           (lsg_Reconcile (lsGroupController controller) lbArn service tgGroup))
    (fun err => Err ("failed to reconcile listeners due to " ++ err))
  (check_err (call (TGGroupGC tgGroup)
            (tgg_GC (tgGroupController controller) tgGroup))
    (fun err => Err ("failed to GC targetGroups due to " ++ err))
  (ret (Ok {| lb.Arn := lbArn;
              lb.DNSName := aws.StringValue (elbv2.DNSName instance) |}))))))))).

Definition Delete (key : types.NamespacedName) : M W (option error) :=
  let lbName :=
    generator.NameLB (nameTagGen controller)
      (types.Namespace key) (types.Name key) in
  let* found :=
    call (GetLoadBalancerByName lbName)
      (cloud_GetLoadBalancerByName (cloud controller) lbName) in
  match found with
  | Err err => ret (Some ("failed to find existing LoadBalancer due to " ++ err))
  | Ok None => ret None
  | Ok (Some instance) =>
      let lbArn := aws.StringValue (elbv2.LoadBalancerArn instance) in
      check_err (call (LSGroupDelete lbArn)
               (lsg_Delete (lsGroupController controller) lbArn))
        (fun err => Some ("failed to delete listeners due to " ++ err))
      (check_err (call (TGGroupDelete key)
                (tgg_Delete (tgGroupController controller) key))
        (fun err => Some ("failed to GC targetGroups due to " ++ err))
      (check_err (call (DeleteLoadBalancerByArn lbArn)
                (cloud_DeleteLoadBalancerByArn (cloud controller) lbArn))
        Some
        (ret None)))
  end.

End Controller.

End lbctl.

(** ** Package tg: the target-group controller (part_003) *)

Module tgctl.

Definition targetGroupDefaultPort : Z := 1.

Record defaultController (W : Type) := {
  cloud : CloudAPI W;
  store : Storer W;
  nameTagGen : generator.NameTagGenerator;
  tagsController : TagsController W;
  attrsController : AttributesController W;
  targetsController : TargetsController W
}.
Arguments cloud {W} _.
Arguments store {W} _.
Arguments nameTagGen {W} _.
Arguments tagsController {W} _.
Arguments attrsController {W} _.
Arguments targetsController {W} _.

Definition is_http (protocol : string) : bool :=
  String.eqb protocol "HTTP" || String.eqb protocol "HTTPS".

Definition obind {A B} (o : Outcome A) (k : A -> Outcome B) : Outcome B :=
  match o with Done a => k a | Panic => Panic end.

(** [TGInstanceNeedsModification]: the comparisons in source order.  The
    protocol pointer is dereferenced only when the left operand of [&&] is
    true; [instance.Matcher.HttpCode] is read before its comparison. *)
Definition TGInstanceNeedsModification (instance : elbv2.TargetGroup)
  (serviceAnnos : annotations.Service) : Outcome bool :=
  let hc := annotations.HealthCheck serviceAnnos in
  let tgc := annotations.TargetGroup serviceAnnos in
  let needsChange := false in
  obind
    (if negb (util.DeepEqual (elbv2.HealthCheckPath instance)
                (annotations.Path hc))
     then obind (deref (annotations.Protocol hc))
            (fun p => Done (if is_http p then true else needsChange))
     else Done needsChange)
    (fun needsChange =>
  let needsChange :=
    if negb (util.DeepEqual (elbv2.HealthCheckPort instance)
               (annotations.Port hc))
    then true else needsChange in
  let needsChange :=
    if negb (util.DeepEqual (elbv2.HealthCheckProtocol instance)
               (annotations.Protocol hc))
    then true else needsChange in
  let needsChange :=
    if negb (util.DeepEqual (elbv2.HealthCheckIntervalSeconds instance)
               (annotations.IntervalSeconds hc))
    then true else needsChange in
  obind (deref (elbv2.TGMatcher instance)) (fun matcher =>
  obind
    (if negb (util.DeepEqual (elbv2.HttpCode matcher)
                (annotations.SuccessCodes tgc))
     then obind (deref (annotations.Protocol hc))
            (fun p => Done (if is_http p then true else needsChange))
     else Done needsChange)
    (fun needsChange =>
  let needsChange :=
    if negb (util.DeepEqual (elbv2.HealthyThresholdCount instance)
               (annotations.HealthyThresholdCount tgc))
    then true else needsChange in
  let needsChange :=
    if negb (util.DeepEqual (elbv2.UnhealthyThresholdCount instance)
               (annotations.UnhealthyThresholdCount tgc))
    then true else needsChange in
  Done needsChange))).

Definition create_input (name : string) (serviceAnnos : annotations.Service)
  (healthCheckPort : string) : Outcome elbv2.CreateTargetGroupInput :=
  let hc := annotations.HealthCheck serviceAnnos in
  let tgc := annotations.TargetGroup serviceAnnos in
  obind (deref (annotations.Protocol hc)) (fun protocol =>
  Done {|
    elbv2.ct_Name := Some name;
    elbv2.ct_HealthCheckIntervalSeconds := annotations.IntervalSeconds hc;
    elbv2.ct_HealthCheckPort := Some healthCheckPort;
    elbv2.ct_HealthCheckProtocol := annotations.Protocol hc;
    elbv2.ct_TargetType := annotations.TargetType tgc;
    elbv2.ct_Protocol := annotations.BackendProtocol tgc;
    elbv2.ct_HealthyThresholdCount := annotations.HealthyThresholdCount tgc;
    elbv2.ct_UnhealthyThresholdCount :=
      annotations.UnhealthyThresholdCount tgc;
    elbv2.ct_Port := Some targetGroupDefaultPort;
    elbv2.ct_HealthCheckPath :=
      if is_http protocol then annotations.Path hc else None;
    elbv2.ct_Matcher :=
      if is_http protocol
      then Some {| elbv2.HttpCode := annotations.SuccessCodes tgc |}
      else None |}).

Definition modify_input (instance : elbv2.TargetGroup)
  (serviceAnnos : annotations.Service) (healthCheckPort : string)
  : Outcome elbv2.ModifyTargetGroupInput :=
  let hc := annotations.HealthCheck serviceAnnos in
  let tgc := annotations.TargetGroup serviceAnnos in
  obind (deref (annotations.Protocol hc)) (fun protocol =>
  Done {|
    elbv2.mt_TargetGroupArn := elbv2.TargetGroupArn instance;
    elbv2.mt_HealthCheckIntervalSeconds := annotations.IntervalSeconds hc;
    elbv2.mt_HealthCheckPort := Some healthCheckPort;
    elbv2.mt_HealthCheckProtocol := annotations.Protocol hc;
    elbv2.mt_HealthyThresholdCount := annotations.HealthyThresholdCount tgc;
    elbv2.mt_UnhealthyThresholdCount :=
      annotations.UnhealthyThresholdCount tgc;
    elbv2.mt_HealthCheckPath :=
      if is_http protocol then annotations.Path hc else None;
    elbv2.mt_Matcher :=
      if is_http protocol
      then Some {| elbv2.HttpCode := annotations.SuccessCodes tgc |}
      else None |}).

Section Controller.
Context {W : Type} (controller : defaultController W).
(** [k8s.LookupServicePort] (internal/k8s) is not among the sources: the
    lookup of a port of a service by name or number is a parameter. *)
Context (LookupServicePort :
  corev1.Service -> intstr.IntOrString -> result corev1.ServicePort).

Definition resolveServiceHealthCheckPort (namespace serviceName : string)
  (servicePortAnnotation : intstr.IntOrString) (targetType : string)
  : M W (string * option error) :=
  match servicePortAnnotation with
  | intstr.Int _ => ret (intstr.to_string servicePortAnnotation, None)
  | intstr.String _ =>
      let servicePort := intstr.to_string servicePortAnnotation in
      if String.eqb servicePort healthcheck.DefaultPort
      then ret (servicePort, None)
      else
        let serviceKey := namespace ++ "/" ++ serviceName in
        attempt (call (GetService serviceKey)
                   (store_GetService (store controller) serviceKey))
          (fun err =>
             (servicePort,
              Some ("failed to resolve healthcheck service name: " ++ err)))
          (fun service =>
             match LookupServicePort service servicePortAnnotation with
             | Err err =>
                 ret (servicePort,
                      Some ("failed to resolve healthcheck port for service: "
                            ++ err))
             | Ok resolvedServicePort =>
                 if String.eqb targetType elbv2.TargetTypeEnumInstance then
                   if corev1.NodePort resolvedServicePort =? 0 then
                     ret (servicePort,
                          Some ("failed to find valid NodePort for service "
                                ++ serviceName ++ " with port "
                                ++ corev1.Name resolvedServicePort))
                   else
                     ret (strconv.Itoa (corev1.NodePort resolvedServicePort),
                          None)
                 else
                   ret (intstr.to_string
                          (corev1.TargetPort resolvedServicePort), None)
             end)
  end.

Definition newTGInstance (name : string) (serviceAnnos : annotations.Service)
  (healthCheckPort : string) : M W (result elbv2.TargetGroup) :=
  let* nlbTargetGroup :=
    lift (create_input name serviceAnnos healthCheckPort) in
  attempt (call (CreateTargetGroup nlbTargetGroup)
             (cloud_CreateTargetGroupWithContext (cloud controller)
                nlbTargetGroup))
    Err
    (fun TargetGroups =>
       match TargetGroups with
       | tgInstance :: _ => ret (Ok tgInstance)
       | [] => panic
       end).

Definition reconcileTGInstance (instance : elbv2.TargetGroup)
  (serviceAnnos : annotations.Service) (healthCheckPort : string)
  : M W (result elbv2.TargetGroup) :=
  let* needs := lift (TGInstanceNeedsModification instance serviceAnnos) in
  if needs : bool then
    let* nlbTargetGroup :=
      lift (modify_input instance serviceAnnos healthCheckPort) in
    attempt (call (ModifyTargetGroup nlbTargetGroup)
               (cloud_ModifyTargetGroupWithContext (cloud controller)
                  nlbTargetGroup))
      Err
      (fun TargetGroups =>
         match TargetGroups with
         | output :: _ => ret (Ok output)
         | [] => panic
         end)
  else ret (Ok instance).

Definition buildTags (service : corev1.Service)
  (backend : extensions.IngressBackend) (serviceAnnos : annotations.Service)
  : gmap string string :=
  annotations.TagsLoadBalancer (annotations.Tags serviceAnnos)
  ∪ (generator.TagTG (extensions.ServiceName backend)
       (intstr.to_string (extensions.ServicePort backend))
     ∪ generator.TagTGGroup (nameTagGen controller)
         (corev1.Namespace service) (corev1.ServiceName service)).

Definition findExistingTGInstance (tgName : string)
  : M W (result (option elbv2.TargetGroup)) :=
  call (GetTargetGroupByName tgName)
    (cloud_GetTargetGroupByName (cloud controller) tgName).

Definition Reconcile (service : corev1.Service)
  (backend : extensions.IngressBackend) : M W (result tg.TargetGroup) :=
  attempt (call (GetServiceAnnotations (util.MetaNamespaceKey service))
             (store_GetServiceAnnotations (store controller)
                (util.MetaNamespaceKey service)))
    (fun err => Err ("failed to load serviceAnnotation due to " ++ err))
    (fun serviceAnnos =>
  let protocol :=
    aws.StringValue
      (annotations.BackendProtocol (annotations.TargetGroup serviceAnnos)) in
  let targetType :=
    aws.StringValue
      (annotations.TargetType (annotations.TargetGroup serviceAnnos)) in
  let* port :=
    lift (deref (annotations.Port (annotations.HealthCheck serviceAnnos))) in
  let* resolved :=
    resolveServiceHealthCheckPort (corev1.Namespace service)
      (corev1.ServiceName service) (intstr.Parse port) targetType in
  match resolved with
  | (_, Some err) =>
      ret (Err ("failed to resolve healthcheck port due to " ++ err))
  | (healthCheckPort, None) =>
  let tgName :=
    generator.NameTG (nameTagGen controller) (corev1.Namespace service)
      (extensions.ServiceName backend)
      (intstr.to_string (extensions.ServicePort backend)) targetType protocol in
  attempt (findExistingTGInstance tgName)
    (fun err => Err ("failed to find existing targetGroup due to " ++ err))
    (fun found =>
  attempt
    (match found with
     | None =>
         attempt (newTGInstance tgName serviceAnnos healthCheckPort)
           (fun err => Err ("failed to create targetGroup due to " ++ err))
           (fun tgInstance => ret (Ok tgInstance))
     | Some tgInstance =>
         attempt (reconcileTGInstance tgInstance serviceAnnos healthCheckPort)
           (fun err => Err ("failed to modify targetGroup due to " ++ err))
           (fun tgInstance => ret (Ok tgInstance))
     end)
    Err
    (fun tgInstance =>
  let tgArn := aws.StringValue (elbv2.TargetGroupArn tgInstance) in
  let tgTags := buildTags service backend serviceAnnos in
  check_err (call (TagsReconcileELB tgArn tgTags)
           (tags_ReconcileELB (tagsController controller) tgArn tgTags))
    (fun err => Err ("failed to reconcile targetGroup tags due to " ++ err))
  (let attrs :=
     annotations.TGAttributes (annotations.TargetGroup serviceAnnos) in
   check_err (call (TGAttributesReconcile tgArn attrs)
            (attrs_Reconcile (attrsController controller) tgArn attrs))
    (fun err =>
       Err ("failed to reconcile targetGroup attributes due to " ++ err))
  (let tgTargets :=
     {| tg.TgArn := tgArn;
        tg.TargetsOf := tg.TargetsOf (tg.NewTargets targetType service backend);
        tg.TargetsTargetType := targetType;
        tg.TargetsService := service;
        tg.TargetsBackend := backend |} in
   let* reconciled :=
     call (TargetsReconcile tgTargets)
       (targets_Reconcile (targetsController controller) tgTargets) in
   match reconciled with
   | (_, Some err) =>
       ret (Err ("failed to reconcile targetGroup targets due to " ++ err))
   | (tgTargets, None) =>
       ret (Ok {| tg.Arn := tgArn;
                  tg.TargetType := targetType;
                  tg.Members := tg.TargetsOf tgTargets |})
   end))))
  end).

End Controller.

End tgctl.

(** ** Packages action and ls: listener rule actions (part_001, rules.go) *)

Module action.

Definition UseActionAnnotation := "use-annotation".

Record Action := {
  Type_ : option string;
  TargetGroupArn : option string;
  Order : option Z;
  ForwardConfig : option (list (option string))
}.

Record Config := { Actions : gmap string Action }.

Definition GetAction (c : Config) (serviceName : string) : result Action :=
  match Actions c !! serviceName with
  | Some a => Ok a
  | None =>
      Err ("backend with `servicePort: " ++ UseActionAnnotation
           ++ "` was configured with `serviceName: " ++ serviceName
           ++ "` but an action annotation for " ++ serviceName
           ++ " is not set")
  end.

Definition Use (s : string) : bool := String.eqb s UseActionAnnotation.

End action.

Module ls.

Definition ActionTypeEnumForward := "forward".

Definition set_order (order : Z) (a : action.Action) : action.Action :=
  {| action.Type_ := action.Type_ a;
     action.TargetGroupArn := action.TargetGroupArn a;
     action.Order := Some order;
     action.ForwardConfig := action.ForwardConfig a |}.

(** The closing loop of [buildActions]: [action.Order = index + 1]. *)
Fixpoint number_from (index : Z) (actions : list action.Action)
  : list action.Action :=
  match actions with
  | [] => []
  | a :: rest => set_order (index + 1) a :: number_from (index + 1) rest
  end.

Definition buildActions (serviceActions : action.Config)
  (backend : extensions.IngressBackend) (tgGroup : tg.TargetGroupGroup)
  : result (list action.Action) :=
  let built :=
    if action.Use (intstr.to_string (extensions.ServicePort backend)) then
      match action.GetAction serviceActions (extensions.ServiceName backend)
      with
      | Err err => Err err
      | Ok backendAction => Ok [backendAction]
      end
    else
      match tg.TGByBackend tgGroup !! backend with
      | None =>
          Err ("unable to find targetGroup for backend "
               ++ extensions.ServiceName backend ++ ":"
               ++ intstr.to_string (extensions.ServicePort backend))
      | Some targetGroup =>
          Ok [{| action.Type_ := Some ActionTypeEnumForward;
                 action.TargetGroupArn := Some (tg.Arn targetGroup);
                 action.Order := None;
                 action.ForwardConfig := Some [Some (tg.Arn targetGroup)] |}]
      end in
  match built with
  | Err err => Err err
  | Ok actions => Ok (number_from 0 actions)
  end.

End ls.

(** ** The target-group group controller, from the design

    Modelled from the spec: [tg.GroupController] (its [GC]) is not among the
    sources.  "[GC(group)]: enumerate all Target Groups tagged as owned by
    this Service that are not present in [group], and delete each."  The
    world is the list of ARNs of the target groups that carry the Service's
    ownership tags; [stale] are the ones [GC] deletes, and [GC] answers
    with the world they are deleted from. *)
Module tggroup.

Definition stale (owned : list string) (group : tg.TargetGroupGroup)
  : list string :=
  List.filter (fun arn => negb (bool_decide (arn ∈ tg.arns group))) owned.

Definition GC (group : tg.TargetGroupGroup) (owned : list string)
  : list string * option error :=
  (List.filter (fun arn => bool_decide (arn ∈ tg.arns group)) owned, None).

End tggroup.

(** ** A cloud account and a store to run the controllers against

    The test double the examples below run on: live load balancers and
    target groups, the subnets with the names they answer to, one Service
    with its annotations, and a switch that makes deletions fail. *)
Module Fake.

Record World := {
  lbs : list elbv2.LoadBalancer;
  tgs : list elbv2.TargetGroup;
  subnets : list (string * ec2.Subnet);
  clusterSubnets : list (string * list ec2.Tag);
  service : corev1.Service;
  annos : annotations.Service;
  cfg : config.Configuration;
  owned_tgs : list string;
  delete_fails : bool
}.

Definition set_lbs (l : list elbv2.LoadBalancer) (w : World) : World :=
  {| lbs := l; tgs := tgs w; subnets := subnets w;
     clusterSubnets := clusterSubnets w; service := service w;
     annos := annos w; cfg := cfg w; owned_tgs := owned_tgs w;
     delete_fails := delete_fails w |}.

Definition set_tgs (l : list elbv2.TargetGroup) (w : World) : World :=
  {| lbs := lbs w; tgs := l; subnets := subnets w;
     clusterSubnets := clusterSubnets w; service := service w;
     annos := annos w; cfg := cfg w; owned_tgs := owned_tgs w;
     delete_fails := delete_fails w |}.

Definition set_owned (l : list string) (w : World) : World :=
  {| lbs := lbs w; tgs := tgs w; subnets := subnets w;
     clusterSubnets := clusterSubnets w; service := service w;
     annos := annos w; cfg := cfg w; owned_tgs := l;
     delete_fails := delete_fails w |}.

Definition named (name : string) (l : elbv2.LoadBalancer) : bool :=
  bool_decide (elbv2.LoadBalancerName l = Some name).

Definition has_arn (arn : string) (l : elbv2.LoadBalancer) : bool :=
  bool_decide (elbv2.LoadBalancerArn l = Some arn).

Definition created (input : elbv2.CreateLoadBalancerInput)
  : elbv2.LoadBalancer :=
  {| elbv2.LoadBalancerArn := Some ("arn:lb/" ++ aws.StringValue (elbv2.cl_Name input));
     elbv2.LoadBalancerName := elbv2.cl_Name input;
     elbv2.DNSName := Some (aws.StringValue (elbv2.cl_Name input) ++ ".elb.test");
     elbv2.Scheme := elbv2.cl_Scheme input;
     elbv2.IpAddressType := elbv2.cl_IpAddressType input;
     elbv2.AvailabilityZones :=
       map (fun id => {| elbv2.SubnetId := Some id; elbv2.ZoneName := None |})
         (elbv2.cl_Subnets input) |}.

Definition created_tg (input : elbv2.CreateTargetGroupInput)
  : elbv2.TargetGroup :=
  {| elbv2.TargetGroupArn := Some ("arn:tg/" ++ aws.StringValue (elbv2.ct_Name input));
     elbv2.TargetGroupName := elbv2.ct_Name input;
     elbv2.HealthCheckPath := elbv2.ct_HealthCheckPath input;
     elbv2.HealthCheckPort := elbv2.ct_HealthCheckPort input;
     elbv2.HealthCheckProtocol := elbv2.ct_HealthCheckProtocol input;
     elbv2.HealthCheckIntervalSeconds :=
       elbv2.ct_HealthCheckIntervalSeconds input;
     elbv2.TGMatcher := elbv2.ct_Matcher input;
     elbv2.HealthyThresholdCount := elbv2.ct_HealthyThresholdCount input;
     elbv2.UnhealthyThresholdCount := elbv2.ct_UnhealthyThresholdCount input |}.

Definition modified_tg (input : elbv2.ModifyTargetGroupInput)
  (t : elbv2.TargetGroup) : elbv2.TargetGroup :=
  if bool_decide (elbv2.TargetGroupArn t = elbv2.mt_TargetGroupArn input) then
    {| elbv2.TargetGroupArn := elbv2.TargetGroupArn t;
       elbv2.TargetGroupName := elbv2.TargetGroupName t;
       elbv2.HealthCheckPath := elbv2.mt_HealthCheckPath input;
       elbv2.HealthCheckPort := elbv2.mt_HealthCheckPort input;
       elbv2.HealthCheckProtocol := elbv2.mt_HealthCheckProtocol input;
       elbv2.HealthCheckIntervalSeconds :=
         elbv2.mt_HealthCheckIntervalSeconds input;
       elbv2.TGMatcher := elbv2.mt_Matcher input;
       elbv2.HealthyThresholdCount := elbv2.mt_HealthyThresholdCount input;
       elbv2.UnhealthyThresholdCount :=
         elbv2.mt_UnhealthyThresholdCount input |}
  else t.

Definition cloud : CloudAPI World := {|
  cloud_GetLoadBalancerByName name w :=
    (w, Ok (List.find (named name) (lbs w)));
  cloud_CreateLoadBalancerWithContext input w :=
    (set_lbs (lbs w ++ [created input])%list w, Ok [created input]);
  cloud_DeleteLoadBalancerByArn arn w :=
    if delete_fails w then (w, Some "AccessDenied")
    else (set_lbs (List.filter (fun l => negb (has_arn arn l)) (lbs w)) w, None);
  cloud_SetIpAddressTypeWithContext input w := (w, None);
  cloud_SetSubnetsWithContext input w := (w, None);
  cloud_GetClusterSubnets w := (w, Ok (clusterSubnets w));
  cloud_GetSubnetsByNameOrID names w :=
    (w, Ok (map snd
              (List.filter (fun kv => bool_decide (kv.1 ∈ names)) (subnets w))));
  cloud_GetTargetGroupByName name w :=
    (w, Ok (List.find
              (fun t => bool_decide (elbv2.TargetGroupName t = Some name))
              (tgs w)));
  cloud_CreateTargetGroupWithContext input w :=
    (set_tgs (tgs w ++ [created_tg input])%list w, Ok [created_tg input]);
  cloud_ModifyTargetGroupWithContext input w :=
    (set_tgs (map (modified_tg input) (tgs w)) w,
     Ok (List.filter
           (fun t =>
              bool_decide (elbv2.TargetGroupArn t = elbv2.mt_TargetGroupArn input))
           (map (modified_tg input) (tgs w))))
|}.

Definition store : Storer World := {|
  store_GetServiceAnnotations key w :=
    (w, if String.eqb key (util.MetaNamespaceKey (service w))
        then Ok (annos w) else Err "annotations not found");
  store_GetConfig w := (w, cfg w);
  store_GetService key w :=
    (w, if String.eqb key (util.MetaNamespaceKey (service w))
        then Ok (service w) else Err "service not found")
|}.

Definition tgGroup : TGGroupController World := {|
  tgg_Reconcile service w :=
    (w, Ok {| tg.TGByBackend := ∅ |});
  tgg_GC group w :=
    (set_owned (tggroup.GC group (owned_tgs w)).1 w,
     (tggroup.GC group (owned_tgs w)).2);
  tgg_Delete key w :=
    if delete_fails w then (w, Some "AccessDenied")
    else (set_owned [] w, None)
|}.

Definition lsGroup : LSGroupController World := {|
  lsg_Reconcile lbArn service group w := (w, None);
  lsg_Delete lbArn w := (w, None)
|}.

Definition tagsCtl : TagsController World := {|
  tags_ReconcileELB arn tags w := (w, None)
|}.

Definition attrsCtl : AttributesController World := {|
  attrs_Reconcile arn attrs w := (w, None)
|}.

Definition targetsCtl : TargetsController World := {|
  targets_Reconcile targets w := (w, (targets, None))
|}.

Definition lbController : lbctl.defaultController World := {|
  lbctl.cloud := cloud;
  lbctl.store := store;
  lbctl.nameTagGen := nlb_gen;
  lbctl.tgGroupController := tgGroup;
  lbctl.lsGroupController := lsGroup;
  lbctl.tagsController := tagsCtl;
  lbctl.attrsController := attrsCtl
|}.

Definition tgController : tgctl.defaultController World := {|
  tgctl.cloud := cloud;
  tgctl.store := store;
  tgctl.nameTagGen := nlb_gen;
  tgctl.tagsController := tagsCtl;
  tgctl.attrsController := attrsCtl;
  tgctl.targetsController := targetsCtl
|}.

(** A port lookup for the examples: the first port of the service with
    the given name, or the given number. *)
Definition LookupServicePort (service : corev1.Service)
  (port : intstr.IntOrString) : result corev1.ServicePort :=
  match
    List.find
      (fun p =>
         match port with
         | intstr.String name => String.eqb (corev1.Name p) name
         | intstr.Int n => corev1.Port p =? n
         end)
      (corev1.Ports service)
  with
  | Some p => Ok p
  | None => Err ("Unable to find port " ++ intstr.to_string port)
  end.

(** The Service [default/foo]: port [http], container port 8080, node port
    31080. *)
Definition foo : corev1.Service := {|
  corev1.Namespace := "default";
  corev1.ServiceName := "foo";
  corev1.Ports :=
    [{| corev1.Name := "http"; corev1.Port := 80; corev1.NodePort := 31080;
        corev1.TargetPort := intstr.Int 8080 |}]
|}.

Definition foo_annos (scheme port protocol targetType : string)
  : annotations.Service := {|
  annotations.LoadBalancer :=
    {| annotations.Scheme := Some scheme;
       annotations.IPAddressType := Some "ipv4";
       annotations.Subnets := ["subnet-aaa"; "subnet-bbb"];
       annotations.LBAttributes := [] |};
  annotations.TargetGroup :=
    {| annotations.BackendProtocol := Some "TCP";
       annotations.TargetType := Some targetType;
       annotations.HealthyThresholdCount := Some 3;
       annotations.UnhealthyThresholdCount := Some 3;
       annotations.SuccessCodes := Some "200";
       annotations.TGAttributes := [] |};
  annotations.HealthCheck :=
    {| annotations.Port := Some port;
       annotations.Protocol := Some protocol;
       annotations.Path := Some "/healthz";
       annotations.IntervalSeconds := Some 30 |};
  annotations.Tags := {| annotations.TagsLoadBalancer := ∅ |}
|}.

Definition subnet (id zone : string) : ec2.Subnet :=
  {| ec2.SubnetId := Some id; ec2.AvailabilityZone := Some zone |}.

Definition role_tag (key : string) : ec2.Tag :=
  {| ec2.Key := Some key; ec2.Value := Some "1" |}.

(** An account with no load balancer and no target group yet. *)
Definition account (a : annotations.Service) (deleteFails : bool) : World := {|
  lbs := [];
  tgs := [];
  subnets :=
    [("subnet-ccc", subnet "subnet-ccc" "us-east-1a");
     ("subnet-aaa", subnet "subnet-aaa" "us-east-1a");
     ("subnet-bbb", subnet "subnet-bbb" "us-east-1b");
     ("db-subnet", subnet "subnet-ddd" "us-east-1c")];
  clusterSubnets :=
    [("arn:aws:ec2:us-east-1:1:subnet/subnet-ccc",
      [role_tag aws.TagNameSubnetInternalELB]);
     ("arn:aws:ec2:us-east-1:1:subnet/subnet-aaa",
      [role_tag aws.TagNameSubnetInternalELB]);
     ("arn:aws:ec2:us-east-1:1:subnet/subnet-bbb",
      [role_tag aws.TagNameSubnetInternalELB]);
     ("arn:aws:ec2:us-east-1:1:subnet/subnet-ddd",
      [role_tag aws.TagNameSubnetPublicELB])];
  service := foo;
  annos := a;
  cfg := {| config.RestrictScheme := false;
            config.InternetFacingServices := ∅ |};
  owned_tgs := [];
  delete_fails := deleteFails
|}.

End Fake.

(** ** Vocabulary of the statements *)



(** The live target group [t] with another matcher. *)
Definition set_matcher (m : option elbv2.Matcher) (t : elbv2.TargetGroup)
  : elbv2.TargetGroup :=
  {| elbv2.TargetGroupArn := elbv2.TargetGroupArn t;
     elbv2.TargetGroupName := elbv2.TargetGroupName t;
     elbv2.HealthCheckPath := elbv2.HealthCheckPath t;
     elbv2.HealthCheckPort := elbv2.HealthCheckPort t;
     elbv2.HealthCheckProtocol := elbv2.HealthCheckProtocol t;
     elbv2.HealthCheckIntervalSeconds := elbv2.HealthCheckIntervalSeconds t;
     elbv2.TGMatcher := m;
     elbv2.HealthyThresholdCount := elbv2.HealthyThresholdCount t;
     elbv2.UnhealthyThresholdCount := elbv2.UnhealthyThresholdCount t |}.

(** The forward action [buildActions] builds for a target group. *)
Definition forward_to (arn : string) : action.Action :=
  {| action.Type_ := Some ls.ActionTypeEnumForward;
     action.TargetGroupArn := Some arn;
     action.Order := Some 1;
     action.ForwardConfig := Some [Some arn] |}.

(** The desired configuration of the load balancer of [default/foo], and an
    account in which that load balancer lives with the given scheme. *)
Definition foo_lb_config (scheme : string) : lb.loadBalancerConfig :=
  {| lb.Name := "nlb-default-foo-a4dd";
     lb.Tags := ∅;
     lb.Type_ := Some elbv2.LoadBalancerTypeEnumNetwork;
     lb.Scheme := Some scheme;
     lb.IpAddressType := Some "ipv4";
     lb.Subnets := ["subnet-aaa"; "subnet-bbb"] |}.

Definition foo_lb (scheme : string) : elbv2.LoadBalancer :=
  Fake.created (lbctl.create_input (foo_lb_config scheme)).

Definition account_with_lb (scheme : string) (deleteFails : bool)
  : Fake.World :=
  Fake.set_lbs [foo_lb scheme]
    (Fake.account (Fake.foo_annos scheme "80" "TCP" "ip") deleteFails).

(** The backend [foo:80] and a group holding target group A for it. *)
Definition foo_backend : extensions.IngressBackend :=
  {| extensions.ServiceName := "foo"; extensions.ServicePort := intstr.Int 80 |}.

Definition group_A : tg.TargetGroupGroup :=
  {| tg.TGByBackend :=
       {[ foo_backend :=
            {| tg.Arn := "arn:tg/A"; tg.TargetType := "ip";
               tg.Members := [] |} ]} |}.








(** The Service [default/foo] with an HTTP health check on the named port
    "http", target type instance; the target group the controller creates
    for it, and the modification it sends for it. *)
Definition foo_http_annos : annotations.Service :=
  Fake.foo_annos "internal" "http" "HTTP" "instance".

Definition foo_live_tg : elbv2.TargetGroup :=
  {| elbv2.TargetGroupArn := Some "arn:tg/nlb-b481aadcb05ea477b62";
     elbv2.TargetGroupName := Some "nlb-b481aadcb05ea477b62";
     elbv2.HealthCheckPath := Some "/healthz";
     elbv2.HealthCheckPort := Some "31080";
     elbv2.HealthCheckProtocol := Some "HTTP";
     elbv2.HealthCheckIntervalSeconds := Some 30;
     elbv2.TGMatcher := Some {| elbv2.HttpCode := Some "200" |};
     elbv2.HealthyThresholdCount := Some 3;
     elbv2.UnhealthyThresholdCount := Some 3 |}.

Definition foo_modify_input : elbv2.ModifyTargetGroupInput :=
  {| elbv2.mt_TargetGroupArn := Some "arn:tg/nlb-b481aadcb05ea477b62";
     elbv2.mt_HealthCheckIntervalSeconds := Some 30;
     elbv2.mt_HealthCheckPort := Some "31080";
     elbv2.mt_HealthCheckProtocol := Some "HTTP";
     elbv2.mt_HealthyThresholdCount := Some 3;
     elbv2.mt_UnhealthyThresholdCount := Some 3;
     elbv2.mt_HealthCheckPath := Some "/healthz";
     elbv2.mt_Matcher := Some {| elbv2.HttpCode := Some "200" |} |}.

(** The first [k] bytes of [s] are none of them letters or digits. *)
Fixpoint skippable (k : nat) (s : string) : Prop :=
  match k, s with
  | S k', String c rest => GoString.is_alnum c = false /\ skippable k' rest
  | _, _ => True
  end.

(** The order of [sort.Strings]. *)
Definition string_le (a b : string) : Prop := String.leb a b = true.

Definition zone (s : ec2.Subnet) : option string := ec2.AvailabilityZone s.

Definition subnet_id (s : ec2.Subnet) : string :=
  aws.StringValue (ec2.SubnetId s).

Definition has_zone (s : ec2.Subnet) : Prop := zone s <> None.

(** The marker tag key of a scheme. *)
Definition role_key (scheme : string) : option string :=
  if String.eqb scheme elbv2.LoadBalancerSchemeEnumInternal
  then Some aws.TagNameSubnetInternalELB
  else if String.eqb scheme elbv2.LoadBalancerSchemeEnumInternetFacing
  then Some aws.TagNameSubnetPublicELB
  else None.

(** [s] stands in [o] at a place where no earlier subnet has its zone. *)
Definition first_of_zone (seen : list ec2.Subnet) (o : list ec2.Subnet)
  (s : ec2.Subnet) : Prop :=
  exists pre post,
    o = (pre ++ s :: post)%list /\ ~ In (zone s) (map zone (seen ++ pre)).

(** An entry shaped as a subnet ID. *)
Definition is_id (s : string) : bool := GoString.HasPrefix s "subnet-".

(** ** hash/crc32

    [generateALBNamePrefix] hashes the cluster name with the table of the
    polynomial 0xedb88320; the table and the update are the byte-wise ones
    of the Go library, on 32-bit words held in [Z]. *)
Module crc32.

(** One step of the table construction: [crc >> 1], xored with the
    polynomial when the low bit was set. *)
Definition shift_once (poly crc : Z) : Z :=
  if Z.land crc 1 =? 1 then Z.lxor (Z.shiftr crc 1) poly
  else Z.shiftr crc 1.

Definition table_entry (poly i : Z) : Z := Nat.iter 8 (shift_once poly) i.

Definition MakeTable (poly : Z) : list Z :=
  map (fun i => table_entry poly (Z.of_nat i)) (seq 0 256).

Definition not32 (x : Z) : Z := Z.lxor x 0xffffffff.

Definition update_byte (tab : list Z) (crc v : Z) : Z :=
  Z.lxor (nth (Z.to_nat (Z.lxor (Z.land crc 0xff) v)) tab 0) (Z.shiftr crc 8).

Definition Update (crc : Z) (tab : list Z) (p : list Z) : Z :=
  not32 (fold_left (update_byte tab) p (not32 crc)).

(** [hash.Sum(nil)] after one [Write]: the checksum, big-endian. *)
Definition Sum (tab : list Z) (p : list Z) : list Z :=
  let s := Update 0 tab p in
  [Z.land (Z.shiftr s 24) 0xff; Z.land (Z.shiftr s 16) 0xff;
   Z.land (Z.shiftr s 8) 0xff; Z.land s 0xff].

End crc32.

(** ** Package config: the controller configuration (part_003)

    [Configuration] with the fields that [Validate], [BindEnv] and
    [generator.NewNameTagGenerator] read or write; [config] above is the
    part of it the load-balancer controller reads from the store.  The two
    package variables [AnnotationsPrefix] that [Validate] assigns are the
    [Prefixes]. *)
Module settings.

Definition defaultNLBNamePrefix := "nlb".
Definition defaultNLBAnnotationPrefix := "nlb.service.kubernetes.io".

Record Configuration := {
  ClusterName : string;
  AnnotationPrefix : string;
  ALBNamePrefix : string;
  DefaultTags : gmap string string;
  DefaultTargetType : string;
  RestrictScheme : bool;
  RestrictSchemeNamespace : string;
  NLBAnnotationPrefix : string;
  NLBNamePrefix : string
}.

Record Prefixes := {
  parser_AnnotationsPrefix : string;
  serviceparser_AnnotationsPrefix : string
}.

Definition set_DefaultTargetType (v : string) (cfg : Configuration) :=
  {| ClusterName := ClusterName cfg; AnnotationPrefix := AnnotationPrefix cfg;
     ALBNamePrefix := ALBNamePrefix cfg; DefaultTags := DefaultTags cfg;
     DefaultTargetType := v; RestrictScheme := RestrictScheme cfg;
     RestrictSchemeNamespace := RestrictSchemeNamespace cfg;
     NLBAnnotationPrefix := NLBAnnotationPrefix cfg;
     NLBNamePrefix := NLBNamePrefix cfg |}.

Definition set_ClusterName (v : string) (cfg : Configuration) :=
  {| ClusterName := v; AnnotationPrefix := AnnotationPrefix cfg;
     ALBNamePrefix := ALBNamePrefix cfg; DefaultTags := DefaultTags cfg;
     DefaultTargetType := DefaultTargetType cfg;
     RestrictScheme := RestrictScheme cfg;
     RestrictSchemeNamespace := RestrictSchemeNamespace cfg;
     NLBAnnotationPrefix := NLBAnnotationPrefix cfg;
     NLBNamePrefix := NLBNamePrefix cfg |}.

Definition set_ALBNamePrefix (v : string) (cfg : Configuration) :=
  {| ClusterName := ClusterName cfg; AnnotationPrefix := AnnotationPrefix cfg;
     ALBNamePrefix := v; DefaultTags := DefaultTags cfg;
     DefaultTargetType := DefaultTargetType cfg;
     RestrictScheme := RestrictScheme cfg;
     RestrictSchemeNamespace := RestrictSchemeNamespace cfg;
     NLBAnnotationPrefix := NLBAnnotationPrefix cfg;
     NLBNamePrefix := NLBNamePrefix cfg |}.

Definition set_NLBNamePrefix (v : string) (cfg : Configuration) :=
  {| ClusterName := ClusterName cfg; AnnotationPrefix := AnnotationPrefix cfg;
     ALBNamePrefix := ALBNamePrefix cfg; DefaultTags := DefaultTags cfg;
     DefaultTargetType := DefaultTargetType cfg;
     RestrictScheme := RestrictScheme cfg;
     RestrictSchemeNamespace := RestrictSchemeNamespace cfg;
     NLBAnnotationPrefix := NLBAnnotationPrefix cfg; NLBNamePrefix := v |}.

Definition set_RestrictScheme (v : bool) (cfg : Configuration) :=
  {| ClusterName := ClusterName cfg; AnnotationPrefix := AnnotationPrefix cfg;
     ALBNamePrefix := ALBNamePrefix cfg; DefaultTags := DefaultTags cfg;
     DefaultTargetType := DefaultTargetType cfg; RestrictScheme := v;
     RestrictSchemeNamespace := RestrictSchemeNamespace cfg;
     NLBAnnotationPrefix := NLBAnnotationPrefix cfg;
     NLBNamePrefix := NLBNamePrefix cfg |}.

Definition set_RestrictSchemeNamespace (v : string) (cfg : Configuration) :=
  {| ClusterName := ClusterName cfg; AnnotationPrefix := AnnotationPrefix cfg;
     ALBNamePrefix := ALBNamePrefix cfg; DefaultTags := DefaultTags cfg;
     DefaultTargetType := DefaultTargetType cfg;
     RestrictScheme := RestrictScheme cfg; RestrictSchemeNamespace := v;
     NLBAnnotationPrefix := NLBAnnotationPrefix cfg;
     NLBNamePrefix := NLBNamePrefix cfg |}.

(** [generateALBNamePrefix]: the CRC-32 of the cluster name, in hex. *)
Definition generateALBNamePrefix (clusterName : string) : string :=
  Hex.EncodeToString
    (crc32.Sum (crc32.MakeTable 0xedb88320) (GoString.bytes clusterName)).

(** [Validate] writes through its receiver and assigns the two package
    variables: it returns the configuration and the prefixes as they are
    when it returns, with the error. *)
Definition Validate (cfg : Configuration) (globals : Prefixes)
  : Configuration * Prefixes * option error :=
  let cfg :=
    if String.eqb (DefaultTargetType cfg) "pod"
    then set_DefaultTargetType elbv2.TargetTypeEnumIp cfg else cfg in
  if (GoString.len (ClusterName cfg) =? 0)%nat
  then (cfg, globals, Some "clusterName must be specified")
  else if (12 <? GoString.len (ALBNamePrefix cfg))%nat
  then (cfg, globals, Some "ALBNamePrefix must be 12 characters or less")
  else
    let cfg :=
      if (GoString.len (ALBNamePrefix cfg) =? 0)%nat
      then set_ALBNamePrefix (generateALBNamePrefix (ClusterName cfg)) cfg
      else cfg in
    if (12 <? GoString.len (NLBNamePrefix cfg))%nat
    then (cfg, globals, Some "ALBNamePrefix must be 12 characters or less")
    else
      let cfg :=
        if (GoString.len (NLBNamePrefix cfg) =? 0)%nat
        then set_NLBNamePrefix (generateALBNamePrefix (ClusterName cfg)) cfg
        else cfg in
      (cfg,
       {| parser_AnnotationsPrefix := AnnotationPrefix cfg;
          serviceparser_AnnotationsPrefix := NLBAnnotationPrefix cfg |},
       None).

(** [strconv.ParseBool]. *)
Definition ParseBool (str : string) : option bool :=
  if existsb (String.eqb str) ["1"; "t"; "T"; "TRUE"; "true"; "True"]
  then Some true
  else if existsb (String.eqb str) ["0"; "f"; "F"; "FALSE"; "false"; "False"]
  then Some false
  else None.

(** [BindEnv]: the environment is the map [os.LookupEnv] reads. *)
Definition BindEnv (env : gmap string string) (cfg : Configuration)
  : Configuration * option error :=
  let cfg :=
    match env !! "CLUSTER_NAME" with
    | Some s => set_ClusterName s cfg | None => cfg end in
  let cfg :=
    match env !! "ALB_PREFIX" with
    | Some s => set_ALBNamePrefix s cfg | None => cfg end in
  let restrict (name : string) (cfg : Configuration)
    (k : Configuration -> Configuration * option error) :=
    match env !! name with
    | Some s =>
        match ParseBool s with
        | None =>
            (cfg,
             Some (name ++ " environment variable must be either true or false. Value was: "
                   ++ s))
        | Some v => k (set_RestrictScheme v cfg)
        end
    | None => k cfg
    end in
  restrict "ALB_CONTROLLER_RESTRICT_SCHEME" cfg (fun cfg =>
  let cfg :=
    match env !! "ALB_CONTROLLER_RESTRICT_SCHEME_CONFIG_NAMESPACE" with
    | Some s => set_RestrictSchemeNamespace s cfg | None => cfg end in
  let cfg :=
    match env !! "NLB_PREFIX" with
    | Some s => set_NLBNamePrefix s cfg | None => cfg end in
  restrict "NLB_CONTROLLER_RESTRICT_SCHEME" cfg (fun cfg =>
  let cfg :=
    match env !! "NLB_CONTROLLER_RESTRICT_SCHEME_CONFIG_NAMESPACE" with
    | Some s => set_RestrictSchemeNamespace s cfg | None => cfg end in
  (cfg, None))).

(** [generator.NewNameTagGenerator] (main.go). *)
Definition NewNameTagGenerator (cfg : Configuration)
  : generator.NameTagGenerator :=
  {| generator.NLBNamePrefix := NLBNamePrefix cfg;
     generator.ClusterName := ClusterName cfg;
     generator.DefaultTags := DefaultTags cfg |}.

End settings.

(** ** Package strings: Split and TrimSpace *)

Module gostrings.

(** [strings.Split(s, sep)] for a separator of one byte: the pieces of [s]
    between the separators, one more than there are separators. *)
Fixpoint split_from (sep : ascii) (piece s : string) : list string :=
  match s with
  | EmptyString => [piece]
  | String c rest =>
      if Ascii.eqb c sep then piece :: split_from sep EmptyString rest
      else split_from sep (piece ++ String c EmptyString) rest
  end.

Definition Split (s : string) (sep : ascii) : list string :=
  split_from sep EmptyString s.

Definition of_bytes (l : list nat) : string :=
  string_of_list_ascii (map ascii_of_nat l).

(** The UTF-8 encodings of the runes for which [unicode.IsSpace] holds:
    tab to carriage return, space, U+0085, U+00A0, U+1680, U+2000 to U+200A,
    U+2028, U+2029, U+202F, U+205F and U+3000. *)
Definition spaces : list (list nat) :=
  [[9]; [10]; [11]; [12]; [13]; [32]; [0xC2; 0x85]; [0xC2; 0xA0];
   [0xE1; 0x9A; 0x80];
   [0xE2; 0x80; 0x80]; [0xE2; 0x80; 0x81]; [0xE2; 0x80; 0x82];
   [0xE2; 0x80; 0x83]; [0xE2; 0x80; 0x84]; [0xE2; 0x80; 0x85];
   [0xE2; 0x80; 0x86]; [0xE2; 0x80; 0x87]; [0xE2; 0x80; 0x88];
   [0xE2; 0x80; 0x89]; [0xE2; 0x80; 0x8A];
   [0xE2; 0x80; 0xA8]; [0xE2; 0x80; 0xA9]; [0xE2; 0x80; 0xAF];
   [0xE2; 0x81; 0x9F]; [0xE3; 0x80; 0x80]]%nat.

(** [s] without its prefix [p], when it has it. *)
Fixpoint strip (p s : string) : option string :=
  match p, s with
  | EmptyString, _ => Some s
  | String a p', String b s' => if Ascii.eqb a b then strip p' s' else None
  | String _ _, EmptyString => None
  end.

(** [s] without the first of the [patterns] it starts with. *)
Fixpoint strip_any (patterns : list string) (s : string) : option string :=
  match patterns with
  | [] => None
  | p :: rest =>
      match strip p s with
      | Some s' => Some s'
      | None => strip_any rest s
      end
  end.

Fixpoint trim_from (patterns : list string) (fuel : nat) (s : string)
  : string :=
  match fuel with
  | O => s
  | S fuel' =>
      match strip_any patterns s with
      | Some s' => trim_from patterns fuel' s'
      | None => s
      end
  end.

Definition reverse (s : string) : string :=
  string_of_list_ascii (rev (list_ascii_of_string s)).

(** [strings.TrimSpace]: the white-space runes at the head are dropped,
    then those at the tail, a rune at the tail being one whose encoding the
    string ends with. *)
Definition TrimSpace (s : string) : string :=
  let left := trim_from (map of_bytes spaces) (String.length s) s in
  reverse
    (trim_from (map (fun p => reverse (of_bytes p)) spaces)
       (String.length left) (reverse left)).

End gostrings.

(** ** Package parser: reading annotations (service.go, second part) *)

Module parser.

(** The error values of package errors that these parsers return, told
    apart as the source tells them apart; [Errorf] is an error made by
    [fmt.Errorf]. *)
Inductive Error :=
| ErrMissingAnnotations
| ErrInvalidAnnotationName
| InvalidAnnotationContentReason (reason : string)
| Errorf (message : string).

Inductive Parsed (A : Type) : Type :=
| Value (a : A)
| Failed (e : Error).
Arguments Value {A} a.
Arguments Failed {A} e.

(** [AnnotationInterface]: [nil], or an object with its annotations. *)
Definition AnnotationInterface := option (gmap string string).

Section Prefixed.
(** The package variable [AnnotationsPrefix], as it is when the parsers
    run. *)
Context (AnnotationsPrefix : string).

Definition GetAnnotationWithPrefix (suffix : string) : string :=
  AnnotationsPrefix ++ "/" ++ suffix.

Definition parseString (a : gmap string string) (name : string)
  : Parsed string :=
  match a !! name with
  | Some val => Value val
  | None => Failed ErrMissingAnnotations
  end.

Definition checkAnnotation (name : string) (ing : AnnotationInterface)
  : option Error :=
  match ing with
  | None => Some ErrMissingAnnotations
  | Some a =>
      if bool_decide (a = ∅) then Some ErrMissingAnnotations
      else if String.eqb name "" then Some ErrInvalidAnnotationName
      else None
  end.

Definition GetStringAnnotation (name : string) (ing : AnnotationInterface)
  : Parsed string :=
  let v := GetAnnotationWithPrefix name in
  match checkAnnotation v ing with
  | Some err => Failed err
  | None =>
      match ing with
      | Some a => parseString a v
      | None => Failed ErrMissingAnnotations
      end
  end.

Definition GetStringSliceAnnotation (name : string)
  (ing : AnnotationInterface) : list string :=
  match GetStringAnnotation name ing with
  | Failed _ => []
  | Value v =>
      fold_left
        (fun out part =>
           let p := gostrings.TrimSpace part in
           if String.eqb p "" then out else (out ++ [p])%list)
        (gostrings.Split v ","%char) []
  end.

End Prefixed.

(** [MergeString], [MergeInt64] and [MergeBool] have one body. *)
Definition Merge {A : Type} `{EqDecision A} (a b : option A) (d : A)
  : option A :=
  match b with
  | None => a
  | Some _ =>
      match a with
      | None => b
      | Some va => if bool_decide (va = d) then b else a
      end
  end.

Definition MergeString : option string -> option string -> string
  -> option string := Merge.
Definition MergeInt64 : option Z -> option Z -> Z -> option Z := Merge.
Definition MergeBool : option bool -> option bool -> bool -> option bool :=
  Merge.

End parser.

(** ** Package loadbalancer: the load-balancer annotations (part_000) *)

Module loadbalancer.

Definition IpAddressTypeIpv4 := "ipv4".
Definition IpAddressTypeDualstack := "dualstack".

Definition DefaultIPAddressType := IpAddressTypeIpv4.
Definition DefaultScheme := elbv2.LoadBalancerSchemeEnumInternal.
Definition DefaultType := elbv2.LoadBalancerTypeEnumNetwork.

Section Prefixed.
Context (AnnotationsPrefix : string).

(** The loop of [parseAttributes]: the state is [(badAttrs, lbattrs)]. *)
Definition parse_attribute (state : list string * annotations.Attributes)
  (attr : string) : list string * annotations.Attributes :=
  let '(badAttrs, lbattrs) := state in
  let parts := gostrings.Split attr "="%char in
  if String.eqb attr "" then state
  else
    match parts with
    | [key; value] =>
        (badAttrs,
         (lbattrs
          ++ [(gostrings.TrimSpace key, gostrings.TrimSpace value)])%list)
    | _ => ((badAttrs ++ [attr])%list, lbattrs)
    end.

Definition parseAttributes (ing : parser.AnnotationInterface)
  : parser.Parsed annotations.Attributes :=
  let attrs :=
    parser.GetStringSliceAnnotation AnnotationsPrefix
      "load-balancer-attributes" ing in
  let oldattrs :=
    parser.GetStringSliceAnnotation AnnotationsPrefix "attributes" ing in
  let attrs :=
    if (length attrs =? 0)%nat && negb (length oldattrs =? 0)%nat
    then oldattrs else attrs in
  match attrs with
  | [] => parser.Value []
  | _ =>
      let '(badAttrs, lbattrs) := fold_left parse_attribute attrs ([], []) in
      if (0 <? length badAttrs)%nat then
        parser.Failed
          (parser.Errorf
             ("unable to parse `" ++ GoString.Join badAttrs ", "
              ++ "` into Key=Value pair(s)"))
      else parser.Value lbattrs
  end.

(** [Parse]: the [type] annotation is read and not kept. *)
Definition Parse (ing : parser.AnnotationInterface)
  : parser.Parsed annotations.LoadBalancerConfig :=
  let ipAddressType :=
    match parser.GetStringAnnotation AnnotationsPrefix "ip-address-type" ing
    with
    | parser.Value v => v
    | parser.Failed _ => DefaultIPAddressType
    end in
  if negb (String.eqb ipAddressType IpAddressTypeIpv4)
     && negb (String.eqb ipAddressType IpAddressTypeDualstack)
  then
    parser.Failed
      (parser.InvalidAnnotationContentReason
         ("IP address type must be either `" ++ IpAddressTypeIpv4
          ++ "` or `" ++ IpAddressTypeDualstack ++ "`"))
  else
    let scheme :=
      match parser.GetStringAnnotation AnnotationsPrefix "scheme" ing with
      | parser.Value v => v
      | parser.Failed _ => DefaultScheme
      end in
    if negb (String.eqb scheme elbv2.LoadBalancerSchemeEnumInternal)
       && negb (String.eqb scheme elbv2.LoadBalancerSchemeEnumInternetFacing)
    then
      parser.Failed
        (parser.InvalidAnnotationContentReason
           ("LB scheme must be either `"
            ++ elbv2.LoadBalancerSchemeEnumInternal ++ "` or `"
            ++ elbv2.LoadBalancerSchemeEnumInternetFacing ++ "`"))
    else
      match parseAttributes ing with
      | parser.Failed err => parser.Failed err
      | parser.Value attributes =>
          parser.Value
            {| annotations.Scheme := Some scheme;
               annotations.IPAddressType := Some ipAddressType;
               annotations.Subnets :=
                 parser.GetStringSliceAnnotation AnnotationsPrefix "subnets"
                   ing;
               annotations.LBAttributes := attributes |}
      end.

Definition Dummy : annotations.LoadBalancerConfig :=
  {| annotations.Scheme := Some elbv2.LoadBalancerSchemeEnumInternal;
     annotations.IPAddressType := Some IpAddressTypeIpv4;
     annotations.Subnets := [];
     annotations.LBAttributes := [] |}.

End Prefixed.

End loadbalancer.

(** ** Package handlers: from cluster events to reconcile requests

    The work queue is the list of the requests added to it, in order; the
    cache is what its [List] answers for a namespace ([None] for all
    namespaces). *)

Module handlers.

Section Handlers.
(** [class.IsValidService] (internal/service/annotations/class) is not
    among the sources: whether a Service is of the class is a parameter.
    So is the type of an endpoint subset, compared by [reflect.DeepEqual]. *)
Context (IsValidService : string -> corev1.Service -> bool).
Context {EndpointSubset : Type} `{EqDecision EndpointSubset}.

(** [corev1.Endpoints]; a [nil] slice of subsets is [None]. *)
Record Endpoints := {
  EndpointsNamespace : string;
  Subsets : option (list EndpointSubset)
}.

Record Handler := {
  ServiceClass : string;
  Cache : option string -> result (list corev1.Service)
}.

Definition Request (service : corev1.Service) : types.NamespacedName :=
  {| types.Namespace := corev1.Namespace service;
     types.Name := corev1.ServiceName service |}.

(** The loop shared by the Endpoints and the Node handlers. *)
Definition enqueue_valid (h : Handler) (items : list corev1.Service)
  (queue : list types.NamespacedName) : list types.NamespacedName :=
  fold_left
    (fun queue service =>
       if negb (IsValidService (ServiceClass h) service) then queue
       else (queue ++ [Request service])%list)
    items queue.

(** [EnqueueRequestsForServiceEvent]. *)
Definition enqueueIfServiceClassMatched (h : Handler)
  (service : corev1.Service) (queue : list types.NamespacedName)
  : list types.NamespacedName :=
  if negb (IsValidService (ServiceClass h) service) then queue
  else (queue ++ [Request service])%list.

Definition Service_Create := enqueueIfServiceClassMatched.

Definition Service_Update (h : Handler) (ObjectOld ObjectNew : corev1.Service)
  (queue : list types.NamespacedName) : list types.NamespacedName :=
  enqueueIfServiceClassMatched h ObjectNew
    (enqueueIfServiceClassMatched h ObjectOld queue).

Definition Service_Delete := enqueueIfServiceClassMatched.

Definition Service_Generic := enqueueIfServiceClassMatched.

(** [EnqueueRequestsForEndpointsEvent]. *)
Definition Endpoints_enqueueImpactedServices (h : Handler)
  (endpoints : Endpoints) (queue : list types.NamespacedName)
  : list types.NamespacedName :=
  match Cache h (Some (EndpointsNamespace endpoints)) with
  | Err _ => queue
  | Ok items => enqueue_valid h items queue
  end.

Definition Endpoints_Create := Endpoints_enqueueImpactedServices.

Definition Endpoints_Update (h : Handler) (epOld epNew : Endpoints)
  (queue : list types.NamespacedName) : list types.NamespacedName :=
  if negb (bool_decide (Subsets epOld = Subsets epNew))
  then Endpoints_enqueueImpactedServices h epNew queue
  else queue.

Definition Endpoints_Delete := Endpoints_enqueueImpactedServices.

Definition Endpoints_Generic (h : Handler)
  (queue : list types.NamespacedName) : list types.NamespacedName := queue.

(** [EnqueueRequestsForNodeEvent]. *)
Definition Node_enqueueImpactedServices (h : Handler)
  (queue : list types.NamespacedName) : list types.NamespacedName :=
  match Cache h None with
  | Err _ => queue
  | Ok items => enqueue_valid h items queue
  end.

Definition Node_Create := Node_enqueueImpactedServices.

Definition Node_Delete := Node_enqueueImpactedServices.

Definition Node_Update (h : Handler) (queue : list types.NamespacedName)
  : list types.NamespacedName := queue.

Definition Node_Generic (h : Handler) (queue : list types.NamespacedName)
  : list types.NamespacedName := queue.

End Handlers.

End handlers.

(** ** Package store: instance IDs of nodes and pods (main.go, third part) *)

Module k8sstore.

Record Node := {
  NodeName : string;
  KubeletVersion : string;
  DoNotUse_ExternalID : string;
  ProviderID : string;
  Addresses : list string
}.

Record Pod := { PodIP : string; HostIP : string }.

(** The listers of the store: the nodes and the pods in the order their
    [List] gives them. *)
Record k8sStore := {
  NodeLister : list Node;
  PodLister : list Pod
}.

Section Store.
(** [semver.ParseTolerant] and [ingressclass.IsValidNode] are libraries
    outside the sources: the major and minor version read from a kubelet
    version (both 0 when it does not parse, the error being dropped) and
    the validity of a node are parameters. *)
Context (ParseTolerant : string -> Z * Z).
Context (IsValidNode : Node -> bool).

Definition ListNodes (s : k8sStore) : list Node :=
  fold_left
    (fun nodes n => if negb (IsValidNode n) then nodes else (nodes ++ [n])%list)
    (NodeLister s) [].

Definition GetNodeInstanceID (node : Node) : result string :=
  let '(Major, Minor) := ParseTolerant (KubeletVersion node) in
  if (Major =? 1) && (Minor <=? 10) then Ok (DoNotUse_ExternalID node)
  else
    let providerID := ProviderID node in
    if String.eqb providerID "" then
      Err ("No providerID found for node " ++ NodeName node)
    else Ok (lbctl.last_segment EmptyString providerID).

Definition GetInstanceIDFromPodIP (s : k8sStore) (ip : string)
  : result string :=
  let hostIP :=
    match List.find (fun pod => String.eqb (PodIP pod) ip) (PodLister s) with
    | Some pod => HostIP pod
    | None => EmptyString
    end in
  if String.eqb hostIP "" then
    Err ("Unable to locate a host for pod ip: " ++ ip)
  else
    match
      List.find
        (fun node => existsb (fun addr => String.eqb addr hostIP)
                       (Addresses node))
        (NodeLister s)
    with
    | Some node => GetNodeInstanceID node
    | None => Err ("Unable to locate a host for pod ip: " ++ ip)
    end.

(** The loop of [GetClusterInstanceIDs]: the first error ends it. *)
Fixpoint instance_ids (nodes : list Node) (acc : list string)
  : result (list string) :=
  match nodes with
  | [] => Ok acc
  | node :: rest =>
      match GetNodeInstanceID node with
      | Err err => Err err
      | Ok instanceID => instance_ids rest (acc ++ [instanceID])%list
      end
  end.

Definition GetClusterInstanceIDs (s : k8sStore) : result (list string) :=
  instance_ids (ListNodes s) [].

End Store.

End k8sstore.

(** ** Vocabulary of the further statements *)

(** A computation none of whose calls satisfies [p]. *)
Definition avoids {W A} (p : Call -> bool) (m : M W A) : Prop :=
  forall w, Forall (fun c => p c = false) (trace (m w)).

(** The keys [TagLB] writes itself. *)
Definition ownership_keys (gen : generator.NameTagGenerator) : list string :=
  [ "kubernetes.io/cluster/" ++ generator.ClusterName gen;
    generator.TagKeyNamespace; generator.TagKeyServiceName;
    generator.TagKeyLBCCluster; generator.TagKeyLBCStack;
    generator.TagKeyLBCServiceResource ].

(** The account with the scheme restricted to the listed services. *)
Definition restricted (allowed : gmap string (list string)) (w : Fake.World)
  : Fake.World :=
  {| Fake.lbs := Fake.lbs w; Fake.tgs := Fake.tgs w;
     Fake.subnets := Fake.subnets w;
     Fake.clusterSubnets := Fake.clusterSubnets w;
     Fake.service := Fake.service w; Fake.annos := Fake.annos w;
     Fake.cfg := {| config.RestrictScheme := true;
                    config.InternetFacingServices := allowed |};
     Fake.owned_tgs := Fake.owned_tgs w;
     Fake.delete_fails := Fake.delete_fails w |}.

(** A subnet of the cluster carries the tag key [key]. *)
Definition marked (key : string) (subnetTags : list ec2.Tag) : Prop :=
  exists tag, In tag subnetTags /\ aws.StringValue (ec2.Key tag) = key.

(** The one call, if any, with which the target-group [Reconcile] creates
    or modifies the target group. *)
Definition instance_calls (calls : list Call) : Prop :=
  calls = []
  \/ (exists input, calls = [CreateTargetGroup input])
  \/ (exists input, calls = [ModifyTargetGroup input]).

(** Annotations without a health-check port. *)
Definition without_port (a : annotations.Service) : annotations.Service :=
  {| annotations.LoadBalancer := annotations.LoadBalancer a;
     annotations.TargetGroup := annotations.TargetGroup a;
     annotations.HealthCheck :=
       {| annotations.Port := None;
          annotations.Protocol :=
            annotations.Protocol (annotations.HealthCheck a);
          annotations.Path := annotations.Path (annotations.HealthCheck a);
          annotations.IntervalSeconds :=
            annotations.IntervalSeconds (annotations.HealthCheck a) |};
     annotations.Tags := annotations.Tags a |}.

(** The settings of a controller started with the cluster name alone, and
    the annotation prefixes before [Validate] has run. *)
Definition nlb_settings : settings.Configuration :=
  {| settings.ClusterName := "test-cluster";
     settings.AnnotationPrefix := "alb.ingress.kubernetes.io";
     settings.ALBNamePrefix := "";
     settings.DefaultTags := ∅;
     settings.DefaultTargetType := "instance";
     settings.RestrictScheme := false;
     settings.RestrictSchemeNamespace := "default";
     settings.NLBAnnotationPrefix := settings.defaultNLBAnnotationPrefix;
     settings.NLBNamePrefix := settings.defaultNLBNamePrefix |}.

Definition no_prefixes : settings.Prefixes :=
  {| settings.parser_AnnotationsPrefix := "";
     settings.serviceparser_AnnotationsPrefix := "" |}.

(** An environment variable that is set to something [ParseBool] refuses. *)
Definition unparsable (v : option string) : Prop :=
  exists s, v = Some s /\ settings.ParseBool s = None.

(** The entries a comma-separated annotation value holds: its pieces
    without the white space around them, the empty ones left out. *)
Definition entries (v : string) : list string :=
  List.filter (fun p => negb (String.eqb p ""))
    (map gostrings.TrimSpace (gostrings.Split v ","%char)).

(** The attribute a well-formed entry [key=value] stands for. *)
Definition attribute_of (entry : string) : string * string :=
  match gostrings.Split entry "="%char with
  | [key; value] => (gostrings.TrimSpace key, gostrings.TrimSpace value)
  | _ => (EmptyString, EmptyString)
  end.

(** An entry with exactly one [=]. *)
Definition well_formed (entry : string) : bool :=
  (length (gostrings.Split entry "="%char) =? 2)%nat.

(** The default value of [AnnotationsPrefix]. *)
Definition nlb_prefix := "nlb.service.kubernetes.io".

(** Requests for Services of the class. *)
Definition of_class (IsValidService : string -> corev1.Service -> bool)
  (class : string) (requests : list types.NamespacedName) : Prop :=
  Forall
    (fun r =>
       exists service,
         IsValidService class service = true /\ r = handlers.Request service)
    requests.

(** A byte other than the slash. *)
Definition not_slash (c : ascii) : bool := negb (Ascii.eqb c "/"%char).

(** A node of a recent kubelet with a provider ID, and a version parser
    for the examples: every version is 1.14. *)
Definition node_a : k8sstore.Node :=
  {| k8sstore.NodeName := "node-a";
     k8sstore.KubeletVersion := "v1.14.6";
     k8sstore.DoNotUse_ExternalID := "";
     k8sstore.ProviderID := "aws:///us-east-1a/i-0abc";
     k8sstore.Addresses := ["10.0.0.1"] |}.

Definition recent (version : string) : Z * Z := (1, 14).

(** * Properties *)

(** ** Byte strings *)

Section Strings.

Lemma len_app s1 s2 :
  GoString.len (s1 ++ s2) = (GoString.len s1 + GoString.len s2)%nat.
Proof.
  unfold GoString.len. induction s1 as [|c s1 IH]; simpl; [reflexivity|].
  now rewrite IH.
Qed.

Lemma slice_to_len n s : (GoString.len (GoString.slice_to n s) <= n)%nat.
Proof.
  unfold GoString.slice_to, GoString.len. revert s.
  induction n as [|n IH]; intros [|c s]; simpl; try lia.
  specialize (IH s). lia.
Qed.

Lemma slice_to_all n s :
  (GoString.len s <= n)%nat -> GoString.slice_to n s = s.
Proof.
  unfold GoString.slice_to, GoString.len. revert s.
  induction n as [|n IH]; intros [|c s]; simpl; intros H;
    try reflexivity; try lia.
  f_equal. apply IH. lia.
Qed.

Lemma slice_to_exact n s :
  (n <= GoString.len s)%nat -> GoString.len (GoString.slice_to n s) = n.
Proof.
  unfold GoString.slice_to, GoString.len. revert s.
  induction n as [|n IH]; intros [|c s]; simpl; intros H;
    try reflexivity; try lia.
  f_equal. apply IH. lia.
Qed.

Lemma all_bytes_slice_to p n s :
  all_bytes p s = true -> all_bytes p (GoString.slice_to n s) = true.
Proof.
  unfold GoString.slice_to. revert s.
  induction n as [|n IH]; intros [|c s]; simpl; try reflexivity.
  intros [Hc Hs]%andb_true_iff. rewrite Hc. now apply IH.
Qed.

Lemma high_byte_not_alnum c :
  128 <= GoString.byte_of c -> GoString.is_alnum c = false.
Proof.
  intros H. unfold GoString.is_alnum.
  repeat match goal with
  | |- context [?a <=? ?b] => destruct (Z.leb_spec a b)
  end; simpl; try reflexivity; lia.
Qed.

Lemma in_range_high lo hi c :
  128 <= lo -> GoString.in_range lo hi c = true -> GoString.is_alnum c = false.
Proof.
  unfold GoString.in_range. intros Hlo [H1 _]%andb_true_iff.
  apply high_byte_not_alnum. apply Z.leb_le in H1. lia.
Qed.

(** The continuation bytes of a decoded rune are not ASCII. *)
Lemma rune_width_skippable c rest :
  skippable (GoString.rune_width c rest - 1) rest.
Proof.
  unfold GoString.rune_width.
  repeat match goal with
  | |- context [if ?b then _ else _] => destruct b eqn:?
  end; simpl; try exact I;
  destruct rest as [|s1 [|s2 [|s3 rest]]]; simpl; try exact I;
  repeat match goal with
  | |- context [if ?b then _ else _] => destruct b eqn:?
  end; simpl; try exact I;
  repeat match goal with
  | H : _ && _ = true |- _ => apply andb_true_iff in H; destruct H
  end;
  repeat split;
  solve [ eapply in_range_high; [|eassumption]; lia | exact I ].
Qed.

Lemma replace_drop_keep_alnum s : forall k,
  skippable k s -> GoString.replace_from "" k s = keep_alnum s.
Proof.
  induction s as [|c s IH]; intros k Hk; [reflexivity|].
  destruct k as [|k]; simpl.
  - destruct (GoString.byte_of c <? 128) eqn:Hc.
    + destruct (GoString.is_alnum c); simpl; now rewrite IH.
    + apply Z.ltb_ge in Hc. rewrite (high_byte_not_alnum c) by lia.
      simpl. apply IH, rune_width_skippable.
  - destruct Hk as [Hc Hk]. rewrite Hc. now apply IH.
Qed.

Lemma replace_hyphen_bytes s : forall k,
  all_bytes alnum_or_hyphen (GoString.replace_from "-" k s) = true.
Proof.
  induction s as [|c s IH]; intros k; [reflexivity|].
  destruct k as [|k]; simpl; [|apply IH].
  destruct (GoString.byte_of c <? 128).
  - destruct (GoString.is_alnum c) eqn:Hc; simpl.
    + unfold alnum_or_hyphen at 1. rewrite Hc. simpl. apply IH.
    + apply IH.
  - simpl. apply IH.
Qed.

Lemma keep_alnum_hyphen s : keep_alnum ("-" ++ s) = keep_alnum s.
Proof. reflexivity. Qed.

Lemma replace_hyphen_keep_alnum s : forall k,
  skippable k s ->
  keep_alnum (GoString.replace_from "-" k s) = keep_alnum s.
Proof.
  induction s as [|c s IH]; intros k Hk; [reflexivity|].
  destruct k as [|k]; cbn [GoString.replace_from keep_alnum].
  - destruct (GoString.byte_of c <? 128) eqn:Hc.
    + destruct (GoString.is_alnum c) eqn:Ha.
      * cbn [keep_alnum]. rewrite Ha. now rewrite IH.
      * rewrite keep_alnum_hyphen. now apply IH.
    + apply Z.ltb_ge in Hc. rewrite (high_byte_not_alnum c) by lia.
      rewrite keep_alnum_hyphen. apply IH, rune_width_skippable.
  - destruct Hk as [Hc Hk]. rewrite Hc. now apply IH.
Qed.

Lemma keep_alnum_bytes s : all_bytes GoString.is_alnum (keep_alnum s) = true.
Proof.
  induction s as [|c s IH]; simpl; [reflexivity|].
  destruct (GoString.is_alnum c) eqn:Hc; simpl; [rewrite Hc|]; exact IH.
Qed.

End Strings.

(** ** Digests *)

Section Digests.

Lemma byte_of_ascii_of_N m :
  0 <= m < 256 -> GoString.byte_of (ascii_of_N (Z.to_N m)) = m.
Proof.
  intros H. unfold GoString.byte_of. rewrite N_ascii_embedding by lia. lia.
Qed.

Lemma hex_digit_digit n : 0 <= n < 16 -> hex_digit (Hex.digit n) = true.
Proof.
  intros H. unfold hex_digit, Hex.digit, GoString.in_range.
  destruct (Z.ltb_spec n 10); rewrite byte_of_ascii_of_N by lia;
    apply orb_true_iff; [left|right];
    apply andb_true_iff; split; apply Z.leb_le; lia.
Qed.

Lemma hex_encode_digits bs :
  all_bytes hex_digit (Hex.EncodeToString bs) = true.
Proof.
  induction bs as [|b bs IH]; simpl; [reflexivity|].
  rewrite !hex_digit_digit, IH; try reflexivity;
    apply Z.mod_pos_bound; lia.
Qed.

Lemma hex_encode_len bs :
  GoString.len (Hex.EncodeToString bs) = (2 * length bs)%nat.
Proof.
  unfold GoString.len. induction bs as [|b bs IH]; simpl; [reflexivity|].
  rewrite IH. lia.
Qed.

Lemma md5_sum_length msg : length (MD5.sum msg) = 16%nat.
Proof.
  unfold MD5.sum. destruct (MD5.blocks _ _ _). reflexivity.
Qed.

(** The hex digest is 32 hex digits, so its slice [[:4]] is in range. *)
Lemma md5_hex_len s : GoString.len (md5_hex s) = 32%nat.
Proof. unfold md5_hex. now rewrite hex_encode_len, md5_sum_length. Qed.

Lemma md5_hex_digits s : all_bytes hex_digit (md5_hex s) = true.
Proof. apply hex_encode_digits. Qed.

Example md5_hex_empty : md5_hex "" = "d41d8cd98f00b204e9800998ecf8427e".
Proof. vm_compute. reflexivity. Qed.

Example md5_hex_abc : md5_hex "abc" = "900150983cd24fb0d6963f7d28e17f72".
Proof. vm_compute. reflexivity. Qed.

Example md5_hex_two_blocks :
  md5_hex "aaaaaaaaaaaaaaaaaaaaaaaaaaaaaaaaaaaaaaaaaaaaaaaaaaaaaaaaaaaaaaaaaaaaaa"
  = "0f5c6c4e740bfcc08c3c26ccb2673d46".
Proof. vm_compute. reflexivity. Qed.

Example md5_hex_defaultfoo :
  md5_hex "defaultfoo" = "a4dd2750415ecc3e9dd425ffb22192bb".
Proof. vm_compute. reflexivity. Qed.

End Digests.

(** ** Load-balancer names (generator.NameLB) *)

Section Naming.

(** The name before truncation: the hyphenated prefix, the namespace and
    the service name stripped to letters and digits, hyphens between. *)
Lemma NameLB_unfold gen namespace serviceName :
  generator.NameLB gen namespace serviceName
  = GoString.slice_to 26
      (GoString.ReplaceAllNonAlnum (generator.NLBNamePrefix gen) "-" ++ "-"
       ++ keep_alnum namespace ++ "-" ++ keep_alnum serviceName)
    ++ "-" ++ GoString.slice_to 4 (md5_hex (namespace ++ serviceName)).
Proof.
  unfold generator.NameLB, GoString.ReplaceAllNonAlnum. cbv zeta.
  rewrite !(replace_drop_keep_alnum _ 0) by exact I.
  destruct (26 <? _)%nat eqn:Hlen; [reflexivity|].
  apply Nat.ltb_ge in Hlen. now rewrite (slice_to_all 26) by exact Hlen.
Qed.

(** C3, as the code has it: [NameLB] is the hyphenated prefix, a hyphen, the
    namespace stripped to ASCII letters and digits, a hyphen, the service
    name stripped likewise, all cut to 26 bytes, followed by a hyphen and
    the first 4 hex digits of md5(namespace+serviceName).  The hyphenated
    prefix holds only letters, digits and hyphens, and its letters and
    digits are those of the configured prefix, in order. *)
Theorem NameLB_shape gen namespace serviceName :
  let prefix :=
    GoString.ReplaceAllNonAlnum (generator.NLBNamePrefix gen) "-" in
  generator.NameLB gen namespace serviceName
  = GoString.slice_to 26
      (prefix ++ "-" ++ keep_alnum namespace ++ "-" ++ keep_alnum serviceName)
    ++ "-" ++ GoString.slice_to 4 (md5_hex (namespace ++ serviceName))
  /\ all_bytes alnum_or_hyphen prefix = true
  /\ keep_alnum prefix = keep_alnum (generator.NLBNamePrefix gen)
  /\ all_bytes GoString.is_alnum (keep_alnum namespace) = true
  /\ all_bytes GoString.is_alnum (keep_alnum serviceName) = true.
Proof.
  cbv zeta. split; [apply NameLB_unfold|].
  split; [apply replace_hyphen_bytes|].
  split; [apply (replace_hyphen_keep_alnum _ 0); exact I|].
  split; apply keep_alnum_bytes.
Qed.

(** C3, as stated, fails: with prefix "nlb", namespace "default" and service
    "foo" the code separates the namespace from the service name by a
    hyphen, where the stated rule puts nothing between them. *)
Lemma NameLB_separator_counterexample :
  generator.NameLB nlb_gen "default" "foo" = "nlb-default-foo-a4dd"
  /\ NameLB_unseparated "nlb" "default" "foo" = "nlb-defaultfoo-a4dd"
  /\ generator.NameLB nlb_gen "default" "foo"
     <> NameLB_unseparated (generator.NLBNamePrefix nlb_gen) "default" "foo".
Proof.
  assert (H1 : generator.NameLB nlb_gen "default" "foo"
               = "nlb-default-foo-a4dd") by (vm_compute; reflexivity).
  assert (H2 : NameLB_unseparated "nlb" "default" "foo"
               = "nlb-defaultfoo-a4dd") by (vm_compute; reflexivity).
  split; [exact H1|]. split; [exact H2|].
  change (generator.NLBNamePrefix nlb_gen) with "nlb".
  rewrite H1, H2. discriminate.
Qed.

(** C4: the name of default/foo under prefix "nlb" is one fixed string whose
    last four characters are the first four hex digits of
    md5("defaultfoo"); and every name is a body of at most 26 bytes, a
    hyphen, and a 4-character suffix of hex digits (so the hyphen before
    the suffix is the last one), the suffix being the first four hex digits
    of md5(namespace+serviceName). *)
Theorem NameLB_deterministic_bounded :
  generator.NameLB nlb_gen "default" "foo" = "nlb-default-foo-a4dd"
  /\ GoString.slice_to 4 (md5_hex "defaultfoo") = "a4dd"
  /\ forall gen namespace serviceName,
       exists body,
         let suffix :=
           GoString.slice_to 4 (md5_hex (namespace ++ serviceName)) in
         generator.NameLB gen namespace serviceName = body ++ "-" ++ suffix
         /\ (GoString.len body <= 26)%nat
         /\ GoString.len suffix = 4%nat
         /\ all_bytes hex_digit suffix = true
         /\ (GoString.len (generator.NameLB gen namespace serviceName)
             <= 31)%nat.
Proof.
  split; [vm_compute; reflexivity|].
  split; [vm_compute; reflexivity|].
  intros gen namespace serviceName.
  eexists. cbv zeta. split; [apply NameLB_unfold|].
  assert (Hs : GoString.len
                 (GoString.slice_to 4 (md5_hex (namespace ++ serviceName)))
               = 4%nat)
    by (apply slice_to_exact; rewrite md5_hex_len; lia).
  pose proof (slice_to_len 26
    (GoString.ReplaceAllNonAlnum (generator.NLBNamePrefix gen) "-" ++ "-"
     ++ keep_alnum namespace ++ "-" ++ keep_alnum serviceName)) as Hb.
  split; [exact Hb|]. split; [exact Hs|].
  split; [apply all_bytes_slice_to, md5_hex_digits|].
  rewrite NameLB_unfold, !len_app, Hs.
  change (GoString.len "-") with 1%nat. lia.
Qed.

End Naming.

(** ** sort.Strings *)

Section Sorting.

Lemma insert_sorted_perm x l : Permutation (x :: l) (insert_sorted x l).
Proof.
  induction l as [|y l IH]; simpl; [apply Permutation_refl|].
  destruct (String.leb x y); [apply Permutation_refl|].
  eapply perm_trans; [apply perm_swap|]. now apply perm_skip.
Qed.

Lemma sort_strings_perm l : Permutation l (sort_strings l).
Proof.
  induction l as [|x l IH]; simpl; [apply Permutation_refl|].
  eapply perm_trans; [apply perm_skip, IH|]. apply insert_sorted_perm.
Qed.

Lemma insert_sorted_hd x y l :
  string_le y x -> HdRel string_le y l -> HdRel string_le y (insert_sorted x l).
Proof.
  intros Hyx Hl. destruct l as [|z l]; simpl; [now constructor|].
  destruct (String.leb x z); constructor; [exact Hyx|].
  now inversion Hl.
Qed.

Lemma insert_sorted_sorted x l :
  Sorted string_le l -> Sorted string_le (insert_sorted x l).
Proof.
  induction 1 as [|y l Hs IH Hhd]; simpl; [repeat constructor|].
  destruct (String.leb x y) eqn:Hxy.
  - constructor; [now constructor|]. now constructor.
  - constructor; [exact IH|]. apply insert_sorted_hd; [|exact Hhd].
    destruct (String.leb_total x y) as [H|H]; [congruence|exact H].
Qed.

Lemma sort_strings_sorted l : Sorted string_le (sort_strings l).
Proof.
  induction l as [|x l IH]; simpl; [constructor|].
  now apply insert_sorted_sorted.
Qed.

Lemma sort_strings_length l : length (sort_strings l) = length l.
Proof. symmetry. apply Permutation_length, sort_strings_perm. Qed.

End Sorting.

(** ** Subnet resolution (resolveSubnets, clusterSubnets) *)

Section Subnets.

Lemma subnetIsUsable_spec new existing :
  has_zone new -> Forall has_zone existing ->
  exists b,
    lbctl.subnetIsUsable new existing = Done b
    /\ (b = true <-> ~ In (zone new) (map zone existing)).
Proof.
  intros Hnew Hex. induction Hex as [|x l Hx Hl IH]; simpl.
  - exists true. split; [reflexivity|tauto].
  - unfold has_zone, zone in *.
    destruct (ec2.AvailabilityZone new) as [a|] eqn:Ha; [|congruence].
    destruct (ec2.AvailabilityZone x) as [b|] eqn:Hb; [|congruence].
    destruct (String.eqb_spec a b) as [->|Hne].
    + exists false. split; [reflexivity|]. split; [discriminate|].
      intros H. exfalso. apply H. now left.
    + destruct IH as (r & Hr & Hiff). exists r. split; [exact Hr|].
      rewrite Hiff. split; [|tauto].
      intros H [H'|H']; [congruence|tauto].
Qed.

Lemma keep_usable_spec o : forall useable out,
  Forall has_zone o -> Forall has_zone useable ->
  exists kept,
    lbctl.keep_usable o useable out
    = Done ((useable ++ kept)%list, (out ++ map subnet_id kept)%list)
    /\ (forall s, In s kept <-> first_of_zone useable o s)
    /\ (NoDup (map zone useable) -> NoDup (map zone (useable ++ kept))).
Proof.
  induction o as [|x o IH]; intros useable out Ho Hu.
  - exists []. simpl. rewrite !app_nil_r. split; [reflexivity|].
    split; [|now intros].
    intros s. split; [intros []|].
    intros (pre & post & H & _). now destruct pre.
  - inversion Ho as [|? ? Hx Ho']; subst. simpl.
    destruct (subnetIsUsable_spec x useable Hx Hu) as (b & -> & Hb).
    destruct b.
    + (* [x] is the first subnet of its zone: it is kept *)
      assert (Hin : ~ In (zone x) (map zone useable)) by now apply Hb.
      assert (Hu' : Forall has_zone (useable ++ [x]))
        by (apply Forall_app; split; [exact Hu|now constructor]).
      destruct (IH (useable ++ [x])%list (out ++ [subnet_id x])%list Ho' Hu')
        as (kept & Hrun & Hkept & Hnd).
      exists (x :: kept). split.
      { unfold subnet_id in *. rewrite Hrun. simpl.
        now rewrite <- !app_assoc. }
      split.
      * intros s. simpl. rewrite Hkept. split.
        -- intros [<-|(pre & post & -> & Hfresh)].
           ++ exists [], o. split; [reflexivity|]. now rewrite app_nil_r.
           ++ exists (x :: pre), post. split; [reflexivity|].
              rewrite <- app_assoc in Hfresh. exact Hfresh.
        -- intros (pre & post & Heq & Hfresh). destruct pre as [|y pre].
           ++ simpl in Heq. injection Heq as <- <-. now left.
           ++ simpl in Heq. injection Heq as <- ->. right.
              exists pre, post. split; [reflexivity|].
              now rewrite <- app_assoc.
      * intros Hnd0.
        replace (useable ++ x :: kept)%list
          with ((useable ++ [x]) ++ kept)%list by now rewrite <- app_assoc.
        apply Hnd. rewrite map_app. simpl.
        apply NoDup_app. split; [exact Hnd0|]. split.
        -- intros z Hz [<-|[]]%list_elem_of_In. apply Hin.
           now apply list_elem_of_In.
        -- apply NoDup_singleton.
    + (* the zone of [x] is taken: it is dropped *)
      assert (Hin : In (zone x) (map zone useable)).
      { destruct (in_dec option_eq_dec (zone x) (map zone useable)) as [H|H];
          [exact H|]. now apply Hb in H. }
      destruct (IH useable out Ho' Hu) as (kept & Hrun & Hkept & Hnd).
      exists kept. split; [exact Hrun|]. split; [|exact Hnd].
      intros s. rewrite Hkept. split.
      * intros (pre & post & -> & Hfresh). exists (x :: pre), post.
        split; [reflexivity|]. rewrite map_app, in_app_iff in *. simpl.
        intros [H|[H|H]]; [tauto| |tauto].
        apply Hfresh. left. now rewrite <- H.
      * intros (pre & post & Heq & Hfresh). destruct pre as [|y pre].
        -- simpl in Heq. injection Heq as <- <-. rewrite app_nil_r in Hfresh.
           contradiction.
        -- simpl in Heq. injection Heq as <- ->. exists pre, post.
           split; [reflexivity|]. rewrite map_app, in_app_iff in *.
           simpl in *. tauto.
Qed.

Lemma first_occurrence z o :
  In z (map zone o) ->
  exists pre s post,
    o = (pre ++ s :: post)%list /\ zone s = z /\ ~ In z (map zone pre).
Proof.
  induction o as [|x o IH]; simpl; [intros []|]. intros Hin.
  destruct (decide (zone x = z)) as [Hx|Hx].
  - exists [], x, o. repeat split; [exact Hx|intros []].
  - destruct Hin as [Hin|Hin]; [contradiction|].
    destruct (IH Hin) as (pre & s & post & -> & Hs & Hpre).
    exists (x :: pre), s, post. repeat split; [exact Hs|].
    simpl. intros [H|H]; contradiction.
Qed.

Lemma kept_zones o kept :
  (forall s, In s kept <-> first_of_zone [] o s) ->
  forall z, In z (map zone kept) <-> In z (map zone o).
Proof.
  intros Hkept z. rewrite !in_map_iff. split.
  - intros (s & Hz & (pre & post & -> & _)%Hkept). exists s.
    split; [exact Hz|]. apply in_app_iff. right. now left.
  - intros (s & Hz & Hs).
    destruct (first_occurrence z o) as (pre & s' & post & Ho & Hz' & Hpre).
    { apply in_map_iff. now exists s. }
    exists s'. split; [exact Hz'|]. apply Hkept. exists pre, post.
    split; [exact Ho|]. simpl. now rewrite Hz'.
Qed.

Lemma kept_count o kept :
  (forall s, In s kept <-> first_of_zone [] o s) ->
  NoDup (map zone kept) ->
  length kept = size (list_to_set (map zone o) : gset (option string)).
Proof.
  intros Hkept Hnd.
  rewrite <- (length_map zone kept), <- (size_list_to_set (C := gset _)) by exact Hnd.
  f_equal. apply set_eq. intros z. rewrite !elem_of_list_to_set.
  rewrite !list_elem_of_In. now apply kept_zones.
Qed.

(** C5: auto-discovery keeps, of the subnets the lookup returns, exactly
    those that come first for their availability zone, so at most one per
    zone and as many as there are distinct zones; with fewer than two it
    fails, otherwise it returns the kept subnet IDs sorted. *)
Theorem clusterSubnets_one_per_zone {W} (controller : lbctl.defaultController W)
  scheme key w w1 w2 tagged o :
  role_key scheme = Some key ->
  cloud_GetClusterSubnets (lbctl.cloud controller) w = (w1, Ok tagged) ->
  cloud_GetSubnetsByNameOrID (lbctl.cloud controller)
    (lbctl.tagged_subnet_ids key tagged) w1 = (w2, Ok o) ->
  Forall has_zone o ->
  exists kept,
    (forall s, In s kept <-> first_of_zone [] o s)
    /\ NoDup (map zone kept)
    /\ length kept = size (list_to_set (map zone o) : gset (option string))
    /\ outcome (lbctl.clusterSubnets controller scheme w)
       = Done (if (length kept <? 2)%nat
               then Err (lbctl.too_few_subnets key (map subnet_id kept))
               else Ok (sort_strings (map subnet_id kept)))
    /\ outcome (lbctl.resolveSubnets controller scheme [] w)
       = Done (if (length kept <? 2)%nat
               then ([], Some (lbctl.too_few_subnets key (map subnet_id kept)))
               else (sort_strings (map subnet_id kept), None))
    /\ Sorted string_le (sort_strings (map subnet_id kept))
    /\ Permutation (map subnet_id kept) (sort_strings (map subnet_id kept)).
Proof.
  intros Hkey Htags Hlookup Hzones.
  destruct (keep_usable_spec o [] [] Hzones ltac:(constructor))
    as (kept & Hrun & Hkept & Hnd).
  simpl in Hrun. exists kept.
  assert (Hnd' : NoDup (map zone kept)) by (apply Hnd; constructor).
  assert (Hcs : lbctl.clusterSubnets controller scheme w
    = mkRun [GetClusterSubnets;
             GetSubnetsByNameOrID (lbctl.tagged_subnet_ids key tagged)] w2
        (Done (if (length kept <? 2)%nat
               then Err (lbctl.too_few_subnets key (map subnet_id kept))
               else Ok (sort_strings (map subnet_id kept))))).
  { unfold role_key in Hkey. unfold lbctl.clusterSubnets.
    destruct (String.eqb scheme elbv2.LoadBalancerSchemeEnumInternal);
      [|destruct (String.eqb scheme
                    elbv2.LoadBalancerSchemeEnumInternetFacing)];
      try discriminate; injection Hkey as <-;
      unfold attempt, bind, call, lift; rewrite Htags; simpl;
      rewrite Hlookup; simpl; rewrite Hrun; simpl;
      rewrite length_map; now destruct (length kept <? 2)%nat. }
  split; [exact Hkept|]. split; [exact Hnd'|].
  split; [now apply kept_count|].
  split; [now rewrite Hcs|].
  split.
  { unfold lbctl.resolveSubnets, bind. rewrite Hcs. simpl.
    now destruct (length kept <? 2)%nat. }
  split; [apply sort_strings_sorted|apply sort_strings_perm].
Qed.

(** An account whose three internal subnets lie in two zones: subnet-ccc
    comes before subnet-aaa in us-east-1a and wins. *)
Lemma clusterSubnets_one_per_zone_witness :
  let w := Fake.account (Fake.foo_annos "internal" "80" "TCP" "ip") false in
  role_key "internal" = Some aws.TagNameSubnetInternalELB
  /\ Forall has_zone
       [Fake.subnet "subnet-ccc" "us-east-1a";
        Fake.subnet "subnet-aaa" "us-east-1a";
        Fake.subnet "subnet-bbb" "us-east-1b"]
  /\ exists kept,
       length kept = 2%nat
       /\ In (Fake.subnet "subnet-ccc" "us-east-1a") kept
       /\ ~ In (Fake.subnet "subnet-aaa" "us-east-1a") kept
       /\ outcome (lbctl.resolveSubnets Fake.lbController "internal" [] w)
          = Done (sort_strings (map subnet_id kept), None).
Proof.
  intros w.
  assert (Hz : Forall has_zone
                 [Fake.subnet "subnet-ccc" "us-east-1a";
                  Fake.subnet "subnet-aaa" "us-east-1a";
                  Fake.subnet "subnet-bbb" "us-east-1b"])
    by (repeat constructor; discriminate).
  split; [reflexivity|]. split; [exact Hz|].
  destruct (clusterSubnets_one_per_zone Fake.lbController "internal"
              aws.TagNameSubnetInternalELB w w w _ _
              eq_refl eq_refl eq_refl Hz)
    as (kept & Hkept & _ & Hcount & _ & Hrun & _).
  exists kept.
  assert (Hlen : length kept = 2%nat) by (rewrite Hcount; vm_compute; reflexivity).
  split; [exact Hlen|]. split.
  { apply Hkept. exists [], [Fake.subnet "subnet-aaa" "us-east-1a";
                             Fake.subnet "subnet-bbb" "us-east-1b"].
    split; [reflexivity|]. intros []. }
  split.
  { intros (pre & post & Heq & Hfresh)%Hkept. apply Hfresh.
    destruct pre as [|x pre]; [discriminate|].
    injection Heq as <- Heq. now left. }
  rewrite Hrun, Hlen. reflexivity.
Defined.

End Subnets.

Section ExplicitSubnets.

Lemma split_entries_from l : forall names subnets,
  fold_left
    (fun '(names, subnets) subnet =>
       if GoString.HasPrefix subnet "subnet-"
       then (names, (subnets ++ [subnet])%list)
       else ((names ++ [subnet])%list, subnets))
    l (names, subnets)
  = ((names ++ List.filter (fun s => negb (is_id s)) l)%list,
     (subnets ++ List.filter is_id l)%list).
Proof.
  induction l as [|x l IH]; intros names subnets; simpl.
  - now rewrite !app_nil_r.
  - unfold is_id in *. destruct (GoString.HasPrefix x "subnet-"); simpl;
      rewrite IH, <- app_assoc; reflexivity.
Qed.

Lemma split_entries_filter l :
  lbctl.split_entries l
  = (List.filter (fun s => negb (is_id s)) l, List.filter is_id l).
Proof. unfold lbctl.split_entries. now rewrite split_entries_from. Qed.

Lemma filter_none_all {A} (p : A -> bool) l :
  List.filter (fun x => negb (p x)) l = [] -> List.filter p l = l.
Proof.
  induction l as [|x l IH]; simpl; [reflexivity|].
  destruct (p x); simpl; [|discriminate]. intros H. now rewrite IH.
Qed.

(** C6: for a non-empty explicit list, the entries prefixed "subnet-" are
    kept as they are, the others are looked up by name or ID in one call;
    a failed lookup is returned as the error; otherwise the IDs kept and
    the IDs resolved are sorted, and returned without error exactly when
    they are as many as the entries, with the mismatch error naming the
    requested and the resolved lists when they are not.  So a result
    without error has one ID per entry, is sorted and holds every
    "subnet-" entry. *)
Theorem resolveSubnets_explicit {W} (controller : lbctl.defaultController W)
  scheme in_ w :
  in_ <> [] ->
  let ids := List.filter is_id in_ in
  let names := List.filter (fun s => negb (is_id s)) in_ in
  let r := lbctl.resolveSubnets controller scheme in_ w in
  match names with
  | [] => r = mkRun [] w (Done (sort_strings in_, None))
  | _ :: _ =>
      let '(w', looked) :=
        cloud_GetSubnetsByNameOrID (lbctl.cloud controller) names w in
      trace r = [GetSubnetsByNameOrID names] /\ world r = w'
      /\ match looked with
         | Err err => outcome r = Done (ids, Some err)
         | Ok o =>
             let resolved := sort_strings (ids ++ map subnet_id o) in
             outcome r
             = Done (resolved,
                     if (length resolved =? length in_)%nat then None
                     else Some (lbctl.not_all_resolvable in_ resolved))
         end
  end
  /\ forall subnets,
       outcome r = Done (subnets, None) ->
       length subnets = length in_
       /\ Sorted string_le subnets
       /\ forall s, In s ids -> In s subnets.
Proof.
  intros Hne ids names r.
  assert (Hr : r =
    let finish subnets :=
      let subnets := sort_strings subnets in
      if negb (length subnets =? length in_)%nat
      then ret (subnets, Some (lbctl.not_all_resolvable in_ subnets))
      else ret (subnets, None) in
    (if (0 <? length names)%nat
     then attempt (call (GetSubnetsByNameOrID names)
                     (cloud_GetSubnetsByNameOrID (lbctl.cloud controller) names))
            (fun err => (ids, Some err))
            (fun o => finish (ids ++ map subnet_id o)%list)
     else finish ids) w).
  { subst r. unfold lbctl.resolveSubnets.
    destruct in_ as [|x l]; [contradiction|].
    now rewrite split_entries_filter. }
  cbv zeta in Hr.
  destruct names as [|n names'] eqn:Hnames.
  - simpl in Hr. fold names in Hnames.
    assert (Hall : ids = in_) by (apply filter_none_all; exact Hnames).
    rewrite Hall, sort_strings_length, Nat.eqb_refl in Hr. simpl in Hr.
    split; [exact Hr|].
    intros subnets Hout. rewrite Hr in Hout. simpl in Hout.
    injection Hout as <-. rewrite sort_strings_length.
    split; [reflexivity|]. split; [apply sort_strings_sorted|].
    intros s Hs. rewrite Hall in Hs.
    eapply Permutation_in; [apply sort_strings_perm|exact Hs].
  - change (0 <? length (n :: names'))%nat with true in Hr. cbv iota in Hr.
    unfold attempt, bind, call in Hr.
    destruct (cloud_GetSubnetsByNameOrID (lbctl.cloud controller)
                (n :: names') w) as [w' [o|err]] eqn:Hlook; simpl in Hr.
    + set (resolved := sort_strings (ids ++ map subnet_id o)) in *.
      destruct (length resolved =? length in_)%nat eqn:E; simpl in Hr;
        rewrite Hr; simpl; fold resolved; rewrite E.
      * split; [repeat split; reflexivity|]. intros subnets [= <-].
        split; [now apply Nat.eqb_eq|].
        split; [apply sort_strings_sorted|].
        intros s Hs. eapply Permutation_in; [apply sort_strings_perm|].
        apply in_app_iff. now left.
      * split; [repeat split; reflexivity|]. intros subnets [=].
    + rewrite Hr. simpl. split; [repeat split; reflexivity|].
      intros subnets [=].
Qed.

(** The example of the design notes: "prod-subnet" names no subnet, and
    the one ID that was given is not returned as the answer. *)
Lemma resolveSubnets_explicit_witness :
  let w := Fake.account (Fake.foo_annos "internal" "80" "TCP" "ip") false in
  ["subnet-aaa"; "prod-subnet"] <> []
  /\ outcome (lbctl.resolveSubnets Fake.lbController "internal"
                ["subnet-aaa"; "prod-subnet"] w)
     = Done (["subnet-aaa"],
             Some "not all subnets were resolvable, (subnet-aaa,prod-subnet != subnet-aaa)").
Proof.
  intros w.
  assert (Hne : ["subnet-aaa"; "prod-subnet"] <> []) by discriminate.
  split; [exact Hne|].
  destruct (resolveSubnets_explicit Fake.lbController "internal"
              ["subnet-aaa"; "prod-subnet"] w Hne) as [H _].
  vm_compute in H. destruct H as (_ & _ & H).
  vm_compute. exact H.
Defined.

End ExplicitSubnets.

(** ** Health-check port resolution (resolveServiceHealthCheckPort) *)

Section HealthCheckPort.

(** C7: a numeric port is returned as it is, and the sentinel
    "traffic-port" is returned as it is, both without any call on the
    store; any other name is looked up on the service fetched from the
    store: for target type instance the node port of the named port is
    returned as a decimal string, or an error when it is zero; for any other
    target type (ip) the target port of the named port is returned. *)
Theorem resolveServiceHealthCheckPort_cases {W}
  (controller : tgctl.defaultController W)
  (LookupServicePort :
     corev1.Service -> intstr.IntOrString -> result corev1.ServicePort)
  (namespace serviceName : string) (w : W) :
  let resolve :=
    tgctl.resolveServiceHealthCheckPort controller LookupServicePort
      namespace serviceName in
  (forall i targetType,
     resolve (intstr.Int i) targetType w
     = mkRun [] w (Done (strconv.Itoa i, None)))
  /\ (forall targetType,
        resolve (intstr.String healthcheck.DefaultPort) targetType w
        = mkRun [] w (Done ("traffic-port", None)))
  /\ (forall name service port w',
        name <> healthcheck.DefaultPort ->
        store_GetService (tgctl.store controller)
          (namespace ++ "/" ++ serviceName) w = (w', Ok service) ->
        LookupServicePort service (intstr.String name) = Ok port ->
        (corev1.NodePort port <> 0 ->
         resolve (intstr.String name) elbv2.TargetTypeEnumInstance w
         = mkRun [GetService (namespace ++ "/" ++ serviceName)] w'
             (Done (strconv.Itoa (corev1.NodePort port), None)))
        /\ (corev1.NodePort port = 0 ->
            exists err,
              resolve (intstr.String name) elbv2.TargetTypeEnumInstance w
              = mkRun [GetService (namespace ++ "/" ++ serviceName)] w'
                  (Done (name, Some err)))
        /\ (forall targetType,
              targetType <> elbv2.TargetTypeEnumInstance ->
              resolve (intstr.String name) targetType w
              = mkRun [GetService (namespace ++ "/" ++ serviceName)] w'
                  (Done (intstr.to_string (corev1.TargetPort port), None)))).
Proof.
  cbv zeta. split; [reflexivity|]. split; [reflexivity|].
  intros name service port w' Hname Hget Hlookup.
  unfold tgctl.resolveServiceHealthCheckPort.
  change (intstr.to_string (intstr.String name)) with name.
  destruct (String.eqb_spec name healthcheck.DefaultPort) as [|_];
    [contradiction|].
  unfold attempt, bind, call. cbv beta. rewrite Hget. simpl.
  rewrite Hlookup.
  split; [|split].
  - intros Hnode. rewrite ?String.eqb_refl.
    destruct (Z.eqb_spec (corev1.NodePort port) 0) as [|_]; [contradiction|].
    reflexivity.
  - intros ->. rewrite ?String.eqb_refl. simpl. eexists. reflexivity.
  - intros targetType Htype.
    destruct (String.eqb_spec targetType elbv2.TargetTypeEnumInstance)
      as [|_]; [contradiction|].
    reflexivity.
Qed.

(** The example of the design notes: the named port "http" with container
    port 8080 and node port 31080. *)
Lemma resolveServiceHealthCheckPort_witness :
  let w := Fake.account (Fake.foo_annos "internal" "http" "TCP" "ip") false in
  let resolve :=
    tgctl.resolveServiceHealthCheckPort Fake.tgController
      Fake.LookupServicePort "default" "foo" (intstr.String "http") in
  "http" <> healthcheck.DefaultPort
  /\ Fake.LookupServicePort Fake.foo (intstr.String "http")
     = Ok {| corev1.Name := "http"; corev1.Port := 80;
             corev1.NodePort := 31080; corev1.TargetPort := intstr.Int 8080 |}
  /\ outcome (resolve "instance" w) = Done ("31080", None)
  /\ outcome (resolve "ip" w) = Done ("8080", None).
Proof.
  intros w resolve.
  assert (Hname : "http" <> healthcheck.DefaultPort) by discriminate.
  split; [exact Hname|]. split; [reflexivity|].
  destruct (resolveServiceHealthCheckPort_cases Fake.tgController
              Fake.LookupServicePort "default" "foo" w) as (_ & _ & H).
  destruct (H "http" Fake.foo _ w Hname eq_refl eq_refl) as (Hinst & _ & Hip).
  subst resolve. split.
  - change "instance" with elbv2.TargetTypeEnumInstance.
    rewrite Hinst by discriminate. reflexivity.
  - rewrite (Hip "ip") by discriminate. reflexivity.
Defined.

End HealthCheckPort.

(** ** Deleting a load balancer (Delete) *)

Section Deleting.

(** C9: [Delete] looks the load balancer up by its deterministic name.  A
    failed lookup is returned as an error and no load balancer is [nil]
    with no further call; for a load balancer found, the listeners are
    deleted, then the target groups of the key, then the load balancer, and
    the first step that fails ends the run with its error, the later steps
    not being called. *)
Theorem Delete_steps {W} (controller : lbctl.defaultController W) key w :
  let lbName :=
    generator.NameLB (lbctl.nameTagGen controller)
      (types.Namespace key) (types.Name key) in
  let r := lbctl.Delete controller key w in
  let '(w1, found) :=
    cloud_GetLoadBalancerByName (lbctl.cloud controller) lbName w in
  match found with
  | Err err =>
      r = mkRun [GetLoadBalancerByName lbName] w1
            (Done (Some ("failed to find existing LoadBalancer due to " ++ err)))
  | Ok None => r = mkRun [GetLoadBalancerByName lbName] w1 (Done None)
  | Ok (Some instance) =>
      let lbArn := aws.StringValue (elbv2.LoadBalancerArn instance) in
      let '(w2, listeners) :=
        lsg_Delete (lbctl.lsGroupController controller) lbArn w1 in
      match listeners with
      | Some err =>
          r = mkRun [GetLoadBalancerByName lbName; LSGroupDelete lbArn] w2
                (Done (Some ("failed to delete listeners due to " ++ err)))
      | None =>
          let '(w3, groups) :=
            tgg_Delete (lbctl.tgGroupController controller) key w2 in
          match groups with
          | Some err =>
              r = mkRun [GetLoadBalancerByName lbName; LSGroupDelete lbArn;
                         TGGroupDelete key] w3
                    (Done (Some ("failed to GC targetGroups due to " ++ err)))
          | None =>
              let '(w4, deleted) :=
                cloud_DeleteLoadBalancerByArn (lbctl.cloud controller)
                  lbArn w3 in
              r = mkRun [GetLoadBalancerByName lbName; LSGroupDelete lbArn;
                         TGGroupDelete key; DeleteLoadBalancerByArn lbArn] w4
                    (Done deleted)
          end
      end
  end.
Proof.
  cbv zeta. unfold lbctl.Delete, check_err, bind, call.
  destruct (cloud_GetLoadBalancerByName _ _ w) as [w1 [[instance|]|err]];
    simpl; try reflexivity.
  destruct (lsg_Delete _ _ w1) as [w2 [err|]]; simpl; [reflexivity|].
  destruct (tgg_Delete _ _ w2) as [w3 [err|]]; simpl; [reflexivity|].
  destruct (cloud_DeleteLoadBalancerByArn _ _ w3) as [w4 [err|]];
    reflexivity.
Qed.

(** With no load balancer of that name, [Delete] changes nothing. *)
Lemma Delete_missing_is_noop {W} (controller : lbctl.defaultController W)
  key w w1 :
  cloud_GetLoadBalancerByName (lbctl.cloud controller)
    (generator.NameLB (lbctl.nameTagGen controller)
       (types.Namespace key) (types.Name key)) w = (w1, Ok None) ->
  outcome (lbctl.Delete controller key w) = Done None
  /\ existsb mutating (trace (lbctl.Delete controller key w)) = false.
Proof.
  intros H. unfold lbctl.Delete, bind, call. rewrite H. split; reflexivity.
Qed.

End Deleting.

(** ** Scheme changes (ensureLBInstance) *)

Section Recreating.

Lemma filter_none {A} (p : A -> bool) l :
  Forall (fun x => p x = false) l -> List.filter p l = [].
Proof.
  induction 1 as [|x l Hx _ IH]; simpl; [reflexivity|]. now rewrite Hx.
Qed.

Lemma reconcileLBInstance_calls {W} (controller : lbctl.defaultController W)
  instance lbConfig w :
  Forall (fun c => is_delete_lb c = false /\ is_create_lb c = false)
    (trace (lbctl.reconcileLBInstance controller instance lbConfig w)).
Proof.
  unfold lbctl.reconcileLBInstance, check_err, bind, call, ret.
  repeat match goal with
  | |- context [if ?b then _ else _] => destruct b; simpl
  | |- context [let '(_, _) := ?x in _] => destruct x as [? [?|]]; simpl
  end; repeat constructor.
Qed.

(** C2, as the code has it: for a load balancer found under the name whose
    scheme differs from the desired one, [ensureLBInstance] calls the
    lookup, then [DeleteLoadBalancerByArn] on the instance found; when that
    delete fails it returns the error and creates nothing; when it
    succeeds exactly one [CreateLoadBalancerWithContext] follows, with the
    desired configuration under the same name, and nothing else is called,
    so no modify call.  When the schemes are equal no delete and no create
    is called. *)
Theorem ensureLBInstance_scheme {W} (controller : lbctl.defaultController W)
  lbConfig instance w w1 :
  cloud_GetLoadBalancerByName (lbctl.cloud controller) (lb.Name lbConfig) w
  = (w1, Ok (Some instance)) ->
  let r := lbctl.ensureLBInstance controller lbConfig w in
  let lbArn := aws.StringValue (elbv2.LoadBalancerArn instance) in
  (elbv2.Scheme instance <> lb.Scheme lbConfig ->
   let '(w2, deleted) :=
     cloud_DeleteLoadBalancerByArn (lbctl.cloud controller) lbArn w1 in
   match deleted with
   | Some err =>
       r = mkRun [GetLoadBalancerByName (lb.Name lbConfig);
                  DeleteLoadBalancerByArn lbArn] w2
             (Done (Err ("failed to recreate LoadBalancer due to " ++ err)))
   | None =>
       trace r = [GetLoadBalancerByName (lb.Name lbConfig);
                  DeleteLoadBalancerByArn lbArn;
                  CreateLoadBalancer (lbctl.create_input lbConfig)]
       /\ elbv2.cl_Name (lbctl.create_input lbConfig) = Some (lb.Name lbConfig)
       /\ elbv2.cl_Scheme (lbctl.create_input lbConfig) = lb.Scheme lbConfig
   end)
  /\ (elbv2.Scheme instance = lb.Scheme lbConfig ->
      List.filter is_delete_lb (trace r) = []
      /\ List.filter is_create_lb (trace r) = []).
Proof.
  intros Hfound r lbArn. subst r.
  unfold lbctl.ensureLBInstance, attempt, bind, call. rewrite Hfound. simpl.
  unfold lbctl.isLBInstanceNeedRecreation, util.DeepEqual. split.
  - intros Hscheme. rewrite bool_decide_eq_false_2 by exact Hscheme. simpl.
    unfold lbctl.recreateLBInstance, check_err, bind, call. fold lbArn.
    destruct (cloud_DeleteLoadBalancerByArn _ lbArn w1) as [w2 [err|]];
      simpl; [reflexivity|].
    split; [|split; reflexivity].
    unfold lbctl.newLBInstance, attempt, bind, call.
    destruct (cloud_CreateLoadBalancerWithContext _ _ w2)
      as [w3 [[|created rest]|err]]; reflexivity.
  - intros Hscheme. rewrite bool_decide_eq_true_2 by exact Hscheme. simpl.
    pose proof (reconcileLBInstance_calls controller instance lbConfig w1)
      as Hcalls.
    assert (Htrace :
      trace (check_err (lbctl.reconcileLBInstance controller instance lbConfig)
               Err (ret (Ok instance)) w1)
      = trace (lbctl.reconcileLBInstance controller instance lbConfig w1)).
    { unfold check_err, bind.
      destruct (lbctl.reconcileLBInstance controller instance lbConfig w1)
        as [t w2 [[err|]|]]; simpl; now rewrite ?app_nil_r. }
    rewrite Htrace. split; apply filter_none;
      (eapply Forall_impl; [exact Hcalls|]); now intros c [Hd Hc].
Qed.

End Recreating.

Section RecreatingExamples.

(** The load balancer lives with scheme internal, the Service asks for
    internet-facing, and the delete succeeds. *)
Lemma ensureLBInstance_scheme_witness :
  let w := account_with_lb "internal" false in
  let lbConfig := foo_lb_config "internet-facing" in
  cloud_GetLoadBalancerByName Fake.cloud (lb.Name lbConfig) w
  = (w, Ok (Some (foo_lb "internal")))
  /\ elbv2.Scheme (foo_lb "internal") <> lb.Scheme lbConfig
  /\ trace (lbctl.ensureLBInstance Fake.lbController lbConfig w)
     = [GetLoadBalancerByName "nlb-default-foo-a4dd";
        DeleteLoadBalancerByArn "arn:lb/nlb-default-foo-a4dd";
        CreateLoadBalancer (lbctl.create_input lbConfig)].
Proof.
  intros w lbConfig.
  assert (Hfound :
    cloud_GetLoadBalancerByName (lbctl.cloud Fake.lbController)
      (lb.Name lbConfig) w = (w, Ok (Some (foo_lb "internal"))))
    by reflexivity.
  assert (Hscheme : elbv2.Scheme (foo_lb "internal") <> lb.Scheme lbConfig)
    by discriminate.
  split; [exact Hfound|]. split; [exact Hscheme|].
  destruct (ensureLBInstance_scheme Fake.lbController lbConfig
              (foo_lb "internal") w w Hfound) as [H _].
  specialize (H Hscheme). cbn in H. destruct H as [H _]. exact H.
Defined.

(** C2, as stated, fails: the load balancer lives with scheme internal, the
    Service asks for internet-facing, and the cloud refuses the delete.
    One delete is called and no create. *)
Lemma ensureLBInstance_delete_refused_counterexample :
  let w := account_with_lb "internal" true in
  let lbConfig := foo_lb_config "internet-facing" in
  let r := lbctl.ensureLBInstance Fake.lbController lbConfig w in
  cloud_GetLoadBalancerByName Fake.cloud (lb.Name lbConfig) w
  = (w, Ok (Some (foo_lb "internal")))
  /\ elbv2.Scheme (foo_lb "internal") <> lb.Scheme lbConfig
  /\ trace r = [GetLoadBalancerByName "nlb-default-foo-a4dd";
                DeleteLoadBalancerByArn "arn:lb/nlb-default-foo-a4dd"]
  /\ length (List.filter is_delete_lb (trace r)) = 1%nat
  /\ length (List.filter is_create_lb (trace r)) <> 1%nat
  /\ outcome r
     = Done (Err "failed to recreate LoadBalancer due to AccessDenied").
Proof.
  cbv zeta. split; [reflexivity|]. split; [discriminate|].
  split; [reflexivity|]. split; [reflexivity|].
  split; [vm_compute; discriminate|reflexivity].
Qed.

End RecreatingExamples.

(** ** Comparing a live target group (TGInstanceNeedsModification) *)

Section Matcher.

Lemma needs_modification_nil_matcher instance serviceAnnos :
  elbv2.TGMatcher instance = None ->
  tgctl.TGInstanceNeedsModification instance serviceAnnos = Panic.
Proof.
  intros Hm. unfold tgctl.TGInstanceNeedsModification, tgctl.obind.
  rewrite Hm.
  destruct (negb (util.DeepEqual (elbv2.HealthCheckPath instance) _));
    [destruct (annotations.Protocol _)|]; reflexivity.
Qed.

Lemma needs_modification_total instance serviceAnnos m p :
  elbv2.TGMatcher instance = Some m ->
  annotations.Protocol (annotations.HealthCheck serviceAnnos) = Some p ->
  exists b, tgctl.TGInstanceNeedsModification instance serviceAnnos = Done b.
Proof.
  intros Hm Hp. unfold tgctl.TGInstanceNeedsModification, tgctl.obind.
  rewrite Hm, Hp. simpl.
  repeat match goal with
  | |- context [if ?b then _ else _] => destruct b; simpl
  end; eexists; reflexivity.
Qed.

(** C10: a live target group without a matcher makes the comparison, and
    with it the reconcile of that target group, panic, whatever the
    health-check protocol and before any cloud call; with a matcher (and a
    protocol) it returns; for a protocol other than HTTP and HTTPS the
    matcher that is read does not change the answer; and the target group
    the controller creates for such a protocol is created without
    matcher. *)
Theorem TGInstanceNeedsModification_matcher :
  (forall instance serviceAnnos,
     elbv2.TGMatcher instance = None ->
     tgctl.TGInstanceNeedsModification instance serviceAnnos = Panic)
  /\ (forall W (controller : tgctl.defaultController W) instance serviceAnnos
        healthCheckPort w,
        elbv2.TGMatcher instance = None ->
        tgctl.reconcileTGInstance controller instance serviceAnnos
          healthCheckPort w = mkRun [] w Panic)
  /\ (forall instance serviceAnnos m p,
        elbv2.TGMatcher instance = Some m ->
        annotations.Protocol (annotations.HealthCheck serviceAnnos) = Some p ->
        exists b,
          tgctl.TGInstanceNeedsModification instance serviceAnnos = Done b)
  /\ (forall instance serviceAnnos m m' p,
        annotations.Protocol (annotations.HealthCheck serviceAnnos) = Some p ->
        tgctl.is_http p = false ->
        tgctl.TGInstanceNeedsModification (set_matcher (Some m) instance)
          serviceAnnos
        = tgctl.TGInstanceNeedsModification (set_matcher (Some m') instance)
            serviceAnnos)
  /\ (forall name serviceAnnos healthCheckPort p,
        annotations.Protocol (annotations.HealthCheck serviceAnnos) = Some p ->
        tgctl.is_http p = false ->
        exists input,
          tgctl.create_input name serviceAnnos healthCheckPort = Done input
          /\ elbv2.ct_Matcher input = None).
Proof.
  split; [exact needs_modification_nil_matcher|].
  split.
  { intros W controller instance serviceAnnos port w Hm.
    unfold tgctl.reconcileTGInstance, bind, lift.
    now rewrite needs_modification_nil_matcher. }
  split; [exact needs_modification_total|].
  split.
  { intros instance serviceAnnos m m' p Hp Hhttp.
    unfold tgctl.TGInstanceNeedsModification, tgctl.obind. rewrite Hp.
    simpl. rewrite Hhttp.
    destruct (negb (util.DeepEqual (elbv2.HealthCheckPath instance) _));
      simpl;
      destruct (negb (util.DeepEqual (elbv2.HttpCode m) _));
      destruct (negb (util.DeepEqual (elbv2.HttpCode m') _)); reflexivity. }
  intros name serviceAnnos port p Hp Hhttp.
  unfold tgctl.create_input, tgctl.obind. rewrite Hp. simpl.
  eexists. split; [reflexivity|]. simpl. now rewrite Hhttp.
Qed.

(** A TCP health check: the target group the controller creates carries no
    matcher, and comparing that target group panics. *)
Lemma TGInstanceNeedsModification_matcher_witness :
  let serviceAnnos := Fake.foo_annos "internal" "traffic-port" "TCP" "ip" in
  exists input,
    tgctl.create_input "nlb-tg" serviceAnnos "traffic-port" = Done input
    /\ elbv2.TGMatcher (Fake.created_tg input) = None
    /\ tgctl.TGInstanceNeedsModification (Fake.created_tg input) serviceAnnos
       = Panic.
Proof.
  intros serviceAnnos.
  destruct TGInstanceNeedsModification_matcher as (Hnil & _ & _ & _ & Hcreate).
  destruct (Hcreate "nlb-tg" serviceAnnos "traffic-port" "TCP" eq_refl eq_refl)
    as (input & Hinput & Hm).
  exists input. split; [exact Hinput|].
  assert (Hlive : elbv2.TGMatcher (Fake.created_tg input) = None) by exact Hm.
  split; [exact Hlive|]. now apply Hnil.
Defined.

End Matcher.

(** ** Garbage collection after listener convergence (Reconcile) *)

Section Quiet.
Context {W : Type}.








End Quiet.



Section Reconciling.
Context {W : Type} (controller : lbctl.defaultController W).






End Reconciling.

Section Inversion.
Context {W : Type}.

(** A successful [attempt] ran [m] to a value and continued with it. *)
Lemma attempt_inv {A B} (m : M W (result A)) (wrap : error -> result B)
  (k : A -> M W (result B)) w b :
  (forall err, wrap err <> Ok b) ->
  outcome (attempt m wrap k w) = Done (Ok b) ->
  exists a,
    outcome (m w) = Done (Ok a)
    /\ outcome (k a (world (m w))) = Done (Ok b)
    /\ trace (attempt m wrap k w)
       = (trace (m w) ++ trace (k a (world (m w))))%list
    /\ world (attempt m wrap k w) = world (k a (world (m w))).
Proof.
  intros Hwrap. unfold attempt, bind.
  destruct (m w) as [t w' [[a|err]|]]; simpl; try discriminate.
  - intros H. exists a. now repeat split.
  - intros [= H]. now apply Hwrap in H.
Qed.

(** A successful [check_err] ran [m] without error and continued. *)
Lemma check_err_inv {B} (m : M W (option error)) (wrap : error -> result B)
  (k : M W (result B)) w b :
  (forall err, wrap err <> Ok b) ->
  outcome (check_err m wrap k w) = Done (Ok b) ->
  outcome (m w) = Done None
  /\ outcome (k (world (m w))) = Done (Ok b)
  /\ trace (check_err m wrap k w) = (trace (m w) ++ trace (k (world (m w))))%list
  /\ world (check_err m wrap k w) = world (k (world (m w))).
Proof.
  intros Hwrap. unfold check_err, bind.
  destruct (m w) as [t w' [[err|]|]]; simpl; try discriminate.
  - intros [= H]. now apply Hwrap in H.
  - intros H. now repeat split.
Qed.

End Inversion.

Section GarbageCollection.


Lemma stale_iff owned group arn :
  In arn (tggroup.stale owned group)
  <-> In arn owned /\ ~ In arn (tg.arns group).
Proof.
  unfold tggroup.stale. rewrite filter_In, negb_true_iff, bool_decide_eq_false.
  now rewrite list_elem_of_In.
Qed.









(** The example of the design notes: target groups A and B are owned and
    the Service now declares only the backend of A: B alone is deleted. *)
Example GC_deletes_only_B :
  tggroup.stale ["arn:tg/A"; "arn:tg/B"] group_A = ["arn:tg/B"]
  /\ tggroup.GC group_A ["arn:tg/A"; "arn:tg/B"] = (["arn:tg/A"], None).
Proof. split; vm_compute; reflexivity. Qed.

End GarbageCollection.

(** ** Reconciling twice (idempotence) *)

Section Idempotence.

(** X2: a live target group that agrees with the annotations on every
    field compared needs no modification. *)
Lemma needs_modification_false instance serviceAnnos m p :
  elbv2.TGMatcher instance = Some m ->
  annotations.Protocol (annotations.HealthCheck serviceAnnos) = Some p ->
  elbv2.HealthCheckPath instance
  = annotations.Path (annotations.HealthCheck serviceAnnos) ->
  elbv2.HealthCheckPort instance
  = annotations.Port (annotations.HealthCheck serviceAnnos) ->
  elbv2.HealthCheckProtocol instance = Some p ->
  elbv2.HealthCheckIntervalSeconds instance
  = annotations.IntervalSeconds (annotations.HealthCheck serviceAnnos) ->
  elbv2.HttpCode m
  = annotations.SuccessCodes (annotations.TargetGroup serviceAnnos) ->
  elbv2.HealthyThresholdCount instance
  = annotations.HealthyThresholdCount (annotations.TargetGroup serviceAnnos) ->
  elbv2.UnhealthyThresholdCount instance
  = annotations.UnhealthyThresholdCount (annotations.TargetGroup serviceAnnos) ->
  tgctl.TGInstanceNeedsModification instance serviceAnnos = Done false.
Proof.
  intros Hm Hp H1 H2 H3 H4 H5 H6 H7.
  unfold tgctl.TGInstanceNeedsModification, tgctl.obind, util.DeepEqual.
  rewrite Hm, Hp, H1, H2, H3, H4, H6, H7. simpl. rewrite H5.
  now rewrite !bool_decide_eq_true_2.
Qed.

(** X1: a load balancer whose address type and subnet set are the desired
    ones is not modified: only its tags are reconciled. *)
Lemma reconcileLBInstance_in_place {W} (controller : lbctl.defaultController W)
  instance lbConfig w :
  elbv2.IpAddressType instance = lb.IpAddressType lbConfig ->
  (list_to_set (map aws.StringValue
                  (util.AsSubnets (elbv2.AvailabilityZones instance)))
   : gset string) = list_to_set (lb.Subnets lbConfig) ->
  trace (lbctl.reconcileLBInstance controller instance lbConfig w)
  = [TagsReconcileELB (aws.StringValue (elbv2.LoadBalancerArn instance))
       (lb.Tags lbConfig)].
Proof.
  intros Hip Hsubnets.
  unfold lbctl.reconcileLBInstance, check_err, bind, call, ret,
    util.DeepEqual.
  rewrite !bool_decide_eq_true_2 by assumption. simpl.
  destruct (tags_ReconcileELB _ _ _ w) as [w' [err|]]; reflexivity.
Qed.

(** X3: the comparison is made with the port as annotated, not with the
    port the controller resolves and writes: a live health-check port that
    differs from the annotation text always asks for a modification. *)
Lemma needs_modification_port instance serviceAnnos m p :
  elbv2.TGMatcher instance = Some m ->
  annotations.Protocol (annotations.HealthCheck serviceAnnos) = Some p ->
  elbv2.HealthCheckPort instance
  <> annotations.Port (annotations.HealthCheck serviceAnnos) ->
  tgctl.TGInstanceNeedsModification instance serviceAnnos = Done true.
Proof.
  intros Hm Hp Hport.
  unfold tgctl.TGInstanceNeedsModification, tgctl.obind. cbv zeta.
  rewrite Hm, Hp.
  assert (Hd : util.DeepEqual (elbv2.HealthCheckPort instance)
                 (annotations.Port (annotations.HealthCheck serviceAnnos))
               = false)
    by (unfold util.DeepEqual; now apply bool_decide_eq_false_2).
  simpl. rewrite Hd. simpl.
  repeat match goal with
  | |- context [if ?b then _ else _] =>
      match type of b with bool => destruct b; simpl end
  end; reflexivity.
Qed.

(** C1 fails on the code.  The Service [default/foo] names its health-check
    port "http" (node port 31080, target type instance).  The first
    reconcile creates the target group with health-check port "31080".
    The second finds it as created, compares "31080" with "http", and
    calls ModifyTargetGroup with the values the target group already has;
    the account is the same before and after, and so is every later
    reconcile. *)
Theorem Reconcile_named_port_modifies_again :
  let reconcile :=
    tgctl.Reconcile Fake.tgController Fake.LookupServicePort Fake.foo
      foo_backend in
  let first := reconcile (Fake.account foo_http_annos false) in
  let second := reconcile (world first) in
  Fake.tgs (world first) = [foo_live_tg]
  /\ tgctl.modify_input foo_live_tg foo_http_annos "31080"
     = Done foo_modify_input
  /\ Fake.modified_tg foo_modify_input foo_live_tg = foo_live_tg
  /\ tgctl.TGInstanceNeedsModification foo_live_tg foo_http_annos = Done true
  /\ trace second
     = [GetServiceAnnotations "default/foo"; GetService "default/foo";
        GetTargetGroupByName "nlb-b481aadcb05ea477b62";
        ModifyTargetGroup foo_modify_input;
        TagsReconcileELB "arn:tg/nlb-b481aadcb05ea477b62"
          (tgctl.buildTags Fake.tgController Fake.foo foo_backend
             foo_http_annos);
        TGAttributesReconcile "arn:tg/nlb-b481aadcb05ea477b62" [];
        TargetsReconcile
          {| tg.TgArn := "arn:tg/nlb-b481aadcb05ea477b62";
             tg.TargetsOf := [];
             tg.TargetsTargetType := "instance";
             tg.TargetsService := Fake.foo;
             tg.TargetsBackend := foo_backend |}]
  /\ existsb mutating (trace second) = true
  /\ world second = world first.
Proof.
  cbv zeta. repeat split; vm_compute; reflexivity.
Qed.

(** The load balancer of [default/foo] as created, against the
    configuration it was created from. *)
Lemma reconcileLBInstance_in_place_witness :
  let instance := foo_lb "internal" in
  let lbConfig := foo_lb_config "internal" in
  elbv2.IpAddressType instance = lb.IpAddressType lbConfig
  /\ (list_to_set (map aws.StringValue
                     (util.AsSubnets (elbv2.AvailabilityZones instance)))
      : gset string) = list_to_set (lb.Subnets lbConfig)
  /\ trace (lbctl.reconcileLBInstance Fake.lbController instance lbConfig
              (account_with_lb "internal" false))
     = [TagsReconcileELB "arn:lb/nlb-default-foo-a4dd" (lb.Tags lbConfig)].
Proof.
  intros instance lbConfig.
  assert (Hip : elbv2.IpAddressType instance = lb.IpAddressType lbConfig)
    by reflexivity.
  assert (Hsubnets :
    (list_to_set (map aws.StringValue
                    (util.AsSubnets (elbv2.AvailabilityZones instance)))
     : gset string) = list_to_set (lb.Subnets lbConfig)) by reflexivity.
  split; [exact Hip|]. split; [exact Hsubnets|].
  exact (reconcileLBInstance_in_place Fake.lbController instance lbConfig
           (account_with_lb "internal" false) Hip Hsubnets).
Defined.

(** The target group of [default/foo] against annotations that give the
    health-check port as the number it has. *)
Lemma needs_modification_false_witness :
  tgctl.TGInstanceNeedsModification foo_live_tg
    (Fake.foo_annos "internal" "31080" "HTTP" "instance") = Done false.
Proof.
  apply (needs_modification_false foo_live_tg
           (Fake.foo_annos "internal" "31080" "HTTP" "instance")
           {| elbv2.HttpCode := Some "200" |} "HTTP"); reflexivity.
Defined.

(** The same target group against annotations that name the port. *)
Lemma needs_modification_port_witness :
  elbv2.HealthCheckPort foo_live_tg
  <> annotations.Port (annotations.HealthCheck foo_http_annos)
  /\ tgctl.TGInstanceNeedsModification foo_live_tg foo_http_annos = Done true.
Proof.
  assert (Hport : elbv2.HealthCheckPort foo_live_tg
                  <> annotations.Port (annotations.HealthCheck foo_http_annos))
    by discriminate.
  split; [exact Hport|].
  exact (needs_modification_port foo_live_tg foo_http_annos
           {| elbv2.HttpCode := Some "200" |} "HTTP" eq_refl eq_refl Hport).
Defined.

End Idempotence.

(** ** More on byte strings *)

Section MoreStrings.

Lemma all_bytes_app p s1 s2 :
  all_bytes p (s1 ++ s2) = all_bytes p s1 && all_bytes p s2.
Proof.
  induction s1 as [|c s1 IH]; simpl; [reflexivity|].
  now rewrite IH, andb_assoc.
Qed.

Lemma all_bytes_impl (p q : ascii -> bool) s :
  (forall c, p c = true -> q c = true) ->
  all_bytes p s = true -> all_bytes q s = true.
Proof.
  intros Hpq. induction s as [|c s IH]; simpl; [reflexivity|].
  intros [Hc Hs]%andb_true_iff. rewrite (Hpq c Hc). now apply IH.
Qed.

Lemma hex_digit_alnum c : hex_digit c = true -> GoString.is_alnum c = true.
Proof.
  unfold hex_digit, GoString.in_range, GoString.is_alnum.
  intros [H|H]%orb_true_iff; apply andb_true_iff in H as [H1 H2];
    apply Z.leb_le in H1, H2;
    repeat match goal with
    | |- context [?a <=? ?b] => destruct (Z.leb_spec a b)
    end; simpl; try reflexivity; lia.
Qed.

Lemma alnum_alnum_or_hyphen c :
  GoString.is_alnum c = true -> alnum_or_hyphen c = true.
Proof. unfold alnum_or_hyphen. now intros ->. Qed.

(** [%.Ns] of a string of at most [n] bytes (beyond the bytes still to be
    copied) is the string itself. *)
Lemma truncate_runes_short s : forall n skip,
  (GoString.len s <= n + skip)%nat -> generator.truncate_runes n skip s = s.
Proof.
  unfold GoString.len.
  induction s as [|c s IH]; intros n skip H; [reflexivity|].
  simpl in *. destruct skip as [|k].
  - destruct n as [|n]; [lia|]. f_equal. apply IH. lia.
  - f_equal. apply IH. lia.
Qed.

(** [%.Ns] of an ASCII string is its first [n] bytes. *)
Lemma truncate_runes_ascii s : forall n,
  all_bytes (fun c => GoString.byte_of c <? 128) s = true ->
  generator.truncate_runes n 0 s = GoString.slice_to n s.
Proof.
  unfold GoString.slice_to.
  induction s as [|c s IH]; intros n H.
  - now destruct n.
  - simpl in H. apply andb_true_iff in H as [Hc Hs].
    destruct n as [|n]; simpl; [reflexivity|].
    rewrite Hc. f_equal. now apply IH.
Qed.

Lemma hex_digit_ascii c :
  hex_digit c = true -> (GoString.byte_of c <? 128) = true.
Proof.
  unfold hex_digit, GoString.in_range.
  intros [H|H]%orb_true_iff; apply andb_true_iff in H as [H1 H2];
    apply Z.leb_le in H1, H2; apply Z.ltb_lt; lia.
Qed.

End MoreStrings.

Section Appending.

Lemma append_empty_r s : s ++ "" = s.
Proof.
  induction s as [|c s IH]; [reflexivity|].
  change (String c (s ++ "") = String c s). now f_equal.
Qed.

Lemma append_assoc s1 s2 s3 : (s1 ++ s2) ++ s3 = s1 ++ (s2 ++ s3).
Proof.
  induction s1 as [|c s1 IH]; [reflexivity|].
  change (String c ((s1 ++ s2) ++ s3) = String c (s1 ++ (s2 ++ s3))).
  now f_equal.
Qed.

End Appending.

(** ** Names and tags (generator) *)

Section MoreNaming.

(** X4: every byte of a load-balancer name is an ASCII letter, a digit or a
    hyphen, whatever the prefix, the namespace and the service name hold. *)
Theorem NameLB_charset gen namespace serviceName :
  all_bytes alnum_or_hyphen (generator.NameLB gen namespace serviceName)
  = true.
Proof.
  rewrite NameLB_unfold, !all_bytes_app.
  rewrite all_bytes_slice_to.
  - simpl. apply (all_bytes_impl hex_digit).
    + intros c Hc. now apply alnum_alnum_or_hyphen, hex_digit_alnum.
    + apply all_bytes_slice_to, md5_hex_digits.
  - rewrite !all_bytes_app. unfold GoString.ReplaceAllNonAlnum.
    rewrite replace_hyphen_bytes. simpl.
    rewrite !(all_bytes_impl GoString.is_alnum alnum_or_hyphen);
      auto using alnum_alnum_or_hyphen, keep_alnum_bytes.
Qed.

(** With a prefix of at most 12 bytes nothing of it is cut: the name is
    the prefix, a hyphen and the first 19 hex digits of the digest. *)
Lemma NameTG_unfold gen namespace serviceName servicePort targetType protocol :
  (GoString.len (generator.NLBNamePrefix gen) <= 12)%nat ->
  generator.NameTG gen namespace serviceName servicePort targetType protocol
  = generator.NLBNamePrefix gen ++ "-"
    ++ GoString.slice_to 19
         (md5_hex (generator.NameLB gen namespace serviceName ++ serviceName
                   ++ servicePort ++ protocol ++ targetType)).
Proof.
  intros Hlen. unfold generator.NameTG. cbv zeta.
  rewrite truncate_runes_short by lia.
  rewrite truncate_runes_ascii; [reflexivity|].
  apply (all_bytes_impl hex_digit); [apply hex_digit_ascii|].
  apply md5_hex_digits.
Qed.

Lemma NameTG_len gen namespace serviceName servicePort targetType protocol :
  (GoString.len (generator.NLBNamePrefix gen) <= 12)%nat ->
  GoString.len
    (generator.NameTG gen namespace serviceName servicePort targetType
       protocol)
  = (GoString.len (generator.NLBNamePrefix gen) + 20)%nat.
Proof.
  intros Hlen. rewrite NameTG_unfold by exact Hlen.
  rewrite !len_app, slice_to_exact by (rewrite md5_hex_len; lia).
  change (GoString.len "-") with 1%nat. lia.
Qed.

(** X5: with a name prefix of at most 12 bytes, the target-group name is the
    whole prefix, a hyphen and the first 19 hex digits of the MD5 of LBName,
    serviceName, servicePort, protocol and targetType written one after the
    other in this order; its length is the length of the prefix plus 20, so at
    most 32 bytes. *)
Theorem NameTG_shape gen namespace serviceName servicePort targetType protocol :
  (GoString.len (generator.NLBNamePrefix gen) <= 12)%nat ->
  let digest :=
    GoString.slice_to 19
      (md5_hex (generator.NameLB gen namespace serviceName ++ serviceName
                ++ servicePort ++ protocol ++ targetType)) in
  let name :=
    generator.NameTG gen namespace serviceName servicePort targetType
      protocol in
  name = generator.NLBNamePrefix gen ++ "-" ++ digest
  /\ GoString.len digest = 19%nat
  /\ all_bytes hex_digit digest = true
  /\ GoString.len name = (GoString.len (generator.NLBNamePrefix gen) + 20)%nat
  /\ (GoString.len name <= 32)%nat.
Proof.
  intros Hlen. cbv zeta.
  split; [now apply NameTG_unfold|].
  split; [apply slice_to_exact; rewrite md5_hex_len; lia|].
  split; [apply all_bytes_slice_to, md5_hex_digits|].
  rewrite NameTG_len by exact Hlen. split; lia.
Qed.

(** The target group of default/foo:80 under the prefix [nlb]. *)
Lemma NameTG_shape_witness :
  (GoString.len (generator.NLBNamePrefix nlb_gen) <= 12)%nat
  /\ generator.NameTG nlb_gen "default" "foo" "80" "ip" "TCP"
     = "nlb-" ++ GoString.slice_to 19
         (md5_hex ("nlb-default-foo-a4dd" ++ "foo" ++ "80" ++ "TCP" ++ "ip")).
Proof.
  split; [vm_compute; lia|].
  pose proof (NameTG_shape nlb_gen "default" "foo" "80" "ip" "TCP") as H.
  cbv zeta in H. destruct H as [H _]; [vm_compute; lia|].
  rewrite H. vm_compute. reflexivity.
Defined.

End MoreNaming.

Section Tags.

Lemma cluster_key_fresh c k :
  In k [generator.TagKeyNamespace; generator.TagKeyServiceName;
        generator.TagKeyLBCCluster; generator.TagKeyLBCStack;
        generator.TagKeyLBCServiceResource] ->
  "kubernetes.io/cluster/" ++ c <> k.
Proof.
  simpl. intros [<-|[<-|[<-|[<-|[<-|[]]]]]]; intros E; cbv in E; congruence.
Qed.

(** X6: the tags of a load balancer always hold the ownership tag
    kubernetes.io/cluster/<cluster> = owned, the namespace, the service name,
    the cluster, the stack namespace/name and the resource marker
    LoadBalancer, whatever the default tags say for these keys; every other
    key has the value the default tags give it. *)
Theorem TagLB_ownership gen namespace serviceName :
  let tags := generator.TagLB gen namespace serviceName in
  tags !! ("kubernetes.io/cluster/" ++ generator.ClusterName gen)
  = Some "owned"
  /\ tags !! generator.TagKeyNamespace = Some namespace
  /\ tags !! generator.TagKeyServiceName = Some serviceName
  /\ tags !! generator.TagKeyLBCCluster = Some (generator.ClusterName gen)
  /\ tags !! generator.TagKeyLBCStack = Some (namespace ++ "/" ++ serviceName)
  /\ tags !! generator.TagKeyLBCServiceResource = Some "LoadBalancer"
  /\ forall k, ~ In k (ownership_keys gen) ->
       tags !! k = generator.DefaultTags gen !! k.
Proof.
  cbv zeta. unfold generator.TagLB, generator.tagServiceResources.
  pose proof (cluster_key_fresh (generator.ClusterName gen)) as Hfresh.
  repeat split.
  - rewrite !lookup_insert_ne
      by (intros E; symmetry in E; revert E; apply Hfresh; simpl; tauto).
    apply lookup_insert_eq.
  - rewrite !lookup_insert_ne by discriminate. apply lookup_insert_eq.
  - rewrite !lookup_insert_ne by discriminate. apply lookup_insert_eq.
  - rewrite !lookup_insert_ne by discriminate. apply lookup_insert_eq.
  - rewrite !lookup_insert_ne by discriminate. apply lookup_insert_eq.
  - apply lookup_insert_eq.
  - intros k Hk. unfold ownership_keys in Hk. simpl in Hk.
    rewrite !lookup_insert_ne by (intros E; apply Hk; tauto). reflexivity.
Qed.

End Tags.

(** ** Auto-discovery of subnets: nil zones and marker tags *)

Section ZonelessSubnets.

Lemma subnetIsUsable_zoneless new u existing :
  zone new = None -> lbctl.subnetIsUsable new (u :: existing) = Panic.
Proof. unfold zone. simpl. now intros ->. Qed.

Lemma keep_usable_zoned o : forall useable out,
  Forall has_zone useable -> useable <> [] ->
  lbctl.keep_usable o useable out = Panic
  <-> Exists (fun s => zone s = None) o.
Proof.
  induction o as [|s rest IH]; intros useable out Hz Hne.
  - simpl. split; [discriminate|]. intros H. inversion H.
  - cbn [lbctl.keep_usable]. destruct (zone s) as [z|] eqn:Hs.
    + assert (Hs' : has_zone s) by (unfold has_zone; congruence).
      destruct (subnetIsUsable_spec s useable Hs' Hz) as (b & -> & _).
      assert (Hrest : Exists (fun s0 => zone s0 = None) (s :: rest)
                      <-> Exists (fun s0 => zone s0 = None) rest).
      { split; [|now right]. intros H. inversion H; subst; [congruence|easy]. }
      rewrite Hrest. destruct b.
      * apply IH; [apply Forall_app; split; [exact Hz|now constructor]|].
        now destruct useable.
      * now apply IH.
    + destruct useable as [|u useable]; [congruence|].
      rewrite subnetIsUsable_zoneless by exact Hs.
      split; [now left|reflexivity].
Qed.

(** X7: the loop that keeps one subnet per availability zone dereferences a
    nil zone exactly when the lookup returned at least two subnets and one of
    them has no availability zone; a subnet that comes alone is compared with
    nothing. *)
Theorem keep_usable_panics o :
  lbctl.keep_usable o [] [] = Panic
  <-> (2 <= length o)%nat /\ Exists (fun s => zone s = None) o.
Proof.
  destruct o as [|x rest].
  - simpl. split; [discriminate|]. intros [H _]. lia.
  - cbn [lbctl.keep_usable lbctl.subnetIsUsable app].
    destruct (zone x) as [z|] eqn:Hx.
    + rewrite keep_usable_zoned;
        [|repeat constructor; unfold has_zone; congruence|discriminate].
      split.
      * intros H. split; [|now right].
        inversion H; subst; simpl; lia.
      * intros [_ H]. inversion H; subst; [congruence|easy].
    + destruct rest as [|y rest].
      * simpl. split; [discriminate|]. intros [H _]. lia.
      * cbn [lbctl.keep_usable lbctl.subnetIsUsable].
        unfold zone in Hx. rewrite Hx.
        destruct (ec2.AvailabilityZone y);
          (split; [intros _; split; [simpl; lia|now left]|reflexivity]).
Qed.

End ZonelessSubnets.

Section MarkedSubnets.

Lemma tagged_inner key arn tags : forall acc id,
  In id
    (fold_left
       (fun subnetIds tag =>
          if String.eqb (aws.StringValue (ec2.Key tag)) key
          then (subnetIds ++ [lbctl.last_segment EmptyString arn])%list
          else subnetIds)
       tags acc)
  <-> In id acc
      \/ (id = lbctl.last_segment EmptyString arn /\ marked key tags).
Proof.
  induction tags as [|tag tags IH]; intros acc id; cbn [fold_left].
  - split; [now left|]. intros [H1|[_ (t & [] & _)]]. exact H1.
  - rewrite IH. unfold marked.
    destruct (String.eqb_spec (aws.StringValue (ec2.Key tag)) key) as [Hk|Hk].
    + rewrite in_app_iff. cbn [In]. split.
      * intros [[H1|[H1|[]]]|[H1 (t & Ht & Htk)]].
        -- now left.
        -- right. split; [now symmetry|]. exists tag. split; [now left|easy].
        -- right. split; [exact H1|]. exists t. split; [now right|easy].
      * intros [H1|[H1 (t & [Ht|Ht] & Htk)]].
        -- left. now left.
        -- left. right. left. now symmetry.
        -- right. split; [exact H1|]. now exists t.
    + split.
      * intros [H1|[H1 (t & Ht & Htk)]]; [now left|].
        right. split; [exact H1|]. exists t. split; [now right|easy].
      * intros [H1|[H1 (t & [Ht|Ht] & Htk)]]; [now left| |].
        -- subst t. congruence.
        -- right. split; [exact H1|]. now exists t.
Qed.

Lemma tagged_outer key cs : forall acc id,
  In id
    (fold_left
       (fun subnetIds '(arn, subnetTags) =>
          fold_left
            (fun subnetIds tag =>
               if String.eqb (aws.StringValue (ec2.Key tag)) key
               then (subnetIds ++ [lbctl.last_segment EmptyString arn])%list
               else subnetIds)
            subnetTags subnetIds)
       cs acc)
  <-> In id acc
      \/ exists arn subnetTags,
           In (arn, subnetTags) cs
           /\ id = lbctl.last_segment EmptyString arn
           /\ marked key subnetTags.
Proof.
  induction cs as [|[arn tags] cs IH]; intros acc id; cbn [fold_left].
  - split; [now left|]. intros [H1|(a & t & [] & _)]. exact H1.
  - rewrite IH, tagged_inner. split.
    + intros [[H1|[H1 Hm]]|(a & t & Hin & H1 & Hm)].
      * now left.
      * right. exists arn, tags. split; [now left|easy].
      * right. exists a, t. split; [now right|easy].
    + intros [H1|(a & t & [[= -> ->]|Hin] & H1 & Hm)].
      * left. now left.
      * left. right. easy.
      * right. now exists a, t.
Qed.

(** X8: auto-discovery looks up exactly the subnets that carry the marker tag
    key of the scheme: an ID is asked for iff it is the last segment of the
    ARN of a cluster subnet one of whose tags has that key. *)
Theorem tagged_subnet_ids_marked key clusterSubnets id :
  In id (lbctl.tagged_subnet_ids key clusterSubnets)
  <-> exists arn subnetTags,
        In (arn, subnetTags) clusterSubnets
        /\ id = lbctl.last_segment EmptyString arn
        /\ marked key subnetTags.
Proof.
  unfold lbctl.tagged_subnet_ids. rewrite tagged_outer. cbn [In]. tauto.
Qed.

End MarkedSubnets.

(** ** Calls a computation never places *)

Section Avoiding.
Context {W : Type} (p : Call -> bool).

Lemma avoids_ret {A} (a : A) : avoids p (ret (W := W) a).
Proof. intros w. constructor. Qed.

Lemma avoids_panic {A} : avoids p (panic (W := W) (A := A)).
Proof. intros w. constructor. Qed.

Lemma avoids_lift {A} (o : Outcome A) : avoids p (lift (W := W) o).
Proof. intros w. constructor. Qed.

Lemma avoids_call {R} c (f : W -> W * R) :
  p c = false -> avoids p (call c f).
Proof.
  intros Hc w. unfold call. destruct (f w). simpl. now repeat constructor.
Qed.

Lemma avoids_bind {A B} (m : M W A) (k : A -> M W B) :
  avoids p m -> (forall a, avoids p (k a)) -> avoids p (bind m k).
Proof.
  intros Hm Hk w. unfold bind. specialize (Hm w).
  destruct (m w) as [t w' [a|]]; simpl in *; [|exact Hm].
  apply Forall_app. split; [exact Hm|apply Hk].
Qed.

Lemma avoids_check_err {A} (m : M W (option error)) (wrap : error -> A) k :
  avoids p m -> avoids p k -> avoids p (check_err m wrap k).
Proof.
  intros Hm Hk. apply avoids_bind; [exact Hm|].
  intros [err|]; [apply avoids_ret|exact Hk].
Qed.

Lemma avoids_attempt {A B} (m : M W (result A)) (wrap : error -> B) k :
  avoids p m -> (forall a, avoids p (k a)) -> avoids p (attempt m wrap k).
Proof.
  intros Hm Hk. apply avoids_bind; [exact Hm|].
  intros [a|err]; [apply Hk|apply avoids_ret].
Qed.

End Avoiding.

Ltac avoids_step :=
  first
    [ apply avoids_ret | apply avoids_panic | apply avoids_lift
    | apply avoids_call; reflexivity
    | apply avoids_check_err
    | apply avoids_attempt; [|intros ?]
    | apply avoids_bind; [|intros ?]
    | match goal with
      | |- avoids _ (if ?b then _ else _) => destruct b
      | |- avoids _ (match ?x with _ => _ end) => destruct x
      end ].

Ltac avoids_all := repeat avoids_step.

Section ReadOnlyStages.
Context {W : Type} (controller : lbctl.defaultController W).

Lemma clusterSubnets_reads scheme :
  avoids mutating (lbctl.clusterSubnets controller scheme).
Proof. unfold lbctl.clusterSubnets. avoids_all. Qed.

Lemma resolveSubnets_reads scheme in_ :
  avoids mutating (lbctl.resolveSubnets controller scheme in_).
Proof.
  unfold lbctl.resolveSubnets. destruct in_ as [|x l].
  - apply avoids_bind; [apply clusterSubnets_reads|]. intros a. avoids_all.
  - avoids_all.
Qed.

Lemma buildLBConfig_reads service serviceAnnos :
  avoids mutating (lbctl.buildLBConfig controller service serviceAnnos).
Proof.
  unfold lbctl.buildLBConfig.
  apply avoids_bind; [apply resolveSubnets_reads|]. intros a. avoids_all.
Qed.

Lemma validateLBConfig_reads service lbConfig :
  avoids mutating (lbctl.validateLBConfig controller service lbConfig).
Proof. unfold lbctl.validateLBConfig. avoids_all. Qed.

End ReadOnlyStages.

Section Runs.
Context {W : Type}.

Lemma attempt_ok {A B} (m : M W (result A)) (wrap : error -> B)
  (k : A -> M W B) w a :
  outcome (m w) = Done (Ok a) ->
  attempt m wrap k w
  = mkRun (trace (m w) ++ trace (k a (world (m w))))
      (world (k a (world (m w)))) (outcome (k a (world (m w)))).
Proof. unfold attempt, bind. now intros ->. Qed.

Lemma attempt_err {A B} (m : M W (result A)) (wrap : error -> B)
  (k : A -> M W B) w err :
  outcome (m w) = Done (Err err) ->
  attempt m wrap k w = mkRun (trace (m w) ++ []) (world (m w)) (Done (wrap err)).
Proof. unfold attempt, bind. now intros ->. Qed.

Lemma check_err_none {A} (m : M W (option error)) (wrap : error -> A)
  (k : M W A) w :
  outcome (m w) = Done None ->
  check_err m wrap k w
  = mkRun (trace (m w) ++ trace (k (world (m w))))
      (world (k (world (m w)))) (outcome (k (world (m w)))).
Proof. unfold check_err, bind. now intros ->. Qed.

Lemma check_err_some {A} (m : M W (option error)) (wrap : error -> A)
  (k : M W A) w err :
  outcome (m w) = Done (Some err) ->
  check_err m wrap k w
  = mkRun (trace (m w) ++ []) (world (m w)) (Done (wrap err)).
Proof. unfold check_err, bind. now intros ->. Qed.

End Runs.

(** ** The scheme whitelist (validateLBConfig) *)

Section Validation.
Context {W : Type} (controller : lbctl.defaultController W).

Lemma existsb_eqb_In name l :
  existsb (fun n => String.eqb n name) l = true <-> In name l.
Proof.
  rewrite existsb_exists. split.
  - intros (x & Hx & ->%String.eqb_eq). exact Hx.
  - intros H. exists name. split; [exact H|apply String.eqb_refl].
Qed.

(** X9: [validateLBConfig] reads the configuration once and places no other
    call.  It refuses, with the whitelist error, exactly when the scheme is
    restricted, the desired scheme is internet-facing and the service name is
    not listed for its namespace; otherwise it returns nil. *)
Theorem validateLBConfig_whitelist service lbConfig w :
  let r := lbctl.validateLBConfig controller service lbConfig w in
  let controllerCfg := (store_GetConfig (lbctl.store controller) w).2 in
  let refused :=
    config.RestrictScheme controllerCfg = true
    /\ aws.StringValue (lb.Scheme lbConfig)
       = elbv2.LoadBalancerSchemeEnumInternetFacing
    /\ ~ In (corev1.ServiceName service)
           (default []
              (config.InternetFacingServices controllerCfg
                 !! corev1.Namespace service)) in
  trace r = [GetConfig]
  /\ world r = (store_GetConfig (lbctl.store controller) w).1
  /\ (refused ->
      outcome r
      = Done (Some ("service " ++ corev1.Namespace service ++ "/"
                    ++ corev1.ServiceName service
                    ++ " is not in internetFacing whitelist")))
  /\ (~ refused -> outcome r = Done None).
Proof.
  cbv zeta. unfold lbctl.validateLBConfig, bind, call.
  destruct (store_GetConfig (lbctl.store controller) w) as [w1 cfg].
  cbn [fst snd outcome world trace].
  destruct (config.RestrictScheme cfg) eqn:Hr; cbn [andb].
  - destruct (String.eqb_spec (aws.StringValue (lb.Scheme lbConfig))
                elbv2.LoadBalancerSchemeEnumInternetFacing) as [Hs|Hs].
    + destruct (existsb _ _) eqn:Hw; cbn;
        (split; [reflexivity|]); (split; [reflexivity|]); split.
      * apply existsb_eqb_In in Hw. tauto.
      * reflexivity.
      * reflexivity.
      * intros H. exfalso. apply H.
        split; [reflexivity|]. split; [exact Hs|]. intros Hin.
        apply existsb_eqb_In in Hin. congruence.
    + cbn. split; [reflexivity|]. split; [reflexivity|].
      split; [tauto|reflexivity].
  - cbn. split; [reflexivity|]. split; [reflexivity|].
    split; [|reflexivity]. intros [H _]. discriminate.
Qed.

(** X10: when the configuration built for a Service is refused by
    [validateLBConfig], [Reconcile] returns that error and has placed no call
    that creates, deletes or modifies a load balancer or a target group. *)
Theorem Reconcile_validation_gate service w w1 serviceAnnos lbConfig err :
  store_GetServiceAnnotations (lbctl.store controller)
    (util.MetaNamespaceKey service) w = (w1, Ok serviceAnnos) ->
  outcome (lbctl.buildLBConfig controller service serviceAnnos w1)
  = Done (Ok lbConfig) ->
  outcome (lbctl.validateLBConfig controller service lbConfig
             (world (lbctl.buildLBConfig controller service serviceAnnos w1)))
  = Done (Some err) ->
  outcome (lbctl.Reconcile controller service w) = Done (Err err)
  /\ Forall (fun c => mutating c = false)
       (trace (lbctl.Reconcile controller service w)).
Proof.
  intros Hannos Hbuild Hcheck.
  pose proof (buildLBConfig_reads controller service serviceAnnos w1) as Hb.
  pose proof (validateLBConfig_reads controller service lbConfig
    (world (lbctl.buildLBConfig controller service serviceAnnos w1))) as Hv.
  unfold lbctl.Reconcile.
  rewrite (attempt_ok _ _ _ w serviceAnnos)
    by (unfold call; now rewrite Hannos).
  replace (world (call _ _ w)) with w1 by (unfold call; now rewrite Hannos).
  rewrite (attempt_ok _ _ _ w1 lbConfig) by exact Hbuild.
  rewrite (check_err_some _ _ _ _ err) by exact Hcheck.
  cbn [outcome trace]. split; [reflexivity|].
  rewrite app_nil_r. apply Forall_app. split; [|apply Forall_app; now split].
  unfold call. rewrite Hannos. now repeat constructor.
Qed.

End Validation.

Section ValidationExamples.

(** With the scheme restricted and no Service listed, the internet-facing
    default/foo is refused before anything is created. *)
Lemma Reconcile_validation_gate_witness :
  let w :=
    restricted ∅
      (Fake.account (Fake.foo_annos "internet-facing" "80" "TCP" "ip") false) in
  outcome (lbctl.Reconcile Fake.lbController Fake.foo w)
  = Done (Err "service default/foo is not in internetFacing whitelist")
  /\ Forall (fun c => mutating c = false)
       (trace (lbctl.Reconcile Fake.lbController Fake.foo w)).
Proof.
  intros w.
  pose (serviceAnnos := Fake.foo_annos "internet-facing" "80" "TCP" "ip").
  pose (lbConfig :=
    match outcome (lbctl.buildLBConfig Fake.lbController Fake.foo
                     serviceAnnos w) with
    | Done (Ok c) => c
    | _ => foo_lb_config "internet-facing"
    end).
  apply (Reconcile_validation_gate Fake.lbController Fake.foo w w
           serviceAnnos lbConfig);
    vm_compute; reflexivity.
Defined.

End ValidationExamples.

(** ** Building the configuration and ensuring the load balancer *)

Section Building.
Context {W : Type} (controller : lbctl.defaultController W).

(** X11: a configuration built without error has the deterministic name, the
    type network, the scheme and address type of the annotations, the subnets
    [resolveSubnets] returned, and as tags the generated tags overridden by
    the annotation tags: a key the annotations set has the annotation's value,
    be it an ownership key. *)
Theorem buildLBConfig_result service serviceAnnos w lbConfig :
  outcome (lbctl.buildLBConfig controller service serviceAnnos w)
  = Done (Ok lbConfig) ->
  let userTags :=
    annotations.TagsLoadBalancer (annotations.Tags serviceAnnos) in
  let ownTags :=
    generator.TagLB (lbctl.nameTagGen controller)
      (corev1.Namespace service) (corev1.ServiceName service) in
  lb.Name lbConfig
  = generator.NameLB (lbctl.nameTagGen controller)
      (corev1.Namespace service) (corev1.ServiceName service)
  /\ lb.Type_ lbConfig = Some elbv2.LoadBalancerTypeEnumNetwork
  /\ lb.Scheme lbConfig
     = annotations.Scheme (annotations.LoadBalancer serviceAnnos)
  /\ lb.IpAddressType lbConfig
     = annotations.IPAddressType (annotations.LoadBalancer serviceAnnos)
  /\ outcome
       (lbctl.resolveSubnets controller
          (aws.StringValue
             (annotations.Scheme (annotations.LoadBalancer serviceAnnos)))
          (annotations.Subnets (annotations.LoadBalancer serviceAnnos)) w)
     = Done (lb.Subnets lbConfig, None)
  /\ (forall k v, userTags !! k = Some v -> lb.Tags lbConfig !! k = Some v)
  /\ (forall k, userTags !! k = None ->
        lb.Tags lbConfig !! k = ownTags !! k).
Proof.
  unfold lbctl.buildLBConfig, bind. cbv zeta.
  destruct (lbctl.resolveSubnets controller _ _ w) as [t w' [[subnets [e|]]|]];
    cbn; try discriminate.
  intros [= <-]. cbn.
  repeat (split; [reflexivity|]). split.
  - intros k v Hk. now apply lookup_union_Some_l.
  - intros k Hk. now apply lookup_union_r.
Qed.

End Building.

Section BuildingExamples.

(** The configuration built for default/foo. *)
Lemma buildLBConfig_result_witness :
  let serviceAnnos := Fake.foo_annos "internal" "80" "TCP" "ip" in
  let w := Fake.account serviceAnnos false in
  exists lbConfig,
    outcome (lbctl.buildLBConfig Fake.lbController Fake.foo serviceAnnos w)
    = Done (Ok lbConfig)
    /\ lb.Name lbConfig = "nlb-default-foo-a4dd"
    /\ lb.Type_ lbConfig = Some "network".
Proof.
  intros serviceAnnos w.
  pose (lbConfig :=
    match outcome (lbctl.buildLBConfig Fake.lbController Fake.foo
                     serviceAnnos w) with
    | Done (Ok c) => c
    | _ => foo_lb_config "internal"
    end).
  assert (H : outcome (lbctl.buildLBConfig Fake.lbController Fake.foo
                         serviceAnnos w) = Done (Ok lbConfig))
    by (vm_compute; reflexivity).
  exists lbConfig. split; [exact H|].
  destruct (buildLBConfig_result Fake.lbController Fake.foo serviceAnnos w
              lbConfig H) as (Hn & Ht & _).
  split; [rewrite Hn; vm_compute; reflexivity|exact Ht].
Defined.

End BuildingExamples.

Section Ensuring.
Context {W : Type} (controller : lbctl.defaultController W).

(** X12: when no load balancer has the name, [ensureLBInstance] looks it up
    and creates it with the desired name, scheme and subnets, and places no
    other call; a creation error is returned wrapped, and a response that
    holds no load balancer is an index out of range. *)
Theorem ensureLBInstance_absent lbConfig w w1 :
  cloud_GetLoadBalancerByName (lbctl.cloud controller) (lb.Name lbConfig) w
  = (w1, Ok None) ->
  let r := lbctl.ensureLBInstance controller lbConfig w in
  let input := lbctl.create_input lbConfig in
  let answer :=
    cloud_CreateLoadBalancerWithContext (lbctl.cloud controller) input w1 in
  trace r = [GetLoadBalancerByName (lb.Name lbConfig);
             CreateLoadBalancer input]
  /\ world r = answer.1
  /\ outcome r
     = match answer.2 with
       | Err err => Done (Err ("failed to create LoadBalancer due to " ++ err))
       | Ok (instance :: _) => Done (Ok instance)
       | Ok [] => Panic
       end
  /\ elbv2.cl_Name input = Some (lb.Name lbConfig)
  /\ elbv2.cl_Scheme input = lb.Scheme lbConfig
  /\ elbv2.cl_Subnets input = lb.Subnets lbConfig.
Proof.
  intros Hget. cbv zeta.
  unfold lbctl.ensureLBInstance, lbctl.newLBInstance, attempt, bind, call.
  rewrite Hget. cbn.
  destruct (cloud_CreateLoadBalancerWithContext _ _ w1)
    as [w2 [[|instance rest]|err]]; cbn; now repeat split.
Qed.

(** X13: [reconcileLBInstance] sets the address type iff it differs, then the
    subnets iff the subnet sets differ, then reconciles the tags; the first of
    these calls that fails ends the run with its wrapped error, and the later
    ones are not placed. *)
Theorem reconcileLBInstance_steps instance lbConfig w :
  let lbArn := aws.StringValue (elbv2.LoadBalancerArn instance) in
  let ipInput :=
    {| elbv2.si_LoadBalancerArn := elbv2.LoadBalancerArn instance;
       elbv2.si_IpAddressType := lb.IpAddressType lbConfig |} in
  let subnetsInput :=
    {| elbv2.ss_LoadBalancerArn := elbv2.LoadBalancerArn instance;
       elbv2.ss_Subnets := lb.Subnets lbConfig |} in
  let sameType :=
    bool_decide (elbv2.IpAddressType instance = lb.IpAddressType lbConfig) in
  let sameSubnets :=
    bool_decide
      ((list_to_set (map aws.StringValue
                       (util.AsSubnets (elbv2.AvailabilityZones instance)))
        : gset string) = list_to_set (lb.Subnets lbConfig)) in
  let typeCalls := if sameType then [] else [SetIpAddressType ipInput] in
  let subnetCalls := if sameSubnets then [] else [SetSubnets subnetsInput] in
  let r := lbctl.reconcileLBInstance controller instance lbConfig w in
  let '(w1, typed) :=
    if sameType then (w, None)
    else cloud_SetIpAddressTypeWithContext (lbctl.cloud controller) ipInput w in
  match typed with
  | Some err =>
      r = mkRun typeCalls w1
            (Done (Some ("failed to modify IpAddressType of " ++ lbArn
                         ++ " due to " ++ err)))
  | None =>
      let '(w2, placed) :=
        if sameSubnets then (w1, None)
        else cloud_SetSubnetsWithContext (lbctl.cloud controller)
               subnetsInput w1 in
      match placed with
      | Some err =>
          r = mkRun (typeCalls ++ subnetCalls) w2
                (Done (Some ("failed to modify Subnets of " ++ lbArn
                             ++ " due to " ++ err)))
      | None =>
          let '(w3, tagged) :=
            tags_ReconcileELB (lbctl.tagsController controller) lbArn
              (lb.Tags lbConfig) w2 in
          r = mkRun (typeCalls ++ subnetCalls
                     ++ [TagsReconcileELB lbArn (lb.Tags lbConfig)]) w3
                (Done
                   match tagged with
                   | Some err =>
                       Some ("failed to reconcile tags of " ++ lbArn
                             ++ " due to " ++ err)
                   | None => None
                   end)
      end
  end.
Proof.
  cbv zeta.
  unfold lbctl.reconcileLBInstance, check_err, bind, call, ret,
    util.DeepEqual.
  destruct (bool_decide (elbv2.IpAddressType instance = _)); cbn.
  - destruct (bool_decide (_ = _)); cbn.
    + destruct (tags_ReconcileELB _ _ _ w) as [w3 [e|]]; reflexivity.
    + destruct (cloud_SetSubnetsWithContext _ _ w) as [w2 [e|]]; cbn;
        [reflexivity|].
      destruct (tags_ReconcileELB _ _ _ w2) as [w3 [e|]]; reflexivity.
  - destruct (cloud_SetIpAddressTypeWithContext _ _ w) as [w1 [e|]]; cbn;
      [reflexivity|].
    destruct (bool_decide (_ = _)); cbn.
    + destruct (tags_ReconcileELB _ _ _ w1) as [w3 [e|]]; reflexivity.
    + destruct (cloud_SetSubnetsWithContext _ _ w1) as [w2 [e|]]; cbn;
        [reflexivity|].
      destruct (tags_ReconcileELB _ _ _ w2) as [w3 [e|]]; reflexivity.
Qed.

End Ensuring.

Section EnsuringExamples.

(** In an account without load balancer the one of default/foo is created. *)
Lemma ensureLBInstance_absent_witness :
  let w := Fake.account (Fake.foo_annos "internal" "80" "TCP" "ip") false in
  let r :=
    lbctl.ensureLBInstance Fake.lbController (foo_lb_config "internal") w in
  trace r
  = [GetLoadBalancerByName "nlb-default-foo-a4dd";
     CreateLoadBalancer (lbctl.create_input (foo_lb_config "internal"))]
  /\ outcome r = Done (Ok (foo_lb "internal")).
Proof.
  intros w r.
  destruct (ensureLBInstance_absent Fake.lbController
              (foo_lb_config "internal") w w) as (Ht & _ & Ho & _);
    [reflexivity|].
  split; [exact Ht|exact Ho].
Defined.

End EnsuringExamples.

(** ** The target-group Reconcile *)

Section TargetGroupReconcile.
Context {W : Type} (controller : tgctl.defaultController W).
Context (LookupServicePort :
  corev1.Service -> intstr.IntOrString -> result corev1.ServicePort).

(** X14: the target-group [Reconcile] dereferences the health-check port of
    the annotations: when they have none it panics right after loading them,
    before any call on the cloud. *)
Theorem Reconcile_nil_port service backend w w1 serviceAnnos :
  store_GetServiceAnnotations (tgctl.store controller)
    (util.MetaNamespaceKey service) w = (w1, Ok serviceAnnos) ->
  annotations.Port (annotations.HealthCheck serviceAnnos) = None ->
  tgctl.Reconcile controller LookupServicePort service backend w
  = mkRun [GetServiceAnnotations (util.MetaNamespaceKey service)] w1 Panic.
Proof.
  intros Hannos Hport.
  unfold tgctl.Reconcile.
  rewrite (attempt_ok _ _ _ w serviceAnnos)
    by (unfold call; now rewrite Hannos).
  unfold bind at 1. rewrite Hport. cbn [lift deref outcome trace world].
  unfold call. rewrite Hannos. reflexivity.
Qed.

Lemma resolveServiceHealthCheckPort_reads namespace serviceName port
  targetType :
  avoids mutating
    (tgctl.resolveServiceHealthCheckPort controller LookupServicePort
       namespace serviceName port targetType).
Proof.
  unfold tgctl.resolveServiceHealthCheckPort.
  destruct port; [apply avoids_ret|].
  destruct (String.eqb _ _); [apply avoids_ret|].
  apply avoids_attempt; [apply avoids_call; reflexivity|].
  intros s. destruct (LookupServicePort _ _); [|apply avoids_ret].
  destruct (String.eqb _ _); [|apply avoids_ret].
  destruct (_ =? _); apply avoids_ret.
Qed.

Lemma newTGInstance_calls name serviceAnnos port w :
  instance_calls
    (trace (tgctl.newTGInstance controller name serviceAnnos port w)).
Proof.
  unfold tgctl.newTGInstance, bind at 1, lift.
  destruct (tgctl.create_input name serviceAnnos port) as [input|]; cbn;
    [|now left].
  right. left. exists input.
  unfold attempt, bind, call.
  destruct (cloud_CreateTargetGroupWithContext _ _ w)
    as [w' [[|t l]|err]]; reflexivity.
Qed.

Lemma reconcileTGInstance_calls instance serviceAnnos port w :
  instance_calls
    (trace (tgctl.reconcileTGInstance controller instance serviceAnnos port w)).
Proof.
  unfold tgctl.reconcileTGInstance, bind at 1, lift.
  destruct (tgctl.TGInstanceNeedsModification instance serviceAnnos)
    as [[|]|]; cbn; [|now left|now left].
  unfold bind at 1.
  destruct (tgctl.modify_input instance serviceAnnos port) as [input|]; cbn;
    [|now left].
  right. right. exists input.
  unfold attempt, bind, call.
  destruct (cloud_ModifyTargetGroupWithContext _ _ w)
    as [w' [[|t l]|err]]; reflexivity.
Qed.

End TargetGroupReconcile.

Section MoreInversion.
Context {W : Type}.

Lemma bind_inv {A B} (m : M W A) (k : A -> M W B) w b :
  outcome (bind m k w) = Done b ->
  exists a,
    outcome (m w) = Done a
    /\ outcome (k a (world (m w))) = Done b
    /\ trace (bind m k w) = (trace (m w) ++ trace (k a (world (m w))))%list.
Proof.
  unfold bind. destruct (m w) as [t w' [a|]]; simpl; [|discriminate].
  intros H. exists a. now repeat split.
Qed.

Lemma attempt_ret_trace {A B} (m : M W (result A)) (wrap : error -> result B)
  (f : A -> B) w :
  trace (attempt m wrap (fun a => ret (Ok (f a))) w) = trace (m w).
Proof.
  unfold attempt, bind, ret.
  destruct (m w) as [t w' [[a|err]|]]; simpl; now rewrite ?app_nil_r.
Qed.

End MoreInversion.

Section TargetGroupOrder.
Context {W : Type} (controller : tgctl.defaultController W).
Context (LookupServicePort :
  corev1.Service -> intstr.IntOrString -> result corev1.ServicePort).

(** X15: a successful target-group [Reconcile] is a run of calls that change
    nothing, then at most one call, which creates or modifies the target
    group, then the reconcile of its tags, of its attributes and of its
    targets, in this order, all three for the ARN returned. *)
Theorem Reconcile_instance_before_tags service backend w tgres :
  outcome (tgctl.Reconcile controller LookupServicePort service backend w)
  = Done (Ok tgres) ->
  exists serviceAnnos pre change targets,
    trace (tgctl.Reconcile controller LookupServicePort service backend w)
    = (pre ++ change
       ++ [TagsReconcileELB (tg.Arn tgres)
             (tgctl.buildTags controller service backend serviceAnnos);
           TGAttributesReconcile (tg.Arn tgres)
             (annotations.TGAttributes (annotations.TargetGroup serviceAnnos));
           TargetsReconcile targets])%list
    /\ Forall (fun c => mutating c = false) pre
    /\ instance_calls change
    /\ tg.TgArn targets = tg.Arn tgres
    /\ tg.TargetsBackend targets = backend
    /\ tg.TargetType tgres
       = aws.StringValue
           (annotations.TargetType (annotations.TargetGroup serviceAnnos)).
Proof.
  unfold tgctl.Reconcile. intros H.
  apply attempt_inv in H; [|intros ?; discriminate].
  destruct H
    as (serviceAnnos & Hannos & H1 & -> & _).
  exists serviceAnnos. cbv beta zeta in H1 |- *.
  set (w1 := world (call _ _ w)) in *.
  destruct (bind_inv _ _ _ _ H1) as (port & _ & H2 & ->).
  cbn [lift trace world app] in H2 |- *.
  destruct (bind_inv _ _ _ _ H2) as ([healthCheckPort e] & _ & H3 & ->).
    pose proof (resolveServiceHealthCheckPort_reads controller
    LookupServicePort (corev1.Namespace service) (corev1.ServiceName service)
    (intstr.Parse port)
    (aws.StringValue
       (annotations.TargetType (annotations.TargetGroup serviceAnnos))) w1)
    as Hreads.
  set (resolved := tgctl.resolveServiceHealthCheckPort _ _ _ _ _ _ w1) in *.
  destruct e as [e|]; [discriminate|].
  apply attempt_inv in H3; [|intros ?; discriminate].
  destruct H3
    as (found & Hfound & H4 & -> & _).
  set (w2 := world (tgctl.findExistingTGInstance _ _ (world resolved))) in *.
  apply attempt_inv in H4; [|intros ?; discriminate].
  destruct H4
    as (tgInstance & Hinstance & H5 & -> & _).
  cbv beta zeta in H5 |- *.
  match type of Hinstance with outcome ?r = _ => set (ensured := r) in * end.
  assert (Hchange : instance_calls (trace ensured)).
  { subst ensured. destruct found as [existing|].
    - rewrite attempt_ret_trace with (f := fun x => x).
      apply reconcileTGInstance_calls.
    - rewrite attempt_ret_trace with (f := fun x => x).
      apply newTGInstance_calls. }
  clearbody ensured.
  apply check_err_inv in H5; [|intros ?; discriminate].
  destruct H5
    as (_ & H6 & -> & _).
  set (w3 := world (call (TagsReconcileELB _ _) _ (world ensured))) in *.
  apply check_err_inv in H6; [|intros ?; discriminate].
  destruct H6
    as (_ & H7 & -> & _).
  set (w4 := world (call (TGAttributesReconcile _ _) _ w3)) in *.
  clearbody w4 w3.
  unfold bind, call in H7 |- *.
  destruct (targets_Reconcile _ _ w4) as [w5 [targets [e|]]];
    cbn in H7 |- *; [discriminate|].
  injection H7 as <-. cbn [tg.Arn tg.TargetType].
  exists (trace (call (GetServiceAnnotations (util.MetaNamespaceKey service))
                   (store_GetServiceAnnotations (tgctl.store controller)
                      (util.MetaNamespaceKey service)) w)
          ++ trace resolved
          ++ trace (tgctl.findExistingTGInstance controller
                      (generator.NameTG (tgctl.nameTagGen controller)
                         (corev1.Namespace service)
                         (extensions.ServiceName backend)
                         (intstr.to_string (extensions.ServicePort backend))
                         (aws.StringValue
                            (annotations.TargetType
                               (annotations.TargetGroup serviceAnnos)))
                         (aws.StringValue
                            (annotations.BackendProtocol
                               (annotations.TargetGroup serviceAnnos))))
                      (world resolved)))%list,
    (trace ensured).
  eexists. split.
  { destruct (tags_ReconcileELB _ _ _ (world ensured)) as [w3' e1].
    destruct (attrs_Reconcile _ _ _ w3) as [w4' e2].
    cbn [trace]. rewrite <- !app_assoc. reflexivity. }
  split.
  { apply Forall_app. split.
    - unfold call. destruct (store_GetServiceAnnotations _ _ w).
      now repeat constructor.
    - apply Forall_app. split; [exact Hreads|].
      unfold tgctl.findExistingTGInstance, call.
      destruct (cloud_GetTargetGroupByName _ _ _). now repeat constructor. }
  split; [exact Hchange|]. now repeat split.
Qed.

End TargetGroupOrder.

Section TargetGroupExamples.

(** The annotations of default/foo without their health-check port. *)
Lemma Reconcile_nil_port_witness :
  let serviceAnnos :=
    without_port (Fake.foo_annos "internal" "80" "TCP" "ip") in
  let w := Fake.account serviceAnnos false in
  annotations.Port (annotations.HealthCheck serviceAnnos) = None
  /\ tgctl.Reconcile Fake.tgController Fake.LookupServicePort Fake.foo
       foo_backend w
     = mkRun [GetServiceAnnotations "default/foo"] w Panic.
Proof.
  intros serviceAnnos w. split; [reflexivity|].
  apply (Reconcile_nil_port Fake.tgController Fake.LookupServicePort
           Fake.foo foo_backend w w serviceAnnos); reflexivity.
Defined.

(** The first reconcile of the target group of default/foo:80. *)
Lemma Reconcile_instance_before_tags_witness :
  let r :=
    tgctl.Reconcile Fake.tgController Fake.LookupServicePort Fake.foo
      foo_backend
      (Fake.account (Fake.foo_annos "internal" "80" "TCP" "ip") false) in
  exists tgres,
    outcome r = Done (Ok tgres)
    /\ exists serviceAnnos pre change targets,
         trace r
         = (pre ++ change
            ++ [TagsReconcileELB (tg.Arn tgres)
                  (tgctl.buildTags Fake.tgController Fake.foo foo_backend
                     serviceAnnos);
                TGAttributesReconcile (tg.Arn tgres)
                  (annotations.TGAttributes
                     (annotations.TargetGroup serviceAnnos));
                TargetsReconcile targets])%list
         /\ Forall (fun c => mutating c = false) pre
         /\ instance_calls change
         /\ tg.TgArn targets = tg.Arn tgres
         /\ tg.TargetsBackend targets = foo_backend
         /\ tg.TargetType tgres
            = aws.StringValue
                (annotations.TargetType
                   (annotations.TargetGroup serviceAnnos)).
Proof.
  intros r.
  pose (tgres :=
    match outcome r with
    | Done (Ok t) => t
    | _ => {| tg.Arn := ""; tg.TargetType := ""; tg.Members := [] |}
    end).
  assert (H : outcome r = Done (Ok tgres)) by (vm_compute; reflexivity).
  exists tgres. split; [exact H|].
  exact (Reconcile_instance_before_tags Fake.tgController
           Fake.LookupServicePort Fake.foo foo_backend _ tgres H).
Defined.

End TargetGroupExamples.

Section TargetGroupTags.
Context {W : Type} (controller : tgctl.defaultController W).

(** X16: in the tags of a target group an annotation tag wins over every
    generated tag; then the service-port and service-name tags of the backend
    win over the tags of the Service, so kubernetes.io/service-name carries
    the service name of the backend. *)
Theorem buildTags_precedence service backend serviceAnnos k :
  tgctl.buildTags controller service backend serviceAnnos !! k
  = match
      annotations.TagsLoadBalancer (annotations.Tags serviceAnnos) !! k
    with
    | Some v => Some v
    | None =>
        if String.eqb k generator.TagKeyServicePort
        then Some (intstr.to_string (extensions.ServicePort backend))
        else if String.eqb k generator.TagKeyServiceName
        then Some (extensions.ServiceName backend)
        else generator.TagTGGroup (tgctl.nameTagGen controller)
               (corev1.Namespace service) (corev1.ServiceName service) !! k
    end.
Proof.
  unfold tgctl.buildTags, generator.TagTG.
  destruct (annotations.TagsLoadBalancer _ !! k) as [v|] eqn:Hk;
    [now apply lookup_union_Some_l|].
  rewrite lookup_union_r by exact Hk.
  destruct (String.eqb_spec k generator.TagKeyServicePort) as [->|Hp].
  - apply lookup_union_Some_l, lookup_insert_eq.
  - destruct (String.eqb_spec k generator.TagKeyServiceName) as [->|Hn].
    + apply lookup_union_Some_l.
      rewrite lookup_insert_ne by discriminate. apply lookup_insert_eq.
    + apply lookup_union_r.
      rewrite !lookup_insert_ne by congruence. apply lookup_empty.
Qed.

End TargetGroupTags.

Section Inputs.

(** X17: when the health-check protocol is set, neither input panics: the
    modification the controller sends carries the same health-check port,
    protocol, interval, thresholds, path and matcher as the creation does
    for the same annotations and resolved port, and the creation has no
    matcher exactly for a protocol other than HTTP and HTTPS; when the
    protocol is nil, both dereference it and panic. *)
Theorem create_modify_agree name instance serviceAnnos healthCheckPort :
  match annotations.Protocol (annotations.HealthCheck serviceAnnos) with
  | None =>
      tgctl.create_input name serviceAnnos healthCheckPort = Panic
      /\ tgctl.modify_input instance serviceAnnos healthCheckPort = Panic
  | Some p =>
      exists c m,
        tgctl.create_input name serviceAnnos healthCheckPort = Done c
        /\ tgctl.modify_input instance serviceAnnos healthCheckPort = Done m
        /\ elbv2.ct_Name c = Some name
        /\ elbv2.ct_Port c = Some tgctl.targetGroupDefaultPort
        /\ elbv2.mt_TargetGroupArn m = elbv2.TargetGroupArn instance
        /\ elbv2.mt_HealthCheckPort m = Some healthCheckPort
        /\ elbv2.mt_HealthCheckPort m = elbv2.ct_HealthCheckPort c
        /\ elbv2.mt_HealthCheckProtocol m = elbv2.ct_HealthCheckProtocol c
        /\ elbv2.mt_HealthCheckIntervalSeconds m
           = elbv2.ct_HealthCheckIntervalSeconds c
        /\ elbv2.mt_HealthyThresholdCount m = elbv2.ct_HealthyThresholdCount c
        /\ elbv2.mt_UnhealthyThresholdCount m
           = elbv2.ct_UnhealthyThresholdCount c
        /\ elbv2.mt_HealthCheckPath m = elbv2.ct_HealthCheckPath c
        /\ elbv2.mt_Matcher m = elbv2.ct_Matcher c
        /\ (elbv2.ct_Matcher c = None <-> tgctl.is_http p = false)
  end.
Proof.
  unfold tgctl.create_input, tgctl.modify_input, tgctl.obind, deref.
  destruct (annotations.Protocol (annotations.HealthCheck serviceAnnos))
    as [p|]; [|split; reflexivity].
  do 2 eexists. split; [reflexivity|]. split; [reflexivity|]. cbn.
  repeat (split; [reflexivity|]).
  destruct (tgctl.is_http p) eqn:Hp; split; try discriminate; reflexivity.
Qed.

End Inputs.

(** ** Listener actions (buildActions) *)

Section Actions.

Lemma number_from_order actions : forall index i a,
  ls.number_from index actions !! i = Some a ->
  action.Order a = Some (index + Z.of_nat i + 1).
Proof.
  induction actions as [|x l IH]; intros index i a; [discriminate|].
  destruct i as [|i]; simpl.
  - intros [= <-]. simpl. f_equal. lia.
  - intros H. apply IH in H. rewrite H. f_equal. lia.
Qed.

(** X18: [buildActions] returns exactly one action, numbered 1: for a backend
    whose port is use-annotation the action declared for its service name,
    otherwise the forward to the target group of the backend. *)
Theorem buildActions_single serviceActions backend tgGroup actions :
  ls.buildActions serviceActions backend tgGroup = Ok actions ->
  exists a,
    actions = [a]
    /\ action.Order a = Some 1
    /\ if action.Use (intstr.to_string (extensions.ServicePort backend))
       then exists configured,
              action.Actions serviceActions
                !! extensions.ServiceName backend = Some configured
              /\ a = ls.set_order 1 configured
       else exists targetGroup,
              tg.TGByBackend tgGroup !! backend = Some targetGroup
              /\ a = forward_to (tg.Arn targetGroup).
Proof.
  unfold ls.buildActions, action.GetAction.
  destruct (action.Use _).
  - destruct (action.Actions serviceActions !! _) as [configured|];
      [|discriminate].
    intros [= <-]. eexists. split; [reflexivity|]. split; [reflexivity|].
    now exists configured.
  - destruct (tg.TGByBackend tgGroup !! backend) as [targetGroup|];
      [|discriminate].
    intros [= <-]. eexists. split; [reflexivity|]. split; [reflexivity|].
    now exists targetGroup.
Qed.

(** The backend foo:80 is forwarded to target group A. *)
Lemma buildActions_single_witness :
  exists a,
    ls.buildActions {| action.Actions := ∅ |} foo_backend group_A = Ok [a]
    /\ action.Order a = Some 1.
Proof.
  destruct (buildActions_single {| action.Actions := ∅ |} foo_backend group_A
              [forward_to "arn:tg/A"]) as (a & Ha & Ho & _);
    [vm_compute; reflexivity|].
  exists a. split; [|exact Ho]. rewrite <- Ha. vm_compute. reflexivity.
Defined.

End Actions.

(** ** The controller configuration (Validate, BindEnv) *)

Ltac settings_simpl :=
  cbn [settings.ClusterName settings.AnnotationPrefix settings.ALBNamePrefix
       settings.DefaultTags settings.DefaultTargetType settings.RestrictScheme
       settings.RestrictSchemeNamespace settings.NLBAnnotationPrefix
       settings.NLBNamePrefix settings.set_DefaultTargetType
       settings.set_ALBNamePrefix settings.set_NLBNamePrefix] in *.

Section Settings.

Example crc32_abc : settings.generateALBNamePrefix "abc" = "352441c2".
Proof. vm_compute. reflexivity. Qed.

Example crc32_test_cluster :
  settings.generateALBNamePrefix "test-cluster" = "d7f12bb1".
Proof. vm_compute. reflexivity. Qed.

Lemma generateALBNamePrefix_len clusterName :
  GoString.len (settings.generateALBNamePrefix clusterName) = 8%nat.
Proof. unfold settings.generateALBNamePrefix. now rewrite hex_encode_len. Qed.

Lemma generateALBNamePrefix_digits clusterName :
  all_bytes hex_digit (settings.generateALBNamePrefix clusterName) = true.
Proof. apply hex_encode_digits. Qed.

Lemma len_zero s : (GoString.len s =? 0)%nat = true <-> s = "".
Proof.
  unfold GoString.len. destruct s; simpl; split; congruence.
Qed.

(** X19: [Validate] accepts exactly the configurations with a cluster name and
    with ALB and NLB name prefixes of at most 12 bytes.  An accepted
    configuration keeps its cluster name, has prefixes of 1 to 12 bytes (an
    empty NLB prefix is replaced by the 8 hex digits of the CRC-32 of the
    cluster name), has no target type pod, and the two annotation prefixes are
    published; a refused one leaves the published prefixes as they were, and
    an NLB prefix that is too long is reported as ALBNamePrefix. *)
Theorem Validate_accepts cfg globals :
  let '(cfg', globals', err) := settings.Validate cfg globals in
  (err = None
   <-> settings.ClusterName cfg <> ""
       /\ (GoString.len (settings.ALBNamePrefix cfg) <= 12)%nat
       /\ (GoString.len (settings.NLBNamePrefix cfg) <= 12)%nat)
  /\ (err = None ->
      settings.ClusterName cfg' = settings.ClusterName cfg
      /\ settings.NLBNamePrefix cfg'
         = (if (GoString.len (settings.NLBNamePrefix cfg) =? 0)%nat
            then settings.generateALBNamePrefix (settings.ClusterName cfg)
            else settings.NLBNamePrefix cfg)
      /\ (1 <= GoString.len (settings.NLBNamePrefix cfg') <= 12)%nat
      /\ (1 <= GoString.len (settings.ALBNamePrefix cfg') <= 12)%nat
      /\ settings.DefaultTargetType cfg' <> "pod"
      /\ globals'
         = {| settings.parser_AnnotationsPrefix :=
                settings.AnnotationPrefix cfg;
              settings.serviceparser_AnnotationsPrefix :=
                settings.NLBAnnotationPrefix cfg |})
  /\ (err <> None -> globals' = globals)
  /\ ((12 < GoString.len (settings.NLBNamePrefix cfg))%nat ->
      settings.ClusterName cfg <> "" ->
      (GoString.len (settings.ALBNamePrefix cfg) <= 12)%nat ->
      err = Some "ALBNamePrefix must be 12 characters or less").
Proof.
  unfold settings.Validate.
  set (cfg1 := if String.eqb (settings.DefaultTargetType cfg) "pod"
               then settings.set_DefaultTargetType elbv2.TargetTypeEnumIp cfg
               else cfg).
  assert (H1 : settings.ClusterName cfg1 = settings.ClusterName cfg
               /\ settings.ALBNamePrefix cfg1 = settings.ALBNamePrefix cfg
               /\ settings.NLBNamePrefix cfg1 = settings.NLBNamePrefix cfg
               /\ settings.AnnotationPrefix cfg1
                  = settings.AnnotationPrefix cfg
               /\ settings.NLBAnnotationPrefix cfg1
                  = settings.NLBAnnotationPrefix cfg
               /\ settings.DefaultTargetType cfg1 <> "pod").
  { subst cfg1.
    destruct (String.eqb_spec (settings.DefaultTargetType cfg) "pod");
      settings_simpl; repeat split; try reflexivity;
      [discriminate|assumption]. }
  destruct H1 as (Hc & Ha & Hn & Hp & Hq & Ht). cbv zeta.
  rewrite Hc, Ha.
  destruct (GoString.len (settings.ClusterName cfg) =? 0)%nat eqn:Hcl.
  { apply len_zero in Hcl.
    split; [split; [discriminate|tauto]|].
    split; [discriminate|]. split; [reflexivity|]. tauto. }
  assert (Hcl' : settings.ClusterName cfg <> "")
    by (intros E; apply len_zero in E; congruence).
  destruct (Nat.ltb_spec 12 (GoString.len (settings.ALBNamePrefix cfg)))
    as [Hal|Hal].
  { split; [split; [discriminate|lia]|].
    split; [discriminate|]. split; [reflexivity|]. lia. }
  set (cfg2 := if (GoString.len (settings.ALBNamePrefix cfg) =? 0)%nat
               then settings.set_ALBNamePrefix
                      (settings.generateALBNamePrefix
                         (settings.ClusterName cfg)) cfg1
               else cfg1).
  assert (H2 : settings.ClusterName cfg2 = settings.ClusterName cfg
               /\ settings.NLBNamePrefix cfg2 = settings.NLBNamePrefix cfg
               /\ settings.AnnotationPrefix cfg2
                  = settings.AnnotationPrefix cfg
               /\ settings.NLBAnnotationPrefix cfg2
                  = settings.NLBAnnotationPrefix cfg
               /\ settings.DefaultTargetType cfg2 <> "pod"
               /\ (1 <= GoString.len (settings.ALBNamePrefix cfg2) <= 12)%nat).
  { subst cfg2.
    destruct (Nat.eqb_spec (GoString.len (settings.ALBNamePrefix cfg)) 0);
      settings_simpl; rewrite ?generateALBNamePrefix_len, ?Ha;
      repeat split; try assumption; lia. }
  destruct H2 as (Hc2 & Hn2 & Hp2 & Hq2 & Ht2 & Ha2).
  rewrite Hn2, Hc2.
  destruct (Nat.ltb_spec 12 (GoString.len (settings.NLBNamePrefix cfg)))
    as [Hnl|Hnl].
  { split; [split; [discriminate|lia]|].
    split; [discriminate|]. split; reflexivity. }
  split; [split; [tauto|reflexivity]|].
  split; [|split; [intros H; now contradiction H|lia]]. intros _.
  destruct (GoString.len (settings.NLBNamePrefix cfg) =? 0)%nat eqn:E;
    [|apply Nat.eqb_neq in E];
    settings_simpl; rewrite ?generateALBNamePrefix_len, ?Hn2, ?Hp2, ?Hq2;
    repeat split; try assumption; try reflexivity; lia.
Qed.

End Settings.

Section ValidatedNames.

Lemma Validate_NLBNamePrefix cfg globals cfg' globals' :
  settings.Validate cfg globals = (cfg', globals', None) ->
  (1 <= GoString.len (settings.NLBNamePrefix cfg') <= 12)%nat.
Proof.
  unfold settings.Validate. cbv zeta. intros H.
  repeat match type of H with
  | context [if ?b then _ else _] =>
      lazymatch b with
      | context [if _ then _ else _] => fail
      | _ => destruct b eqn:?; settings_simpl
      end
  end; try discriminate; injection H as <- _;
  settings_simpl; rewrite ?generateALBNamePrefix_len;
  repeat match goal with
  | E : (_ <? _)%nat = false |- _ => apply Nat.ltb_ge in E
  | E : (_ =? _)%nat = false |- _ => apply Nat.eqb_neq in E
  end; lia.
Qed.

(** X20: under a validated configuration every target-group name is the whole
    NLB prefix, a hyphen and 19 hex digits, of 21 to 32 bytes, and every
    load-balancer name has at most 31 bytes. *)
Theorem validated_names cfg globals cfg' globals' :
  settings.Validate cfg globals = (cfg', globals', None) ->
  let gen := settings.NewNameTagGenerator cfg' in
  forall namespace serviceName servicePort targetType protocol,
    let tgName :=
      generator.NameTG gen namespace serviceName servicePort targetType
        protocol in
    (21 <= GoString.len tgName <= 32)%nat
    /\ tgName
       = settings.NLBNamePrefix cfg' ++ "-"
         ++ GoString.slice_to 19
              (md5_hex (generator.NameLB gen namespace serviceName
                        ++ serviceName ++ servicePort ++ protocol
                        ++ targetType))
    /\ (GoString.len (generator.NameLB gen namespace serviceName) <= 31)%nat.
Proof.
  intros H gen namespace serviceName servicePort targetType protocol.
  pose proof (Validate_NLBNamePrefix _ _ _ _ H) as Hlen. cbv zeta.
  assert (Hgen : generator.NLBNamePrefix gen = settings.NLBNamePrefix cfg')
    by reflexivity.
  rewrite NameTG_len by (rewrite Hgen; lia).
  split; [rewrite Hgen; lia|].
  split; [rewrite NameTG_unfold by (rewrite Hgen; lia); now rewrite Hgen|].
  rewrite NameLB_unfold, !len_app.
  rewrite (slice_to_exact 4) by (rewrite md5_hex_len; lia).
  pose proof (slice_to_len 26
    (GoString.ReplaceAllNonAlnum (generator.NLBNamePrefix gen) "-" ++ "-"
     ++ keep_alnum namespace ++ "-" ++ keep_alnum serviceName)).
  change (GoString.len "-") with 1%nat. lia.
Qed.

(** The default NLB settings are accepted. *)
Lemma validated_names_witness :
  exists cfg' globals',
    settings.Validate nlb_settings no_prefixes = (cfg', globals', None)
    /\ (GoString.len
          (generator.NameTG (settings.NewNameTagGenerator cfg') "default"
             "foo" "80" "ip" "TCP") <= 32)%nat.
Proof.
  pose (r := settings.Validate nlb_settings no_prefixes).
  exists r.1.1, r.1.2.
  assert (H : settings.Validate nlb_settings no_prefixes
              = (r.1.1, r.1.2, None)) by (vm_compute; reflexivity).
  split; [exact H|].
  destruct (validated_names _ _ _ _ H "default" "foo" "80" "ip" "TCP")
    as ([_ Hlen] & _).
  exact Hlen.
Defined.

End ValidatedNames.

Section Environment.

(** X21: [BindEnv] fails exactly when ALB_CONTROLLER_RESTRICT_SCHEME or
    NLB_CONTROLLER_RESTRICT_SCHEME is set to something [ParseBool] refuses; an
    unparsable ALB variable ends it before NLB_PREFIX is read; on success the
    NLB variables win over the ALB ones for the scheme restriction and for its
    namespace, and each prefix and the cluster name are those of their
    variable when it is set. *)
Theorem BindEnv_precedence env cfg :
  let alb := env !! "ALB_CONTROLLER_RESTRICT_SCHEME" in
  let nlb := env !! "NLB_CONTROLLER_RESTRICT_SCHEME" in
  let '(cfg', err) := settings.BindEnv env cfg in
  (err = None <-> ~ unparsable alb /\ ~ unparsable nlb)
  /\ (unparsable alb ->
      settings.NLBNamePrefix cfg' = settings.NLBNamePrefix cfg
      /\ settings.RestrictScheme cfg' = settings.RestrictScheme cfg)
  /\ (err = None ->
      settings.RestrictScheme cfg'
      = default (default (settings.RestrictScheme cfg)
                   (alb ≫= settings.ParseBool))
          (nlb ≫= settings.ParseBool)
      /\ settings.RestrictSchemeNamespace cfg'
         = default
             (default (settings.RestrictSchemeNamespace cfg)
                (env !! "ALB_CONTROLLER_RESTRICT_SCHEME_CONFIG_NAMESPACE"))
             (env !! "NLB_CONTROLLER_RESTRICT_SCHEME_CONFIG_NAMESPACE")
      /\ settings.NLBNamePrefix cfg'
         = default (settings.NLBNamePrefix cfg) (env !! "NLB_PREFIX")
      /\ settings.ALBNamePrefix cfg'
         = default (settings.ALBNamePrefix cfg) (env !! "ALB_PREFIX")
      /\ settings.ClusterName cfg'
         = default (settings.ClusterName cfg) (env !! "CLUSTER_NAME")).
Proof.
  cbv zeta. unfold settings.BindEnv, unparsable.
  destruct (env !! "CLUSTER_NAME") as [cn|];
  destruct (env !! "ALB_PREFIX") as [ap|];
  destruct (env !! "ALB_CONTROLLER_RESTRICT_SCHEME") as [a|];
    [destruct (settings.ParseBool a) as [av|] eqn:Ha| |
     destruct (settings.ParseBool a) as [av|] eqn:Ha| |
     destruct (settings.ParseBool a) as [av|] eqn:Ha| |
     destruct (settings.ParseBool a) as [av|] eqn:Ha| ];
  destruct (env !! "ALB_CONTROLLER_RESTRICT_SCHEME_CONFIG_NAMESPACE") as [an|];
  destruct (env !! "NLB_PREFIX") as [np|];
  destruct (env !! "NLB_CONTROLLER_RESTRICT_SCHEME") as [n|];
  try (destruct (settings.ParseBool n) as [nv|] eqn:Hn);
  destruct (env !! "NLB_CONTROLLER_RESTRICT_SCHEME_CONFIG_NAMESPACE") as [nn|];
  cbn; rewrite ?Ha, ?Hn; cbn;
  (split; [split; [intros E; try discriminate E;
                   split; intros (s & [= <-] & Hs); congruence
                  |intros [H1 H2]; try reflexivity; exfalso;
                   first [apply H1; eexists; split; [reflexivity|assumption]
                         |apply H2; eexists; split; [reflexivity|assumption]]]
          |]);
  (split; [intros (s & E & Hs); try discriminate E;
           injection E as <-; try congruence; now split
          |intros E; try discriminate E; now repeat split]).
Qed.

End Environment.

(** ** Annotations (parser, loadbalancer) *)

Section Merging.
Context {A : Type} {A_eq_dec : EqDecision A}.

(** X22: [MergeString], [MergeInt64] and [MergeBool] return one of their two
    arguments, nil only when both are nil; a value of [a] other than the
    default is kept, an undefined or default [a] gives way to a defined [b],
    and merging [b] in once more changes nothing. *)
Theorem Merge_override (a b : option A) (d : A) :
  (parser.Merge a b d = a \/ parser.Merge a b d = b)
  /\ (parser.Merge a b d = None <-> a = None /\ b = None)
  /\ (forall va, a = Some va -> va <> d -> parser.Merge a b d = a)
  /\ (forall vb, b = Some vb -> a = None \/ a = Some d ->
        parser.Merge a b d = b)
  /\ parser.Merge (parser.Merge a b d) b d = parser.Merge a b d.
Proof.
  unfold parser.Merge.
  destruct a as [va|], b as [vb|]; cbn;
    try destruct (bool_decide_reflect (va = d)); cbn;
    try destruct (bool_decide_reflect (vb = d)); cbn;
    try destruct (bool_decide_reflect (va = d));
    intuition congruence.
Qed.

End Merging.

Section Slices.
Context (AnnotationsPrefix : string).

Lemma entries_loop parts : forall out,
  fold_left
    (fun out part =>
       let p := gostrings.TrimSpace part in
       if String.eqb p "" then out else (out ++ [p])%list)
    parts out
  = (out ++ List.filter (fun p => negb (String.eqb p ""))
              (map gostrings.TrimSpace parts))%list.
Proof.
  induction parts as [|part parts IH]; intros out; cbn.
  - now rewrite app_nil_r.
  - rewrite IH. destruct (String.eqb _ ""); cbn; [reflexivity|].
    now rewrite <- app_assoc.
Qed.

Lemma entries_nonempty v : Forall (fun p => p <> "") (entries v).
Proof.
  unfold entries. apply List.Forall_forall. intros p Hp.
  apply filter_In in Hp as [_ Hp]. intros ->. discriminate.
Qed.

Lemma GetStringSliceAnnotation_unfold name ing :
  parser.GetStringSliceAnnotation AnnotationsPrefix name ing
  = match parser.GetStringAnnotation AnnotationsPrefix name ing with
    | parser.Value v => entries v
    | parser.Failed _ => []
    end.
Proof.
  unfold parser.GetStringSliceAnnotation.
  destruct (parser.GetStringAnnotation _ _ _); [|reflexivity].
  now rewrite entries_loop.
Qed.

Lemma GetStringSliceAnnotation_nonempty name ing :
  Forall (fun p => p <> "")
    (parser.GetStringSliceAnnotation AnnotationsPrefix name ing).
Proof.
  rewrite GetStringSliceAnnotation_unfold.
  destruct (parser.GetStringAnnotation _ _ _);
    [apply entries_nonempty|constructor].
Qed.

(** X23: [GetStringSliceAnnotation] returns the comma-separated pieces of the
    annotation without the white space around them, in order, the empty ones
    left out; so no entry is empty, there are at most as many entries as
    pieces, and a missing annotation gives none. *)
Theorem GetStringSliceAnnotation_entries name ing :
  let out := parser.GetStringSliceAnnotation AnnotationsPrefix name ing in
  out
  = match parser.GetStringAnnotation AnnotationsPrefix name ing with
    | parser.Value v => entries v
    | parser.Failed _ => []
    end
  /\ Forall (fun p => p <> "") out
  /\ (length out
      <= match parser.GetStringAnnotation AnnotationsPrefix name ing with
         | parser.Value v => length (gostrings.Split v ","%char)
         | parser.Failed _ => 0
         end)%nat.
Proof.
  cbv zeta.
  split; [apply GetStringSliceAnnotation_unfold|].
  split; [apply GetStringSliceAnnotation_nonempty|].
  rewrite GetStringSliceAnnotation_unfold.
  destruct (parser.GetStringAnnotation _ _ _); [|reflexivity].
  unfold entries.
  rewrite <- (length_map gostrings.TrimSpace (gostrings.Split _ _)).
  apply List.filter_length_le.
Qed.

End Slices.

Section LoadBalancerAnnotations.
Context (AnnotationsPrefix : string).

Lemma filter_all {A} (f : A -> bool) l :
  List.filter (fun x => negb (f x)) l = [] -> List.filter f l = l.
Proof.
  induction l as [|x l IH]; [reflexivity|]. cbn.
  destruct (f x); cbn; [|discriminate]. intros H. f_equal. now apply IH.
Qed.

Lemma parse_attribute_loop attrs : forall bad good,
  Forall (fun p => p <> "") attrs ->
  fold_left loadbalancer.parse_attribute attrs (bad, good)
  = ((bad ++ List.filter (fun e => negb (well_formed e)) attrs)%list,
     (good ++ map attribute_of (List.filter well_formed attrs))%list).
Proof.
  induction attrs as [|attr attrs IH]; intros bad good Hne.
  - cbn. now rewrite !app_nil_r.
  - inversion Hne as [|? ? Hattr Hrest]; subst.
    assert (Hstep : loadbalancer.parse_attribute (bad, good) attr
                    = if well_formed attr
                      then (bad, (good ++ [attribute_of attr])%list)
                      else ((bad ++ [attr])%list, good)).
    { unfold loadbalancer.parse_attribute, well_formed, attribute_of.
      destruct (String.eqb_spec attr ""); [congruence|].
      now destruct (gostrings.Split attr "=") as [|k [|v [|x l]]]. }
    cbn [fold_left List.filter map]. rewrite Hstep.
    destruct (well_formed attr); cbn [negb map];
      rewrite IH by exact Hrest; now rewrite <- ?app_assoc.
Qed.

(** X24: [parseAttributes] reads load-balancer-attributes, and attributes only
    when the former has no entry; it returns one trimmed key and value per
    entry when every entry has exactly one [=], and otherwise fails, naming
    the entries that do not. *)
Theorem parseAttributes_entries ing :
  let attrs :=
    parser.GetStringSliceAnnotation AnnotationsPrefix
      "load-balancer-attributes" ing in
  let oldattrs :=
    parser.GetStringSliceAnnotation AnnotationsPrefix "attributes" ing in
  let used := match attrs with [] => oldattrs | _ => attrs end in
  let bad := List.filter (fun e => negb (well_formed e)) used in
  loadbalancer.parseAttributes AnnotationsPrefix ing
  = match bad with
    | [] => parser.Value (map attribute_of used)
    | _ =>
        parser.Failed
          (parser.Errorf
             ("unable to parse `" ++ GoString.Join bad ", "
              ++ "` into Key=Value pair(s)"))
    end.
Proof.
  cbv zeta. unfold loadbalancer.parseAttributes.
  pose proof (GetStringSliceAnnotation_nonempty AnnotationsPrefix
                "load-balancer-attributes" ing) as Hnew.
  pose proof (GetStringSliceAnnotation_nonempty AnnotationsPrefix
                "attributes" ing) as Hold.
  set (attrs := parser.GetStringSliceAnnotation _ "load-balancer-attributes"
                  _) in *.
  set (oldattrs := parser.GetStringSliceAnnotation _ "attributes" _) in *.
  clearbody attrs oldattrs.
  assert (Hused : (if (length attrs =? 0)%nat
                      && negb (length oldattrs =? 0)%nat
                   then oldattrs else attrs)
                  = match attrs with [] => oldattrs | _ => attrs end).
  { destruct attrs, oldattrs; reflexivity. }
  rewrite Hused.
  set (used := match attrs with [] => oldattrs | _ => attrs end) in *.
  assert (Hne : Forall (fun p => p <> "") used)
    by (subst used; now destruct attrs).
  clearbody used. destruct used as [|e used]; [reflexivity|].
  rewrite parse_attribute_loop by exact Hne. cbn [app].
  destruct (List.filter (fun e0 => negb (well_formed e0)) (e :: used))
    as [|b bad] eqn:Hbad; cbn [length Nat.ltb Nat.leb].
  - now rewrite (filter_all _ _ Hbad).
  - reflexivity.
Qed.

Lemma GetStringAnnotation_unannotated name ing :
  ing = None \/ ing = Some ∅ ->
  parser.GetStringAnnotation AnnotationsPrefix name ing
  = parser.Failed parser.ErrMissingAnnotations.
Proof. now intros [->| ->]. Qed.

(** X25: a parsed load-balancer configuration has the scheme internal or
    internet-facing and the address type ipv4 or dualstack, both set; the
    scheme is the one annotated when there is one, internal otherwise, and it
    always has a marker tag key, so auto-discovery never refuses it as
    invalid. *)
Theorem Parse_valid ing cfg :
  loadbalancer.Parse AnnotationsPrefix ing = parser.Value cfg ->
  (annotations.Scheme cfg = Some elbv2.LoadBalancerSchemeEnumInternal
   \/ annotations.Scheme cfg = Some elbv2.LoadBalancerSchemeEnumInternetFacing)
  /\ (annotations.IPAddressType cfg = Some loadbalancer.IpAddressTypeIpv4
      \/ annotations.IPAddressType cfg
         = Some loadbalancer.IpAddressTypeDualstack)
  /\ (exists key,
        role_key (aws.StringValue (annotations.Scheme cfg)) = Some key)
  /\ annotations.Subnets cfg
     = parser.GetStringSliceAnnotation AnnotationsPrefix "subnets" ing
  /\ (forall v,
        parser.GetStringAnnotation AnnotationsPrefix "scheme" ing
        = parser.Value v -> annotations.Scheme cfg = Some v)
  /\ (forall e,
        parser.GetStringAnnotation AnnotationsPrefix "scheme" ing
        = parser.Failed e ->
        annotations.Scheme cfg = Some loadbalancer.DefaultScheme).
Proof.
  unfold loadbalancer.Parse. cbv zeta.
  set (ip := match parser.GetStringAnnotation _ "ip-address-type" _ with
             | parser.Value v => v
             | parser.Failed _ => loadbalancer.DefaultIPAddressType
             end).
  set (scheme := match parser.GetStringAnnotation _ "scheme" _ with
                 | parser.Value v => v
                 | parser.Failed _ => loadbalancer.DefaultScheme
                 end).
  destruct (negb (String.eqb ip _) && negb (String.eqb ip _)) eqn:Hip;
    [discriminate|].
  destruct (negb (String.eqb scheme _) && negb (String.eqb scheme _))
    eqn:Hscheme; [discriminate|].
  destruct (loadbalancer.parseAttributes _ _); [|discriminate].
  intros [= <-].
  cbn [annotations.Scheme annotations.IPAddressType annotations.Subnets].
  assert (Hip' : ip = loadbalancer.IpAddressTypeIpv4
                 \/ ip = loadbalancer.IpAddressTypeDualstack).
  { apply andb_false_iff in Hip as [Hip|Hip];
      apply negb_false_iff, String.eqb_eq in Hip; tauto. }
  assert (Hscheme' : scheme = elbv2.LoadBalancerSchemeEnumInternal
                     \/ scheme = elbv2.LoadBalancerSchemeEnumInternetFacing).
  { apply andb_false_iff in Hscheme as [Hscheme|Hscheme];
      apply negb_false_iff, String.eqb_eq in Hscheme; tauto. }
  split; [destruct Hscheme' as [-> | ->]; tauto|].
  split; [destruct Hip' as [-> | ->]; tauto|].
  split; [destruct Hscheme' as [-> | ->]; eexists; reflexivity|].
  split; [reflexivity|].
  subst scheme. split; [intros v ->|intros e ->]; reflexivity.
Qed.

(** X26: for a Service without annotations [Parse] returns the [Dummy]
    configuration: internal, ipv4, no subnets and no attributes. *)
Theorem Parse_unannotated ing :
  ing = None \/ ing = Some ∅ ->
  loadbalancer.Parse AnnotationsPrefix ing
  = parser.Value loadbalancer.Dummy.
Proof.
  intros H. unfold loadbalancer.Parse, loadbalancer.parseAttributes,
    parser.GetStringSliceAnnotation.
  rewrite !GetStringAnnotation_unannotated by exact H. reflexivity.
Qed.

End LoadBalancerAnnotations.

Section AnnotationExamples.

(** An internet-facing Service with two subnets. *)
Lemma Parse_valid_witness :
  let ing : parser.AnnotationInterface :=
    Some {[ nlb_prefix ++ "/scheme" := "internet-facing";
            nlb_prefix ++ "/subnets" := "subnet-a, subnet-b" ]} in
  exists cfg,
    loadbalancer.Parse nlb_prefix ing = parser.Value cfg
    /\ annotations.Subnets cfg = ["subnet-a"; "subnet-b"]
    /\ exists key,
         role_key (aws.StringValue (annotations.Scheme cfg)) = Some key.
Proof.
  intros ing.
  pose (cfg :=
    {| annotations.Scheme := Some "internet-facing";
       annotations.IPAddressType := Some "ipv4";
       annotations.Subnets := ["subnet-a"; "subnet-b"];
       annotations.LBAttributes := [] |}).
  assert (H : loadbalancer.Parse nlb_prefix ing = parser.Value cfg)
    by (vm_compute; reflexivity).
  exists cfg. split; [exact H|]. split; [reflexivity|].
  destruct (Parse_valid nlb_prefix ing cfg H) as (_ & _ & Hkey & _).
  exact Hkey.
Defined.

(** Both for no object and for an empty annotation map. *)
Lemma Parse_unannotated_witness :
  loadbalancer.Parse nlb_prefix None = parser.Value loadbalancer.Dummy
  /\ loadbalancer.Parse nlb_prefix (Some ∅)
     = parser.Value loadbalancer.Dummy.
Proof.
  split; apply Parse_unannotated; [now left|now right].
Defined.

End AnnotationExamples.

(** ** Event handlers *)

Section Enqueueing.
Context (IsValidService : string -> corev1.Service -> bool).
Context {EndpointSubset : Type} `{EqDecision EndpointSubset}.

Lemma enqueue_valid_filter (h : handlers.Handler) items : forall queue,
  handlers.enqueue_valid IsValidService h items queue
  = (queue
     ++ map handlers.Request
          (List.filter (IsValidService (handlers.ServiceClass h)) items))%list.
Proof.
  unfold handlers.enqueue_valid.
  induction items as [|service items IH]; intros queue; cbn.
  - now rewrite app_nil_r.
  - rewrite IH. destruct (IsValidService _ service); cbn; [|reflexivity].
    now rewrite <- app_assoc.
Qed.

Lemma valid_requests_filter (h : handlers.Handler) items :
  of_class IsValidService (handlers.ServiceClass h)
    (map handlers.Request
       (List.filter (IsValidService (handlers.ServiceClass h)) items)).
Proof.
  apply List.Forall_forall. intros r Hr.
  apply in_map_iff in Hr as (service & <- & Hs).
  apply filter_In in Hs as [_ Hs]. now exists service.
Qed.

(** X27: the event handlers only add to the queue, and only requests for
    Services of the controller's class.  A Service update adds the old and the
    new object when both are of the class; an Endpoints update with unchanged
    subsets adds nothing, and with changed subsets does what a create does; a
    Node update adds nothing. *)
Theorem handlers_enqueue_class (h : handlers.Handler) queue :
  (forall old new,
     exists added,
       handlers.Service_Update IsValidService h old new queue
       = (queue ++ added)%list
       /\ of_class IsValidService (handlers.ServiceClass h) added
       /\ (IsValidService (handlers.ServiceClass h) old = true ->
           IsValidService (handlers.ServiceClass h) new = true ->
           added = [handlers.Request old; handlers.Request new]))
  /\ (forall epOld epNew : handlers.Endpoints (EndpointSubset := EndpointSubset),
        exists added,
          handlers.Endpoints_Update IsValidService h epOld epNew queue
          = (queue ++ added)%list
          /\ of_class IsValidService (handlers.ServiceClass h) added
          /\ (handlers.Subsets epOld = handlers.Subsets epNew -> added = [])
          /\ (handlers.Subsets epOld <> handlers.Subsets epNew ->
              handlers.Endpoints_Update IsValidService h epOld epNew queue
              = handlers.Endpoints_Create IsValidService h epNew queue))
  /\ (exists added,
        handlers.Node_Create IsValidService h queue = (queue ++ added)%list
        /\ of_class IsValidService (handlers.ServiceClass h) added)
  /\ handlers.Node_Update h queue = queue.
Proof.
  split; [|split; [|split]].
  - intros old new.
    unfold handlers.Service_Update, handlers.enqueueIfServiceClassMatched.
    destruct (IsValidService _ old) eqn:Hold,
             (IsValidService _ new) eqn:Hnew; cbn.
    + exists [handlers.Request old; handlers.Request new].
      rewrite <- app_assoc. split; [reflexivity|].
      split; [|reflexivity].
      repeat constructor; eexists; split; try reflexivity; assumption.
    + exists [handlers.Request old]. split; [reflexivity|].
      split; [|discriminate].
      repeat constructor; eexists; split; try reflexivity; assumption.
    + exists [handlers.Request new]. split; [reflexivity|].
      split; [|discriminate].
      repeat constructor; eexists; split; try reflexivity; assumption.
    + exists []. rewrite app_nil_r. split; [reflexivity|].
      split; [constructor|discriminate].
  - intros epOld epNew.
    unfold handlers.Endpoints_Update, handlers.Endpoints_Create,
      handlers.Endpoints_enqueueImpactedServices.
    destruct (bool_decide_reflect
                (handlers.Subsets epOld = handlers.Subsets epNew)) as [He|He];
      cbn.
    + exists []. rewrite app_nil_r. split; [reflexivity|].
      split; [constructor|]. split; [reflexivity|congruence].
    + destruct (handlers.Cache h _) as [items|err].
      * eexists. split; [apply enqueue_valid_filter|].
        split; [apply valid_requests_filter|]. split; [congruence|].
        reflexivity.
      * exists []. rewrite app_nil_r. split; [reflexivity|].
        split; [constructor|]. split; [congruence|reflexivity].
  - unfold handlers.Node_Create, handlers.Node_enqueueImpactedServices.
    destruct (handlers.Cache h None) as [items|err].
    + eexists. split; [apply enqueue_valid_filter|].
      apply valid_requests_filter.
    + exists []. rewrite app_nil_r. split; [reflexivity|constructor].
  - reflexivity.
Qed.

End Enqueueing.

(** ** Instance IDs (store) *)

Section LastSegment.
Context (ParseTolerant : string -> Z * Z).
Context (IsValidNode : k8sstore.Node -> bool).

Lemma last_segment_suffix s : forall acc,
  all_bytes not_slash acc = true ->
  exists pre,
    (acc ++ s = pre ++ lbctl.last_segment acc s)
    /\ all_bytes not_slash (lbctl.last_segment acc s) = true
    /\ (pre = "" \/ exists pre', pre = pre' ++ "/").
Proof.
  induction s as [|c s IH]; intros acc Hacc; cbn [lbctl.last_segment].
  - exists "". rewrite append_empty_r. split; [reflexivity|].
    split; [exact Hacc|now left].
  - destruct (Ascii.eqb_spec c "/"%char) as [->|Hc].
    + destruct (IH "" eq_refl) as (pre & Heq & Hall & Hpre).
      change ("" ++ s) with s in Heq.
      exists (acc ++ "/" ++ pre).
      split; [|split; [exact Hall|]].
      * rewrite append_assoc.
        change (("/" ++ pre) ++ lbctl.last_segment "" s)
          with (String "/" (pre ++ lbctl.last_segment "" s)).
        now rewrite <- Heq.
      * right. destruct Hpre as [->|(pre' & ->)].
        -- exists acc. reflexivity.
        -- exists (acc ++ "/" ++ pre'). now rewrite !append_assoc.
    + destruct (IH (acc ++ String c "")) as (pre & Heq & Hall & Hpre).
      { rewrite all_bytes_app, Hacc. cbn. unfold not_slash.
        now destruct (Ascii.eqb_spec c "/"%char). }
      exists pre. split; [|now split].
      rewrite <- Heq, append_assoc. reflexivity.
Qed.

End LastSegment.

Section InstanceIDs.
Context (ParseTolerant : string -> Z * Z).
Context (IsValidNode : k8sstore.Node -> bool).

(** X28: for a kubelet of version 1.10 or older [GetNodeInstanceID] returns
    the external ID; otherwise it fails exactly for an empty provider ID, and
    returns the part of the provider ID after its last slash, which holds no
    slash. *)
Theorem GetNodeInstanceID_provider node :
  let '(Major, Minor) := ParseTolerant (k8sstore.KubeletVersion node) in
  if (Major =? 1) && (Minor <=? 10)
  then k8sstore.GetNodeInstanceID ParseTolerant node
       = Ok (k8sstore.DoNotUse_ExternalID node)
  else
    match k8sstore.GetNodeInstanceID ParseTolerant node with
    | Ok instanceID =>
        k8sstore.ProviderID node <> ""
        /\ all_bytes not_slash instanceID = true
        /\ exists pre,
             k8sstore.ProviderID node = pre ++ instanceID
             /\ (pre = "" \/ exists pre', pre = pre' ++ "/")
    | Err err =>
        k8sstore.ProviderID node = ""
        /\ err = "No providerID found for node " ++ k8sstore.NodeName node
    end.
Proof.
  unfold k8sstore.GetNodeInstanceID.
  destruct (ParseTolerant _) as [Major Minor].
  destruct ((Major =? 1) && (Minor <=? 10)); [reflexivity|].
  destruct (String.eqb_spec (k8sstore.ProviderID node) "") as [He|He];
    [now split|].
  split; [exact He|].
  destruct (last_segment_suffix (k8sstore.ProviderID node) "" eq_refl)
    as (pre & Heq & Hall & Hpre).
  split; [exact Hall|]. now exists pre.
Qed.

Lemma ListNodes_from l : forall acc,
  fold_left
    (fun nodes n =>
       if negb (IsValidNode n) then nodes else (nodes ++ [n])%list) l acc
  = (acc ++ List.filter IsValidNode l)%list.
Proof.
  induction l as [|n l IH]; intros acc; cbn.
  - now rewrite app_nil_r.
  - rewrite IH. destruct (IsValidNode n); cbn; [|reflexivity].
    now rewrite <- app_assoc.
Qed.

Lemma ListNodes_filter s :
  k8sstore.ListNodes IsValidNode s
  = List.filter IsValidNode (k8sstore.NodeLister s).
Proof. unfold k8sstore.ListNodes. now rewrite ListNodes_from. Qed.

Lemma instance_ids_all nodes : forall acc,
  match k8sstore.instance_ids ParseTolerant nodes acc with
  | Ok ids =>
      exists found,
        ids = (acc ++ found)%list
        /\ Forall2
             (fun node id =>
                k8sstore.GetNodeInstanceID ParseTolerant node = Ok id)
             nodes found
  | Err err =>
      exists before node after,
        nodes = (before ++ node :: after)%list
        /\ k8sstore.GetNodeInstanceID ParseTolerant node = Err err
        /\ Forall
             (fun n =>
                exists id,
                  k8sstore.GetNodeInstanceID ParseTolerant n = Ok id)
             before
  end.
Proof.
  induction nodes as [|node rest IH]; intros acc; cbn.
  - exists []. rewrite app_nil_r. split; [reflexivity|constructor].
  - destruct (k8sstore.GetNodeInstanceID ParseTolerant node)
      as [id|err] eqn:Hnode.
    + specialize (IH (acc ++ [id])%list).
      destruct (k8sstore.instance_ids _ rest _) as [ids|err].
      * destruct IH as (found & -> & Hall). exists (id :: found).
        rewrite <- app_assoc. split; [reflexivity|]. now constructor.
      * destruct IH as (before & n & after & -> & Hn & Hbefore).
        exists (node :: before), n, after. split; [reflexivity|].
        split; [exact Hn|]. constructor; [now exists id|exact Hbefore].
    + exists [], node, rest. split; [reflexivity|].
      split; [exact Hnode|constructor].
Qed.

(** X29: [GetClusterInstanceIDs] returns the instance ID of every valid node,
    in the order of the lister, or the error of the first valid node that has
    none; the nodes that are not valid play no part. *)
Theorem GetClusterInstanceIDs_all s :
  let nodes := List.filter IsValidNode (k8sstore.NodeLister s) in
  match k8sstore.GetClusterInstanceIDs ParseTolerant IsValidNode s with
  | Ok ids =>
      Forall2
        (fun node id => k8sstore.GetNodeInstanceID ParseTolerant node = Ok id)
        nodes ids
  | Err err =>
      exists before node after,
        nodes = (before ++ node :: after)%list
        /\ k8sstore.GetNodeInstanceID ParseTolerant node = Err err
        /\ Forall
             (fun n =>
                exists id,
                  k8sstore.GetNodeInstanceID ParseTolerant n = Ok id)
             before
  end.
Proof.
  cbv zeta. unfold k8sstore.GetClusterInstanceIDs.
  rewrite ListNodes_filter.
  pose proof (instance_ids_all
                (List.filter IsValidNode (k8sstore.NodeLister s)) []) as H.
  destruct (k8sstore.instance_ids _ _ _) as [ids|err]; [|exact H].
  now destruct H as (found & -> & Hall).
Qed.

(** X30: an instance ID returned for a pod IP is the instance ID of a node one
    of whose addresses is the host IP of a pod with that IP. *)
Theorem GetInstanceIDFromPodIP_sound s ip instanceID :
  k8sstore.GetInstanceIDFromPodIP ParseTolerant s ip = Ok instanceID ->
  exists pod node,
    In pod (k8sstore.PodLister s)
    /\ k8sstore.PodIP pod = ip
    /\ k8sstore.HostIP pod <> ""
    /\ In node (k8sstore.NodeLister s)
    /\ In (k8sstore.HostIP pod) (k8sstore.Addresses node)
    /\ k8sstore.GetNodeInstanceID ParseTolerant node = Ok instanceID.
Proof.
  unfold k8sstore.GetInstanceIDFromPodIP. cbv zeta.
  destruct (List.find _ (k8sstore.PodLister s)) as [pod|] eqn:Hpod;
    [|discriminate].
  apply find_some in Hpod as [Hin Hip%String.eqb_eq].
  destruct (String.eqb_spec (k8sstore.HostIP pod) "") as [|Hhost];
    [discriminate|].
  destruct (List.find _ (k8sstore.NodeLister s)) as [node|] eqn:Hnode;
    [|discriminate].
  apply find_some in Hnode as [Hnin Haddr].
  apply existsb_exists in Haddr as (addr & Haddr & ->%String.eqb_eq).
  intros H. now exists pod, node.
Qed.

End InstanceIDs.

Section InstanceIDExamples.

(** A pod on node-a, whose provider ID ends in i-0abc. *)
Lemma GetInstanceIDFromPodIP_sound_witness :
  let s :=
    {| k8sstore.NodeLister := [node_a];
       k8sstore.PodLister :=
         [{| k8sstore.PodIP := "10.1.2.3"; k8sstore.HostIP := "10.0.0.1" |}]
    |} in
  k8sstore.GetInstanceIDFromPodIP recent s "10.1.2.3" = Ok "i-0abc"
  /\ exists pod node,
       In pod (k8sstore.PodLister s)
       /\ k8sstore.PodIP pod = "10.1.2.3"
       /\ k8sstore.HostIP pod <> ""
       /\ In node (k8sstore.NodeLister s)
       /\ In (k8sstore.HostIP pod) (k8sstore.Addresses node)
       /\ k8sstore.GetNodeInstanceID recent node = Ok "i-0abc".
Proof.
  intros s.
  assert (H : k8sstore.GetInstanceIDFromPodIP recent s "10.1.2.3"
              = Ok "i-0abc") by (vm_compute; reflexivity).
  split; [exact H|].
  exact (GetInstanceIDFromPodIP_sound recent s "10.1.2.3" "i-0abc" H).
Defined.

End InstanceIDExamples.
